(** * Session shopping-cart engine of the voice-ordering webhooks (src/cart.js)

    A shallow embedding of the cart handlers [addToCart], [removeFromCart],
    [getCartSummary], [upsell], [addModifierToCart] and
    [removeModifierFromCart], together with the helpers they call, and of the
    conversion of a session cart into an order for the payment processor
    ([convertCartToSquareOrder] of src/squareCallback.js), followed by the
    properties of the cart engine.

    Conventions of the embedding.
    - JavaScript strings are [string] (sequences of 8-bit characters); the
      case and white-space methods are the ASCII ones.
    - JavaScript numbers that carry money are exact rationals [Q]; IEEE
      rounding is not modelled.  Quantities stored in a cart, and the quantity
      to remove, are integers [Z]; the quantity requested of [addToCart] is a
      rational, since the handler itself checks that it is an integer.
    - The three DynamoDB tables are finite maps; a request to a table may be
      rejected, which is an input of the model ([getFails], [putFails]).  A row
      of the session table is its [cart_items]; [updated_at] and [ttl] are not
      modelled.  A row of the menu table is the map from item names to items.
      Its other properties are left out: the key attributes [restaurantName]
      and [locationID], and the names every JavaScript object inherits (as
      [constructor]).  The code reads [locationMenu[itemName]] on the whole
      row, so for an [itemName] that is such a property it goes on with a
      value that is not an item and builds a line without price, where the
      model answers that the item is not on the menu.  The model is that of
      requests whose [itemName] is the name of an item or no property of the
      row.
    - A handler is a function from the parsed request body and the state of
      the tables to a response and the new state.  A body that does not parse
      is not modelled.  A response is its status code and, of its JSON body,
      the [message] (or [error]) string and the names of the fields; the
      values of the other fields and the constant headers are left out. *)

From Stdlib Require Import ZArith QArith Qabs Qround Ascii String DecimalString DecimalZ.
From stdpp Require Import gmap strings list fin_maps sorting.

Local Open Scope Z_scope.

(** ** JavaScript string methods *)

Module JS.

Definition isWhiteSpace (c : ascii) : bool :=
  match nat_of_ascii c with
  | 9%nat | 10%nat | 11%nat | 12%nat | 13%nat | 32%nat => true
  | _ => false
  end.

Definition isDigit (c : ascii) : bool :=
  let n := nat_of_ascii c in (48 <=? n)%nat && (n <=? 57)%nat.

(** [\w] of the regular expressions: letters, digits and underscore. *)
Definition isWordChar (c : ascii) : bool :=
  let n := nat_of_ascii c in
  ((65 <=? n)%nat && (n <=? 90)%nat) || ((97 <=? n)%nat && (n <=? 122)%nat)
  || isDigit c || (n =? 95)%nat.

Definition lowerChar (c : ascii) : ascii :=
  let n := nat_of_ascii c in
  if (65 <=? n)%nat && (n <=? 90)%nat then ascii_of_nat (n + 32) else c.

Definition upperChar (c : ascii) : ascii :=
  let n := nat_of_ascii c in
  if (97 <=? n)%nat && (n <=? 122)%nat then ascii_of_nat (n - 32) else c.

Fixpoint mapChars (f : ascii -> ascii) (s : string) : string :=
  match s with
  | EmptyString => EmptyString
  | String c s' => String (f c) (mapChars f s')
  end.

Definition toLowerCase : string -> string := mapChars lowerChar.
Definition toUpperCase : string -> string := mapChars upperChar.

Fixpoint trimStart (s : string) : string :=
  match s with
  | EmptyString => EmptyString
  | String c s' => if isWhiteSpace c then trimStart s' else s
  end.

(** Drops the longest suffix whose characters all satisfy [p]. *)
Fixpoint dropEndWhile (p : ascii -> bool) (s : string) : string :=
  match s with
  | EmptyString => EmptyString
  | String c s' =>
      match dropEndWhile p s' with
      | EmptyString => if p c then EmptyString else String c EmptyString
      | t => String c t
      end
  end.

Definition trimEnd : string -> string := dropEndWhile isWhiteSpace.
Definition trim (s : string) : string := trimEnd (trimStart s).

(** [s.includes(sub)] *)
Fixpoint includes (s sub : string) : bool :=
  if String.prefix sub s then true
  else match s with
       | EmptyString => false
       | String _ s' => includes s' sub
       end.

(** [s.endsWith(suffix)] *)
Definition endsWith (s suffix : string) : bool :=
  let n := String.length s in
  let k := String.length suffix in
  (k <=? n)%nat && String.eqb (String.substring (n - k) k s) suffix.

(** [s.replace(/pat/g, repl)] for a literal, non-empty [pat]: [skip] counts the
    characters of a match that are still to be consumed. *)
Fixpoint replaceAll_go (pat repl : string) (skip : nat) (s : string) : string :=
  match s with
  | EmptyString => EmptyString
  | String c s' =>
      match skip with
      | S k => replaceAll_go pat repl k s'
      | O =>
          if String.prefix pat s
          then repl +:+ replaceAll_go pat repl (String.length pat - 1) s'
          else String c (replaceAll_go pat repl 0 s')
      end
  end.

Definition replaceAll (pat repl s : string) : string := replaceAll_go pat repl 0 s.

(** [s.replace(/(\d+)pc\b/g, '$1 piece')]: a match is a run of digits followed
    by [pc] and a word boundary, so it is recognised at the [p] that follows a
    digit; the digits are kept and [pc] becomes [ piece]. *)
Definition wordBoundaryAfterWord (rest : string) : bool :=
  match rest with
  | EmptyString => true
  | String c _ => negb (isWordChar c)
  end.

Fixpoint replacePc_go (prevDigit skip : bool) (s : string) : string :=
  match s with
  | EmptyString => EmptyString
  | String c s' =>
      if skip then replacePc_go false false s'
      else if prevDigit && Ascii.eqb c "p"
              && match s' with
                 | String c' rest => Ascii.eqb c' "c" && wordBoundaryAfterWord rest
                 | EmptyString => false
                 end
      then " piece" +:+ replacePc_go false true s'
      else String c (replacePc_go (isDigit c) false s')
  end.

Definition replacePc : string -> string := replacePc_go false false.

(** [s.replace(/\d+$/, '')] *)
Definition stripTrailingDigits : string -> string := dropEndWhile isDigit.

(** [arr.join(sep)] *)
Definition join (sep : string) (l : list string) : string := String.concat sep l.

(** [String(n)] for an integer [n]. *)
Definition numberToString (n : Z) : string := NilZero.string_of_int (Z.to_int n).

(** [x.toFixed(2)] on an exact rational: the sign, then the integer nearest to
    [|x| * 100] (the larger one on a tie) with its last two digits after the
    point. *)
Definition toFixed2 (x : Q) : string :=
  let a := Qabs x in
  let n := Qfloor (a * 100 + (1 # 2))%Q in
  let frac := n mod 100 in
  (if Qlt_le_dec x 0 then "-" else "")
  +:+ numberToString (n / 100) +:+ "."
  +:+ (if (frac <? 10)%Z then "0" else "") +:+ numberToString frac.

(** The double-quote character of the message templates. *)
Definition dq : string := String "034"%char EmptyString.

(** Truthiness of an optional string: [undefined] and [''] are falsy. *)
Definition truthy (o : option string) : bool :=
  match o with
  | Some s => negb (String.eqb s "")
  | None => false
  end.

End JS.

(** ** Data model *)

(** A modifier option of the menu; [opt_price] is in cents. *)
Record ModifierOption := {
  opt_id : string;
  opt_name : string;
  opt_price : Z;
  opt_currency : string
}.

(** A modifier category of a menu item; [options] may be missing. *)
Record ModifierCategory := {
  cat_category : string;
  cat_options : option (list ModifierOption)
}.

(** An item of the location menu; [menu_price] is in cents and [modifiers]
    may be missing. *)
Record MenuItem := {
  menu_variation_id : string;
  menu_price : Z;
  menu_currency : string;
  menu_description : string;
  menu_modifiers : option (list ModifierCategory)
}.

(** A modifier applied to a cart item; [mod_price] is in dollars. *)
Record Modifier := {
  category : string;
  optionId : string;
  optionName : string;
  mod_price : Q;
  mod_currency : string
}.

(** A line of the session cart, with the fields [addToCart] writes
    ([price_money] repeats [price] and [currency] and is left out).  Every
    line is created by [addToCart] with a [modifiers] array. *)
Record CartItem := {
  variation_id : string;
  item_name : string;
  price : Z;
  currency : string;
  description : string;
  quantity : Z;
  specialInstructions : string;
  unitPrice : Q;
  lineTotal : Q;
  modifiers : list Modifier;
  itemId : string;
  name : string
}.

Definition with_quantity_total (q : Z) (t : Q) (it : CartItem) : CartItem :=
  {| variation_id := variation_id it; item_name := item_name it;
     price := price it; currency := currency it; description := description it;
     quantity := q; specialInstructions := specialInstructions it;
     unitPrice := unitPrice it; lineTotal := t; modifiers := modifiers it;
     itemId := itemId it; name := name it |}.

Definition with_modifiers_total (ms : list Modifier) (t : Q) (it : CartItem) : CartItem :=
  {| variation_id := variation_id it; item_name := item_name it;
     price := price it; currency := currency it; description := description it;
     quantity := quantity it; specialInstructions := specialInstructions it;
     unitPrice := unitPrice it; lineTotal := t; modifiers := ms;
     itemId := itemId it; name := name it |}.

(** The parsed request body: [call.call_id], [call.to_number] and the fields of
    [args] the handlers read.  A missing field is [None]; a missing array is
    read as the empty one ([|| []]). *)
Record Body := {
  call_id : option string;
  to_number : option string;
  arg_itemName : option string;
  arg_quantity : option Q;
  arg_specialInstructions : option string;
  arg_firstItemSpiceLevel : option string;
  arg_secondItemSpiceLevel : option string;
  arg_quantityToRemove : option Z;
  arg_firstSandwichMods : list string;
  arg_secondSandwichMods : list string
}.

(** The answer of a handler: its status code and its JSON body, of which the
    [message] (for an error response, the [error]) and the names of the fields,
    in the order of the body, are kept. *)
Record Response := {
  statusCode : Z;
  message : string;
  fieldNames : list string
}.

(** [createSuccessResponse(data)] for a [data] that holds a [message] and the
    further fields named. *)
Definition createSuccessResponseWith (msg : string) (further : list string) : Response :=
  {| statusCode := 200; message := msg; fieldNames := "message" :: further |}.

(** [createSuccessResponse({message})] *)
Definition createSuccessResponse (msg : string) : Response :=
  createSuccessResponseWith msg [].

(** [createErrorResponse(statusCode, message, additionalData)]: the body is
    [{error: message, ...additionalData}]. *)
Definition createErrorResponseWith (code : Z) (msg : string)
  (additionalData : list string) : Response :=
  {| statusCode := code; message := msg; fieldNames := "error" :: additionalData |}.

(** [createErrorResponse(statusCode, message)], with the default
    [additionalData = {}]. *)
Definition createErrorResponse (code : Z) (msg : string) : Response :=
  createErrorResponseWith code msg [].

(** The error kinds of the engine, as the status codes carry them. *)
Inductive ErrorKind := ValidationError | NotFoundError | InternalError.

Definition errorKind (r : Response) : option ErrorKind :=
  if statusCode r =? 400 then Some ValidationError
  else if statusCode r =? 404 then Some NotFoundError
  else if statusCode r =? 500 then Some InternalError
  else None.

(** ** The tables *)

Inductive Table := SESSION_CARTS_TABLE | PHONE_NUMBER_CLIENT_MAP_TABLE | CLIENT_MENU_TABLE.

Record LocationData := {
  locationId : string;
  restaurantName : string
}.

(** The state of the three tables.  [getFails t = Some e] when a [get] on
    table [t] is rejected with an error of message [e], and likewise
    [putFails] for a [put] on the session table.  [putLog] records the [put]
    requests issued so far, most recent first. *)
Record World := {
  phoneNumberClientMap : gmap string LocationData;
  clientMenu : gmap (string * string) (gmap string MenuItem);
  sessionCarts : gmap string (list CartItem);
  getFails : Table -> option string;
  putFails : option string;
  putLog : list (string * list CartItem)
}.

(** The cart stored for a session: the empty list when there is no row. *)
Definition storedCart (w : World) (callId : string) : list CartItem :=
  default [] (sessionCarts w !! callId).

(** A computation that returns or throws an [Error] with a message. *)
Inductive Result (A : Type) :=
  | Ok (a : A)
  | Throw (msg : string).
Arguments Ok {A} a.
Arguments Throw {A} msg.

Definition extractCallId (body : Body) : option string := call_id body.

Definition extractPhoneNumber (body : Body) : string :=
  if JS.truthy (to_number body) then default "" (to_number body) else "+17039120079".

Definition getLocationFromPhoneNumber (phoneNumber : string) (w : World)
  : Result LocationData :=
  if String.eqb phoneNumber "" then Throw "Phone number is required for location lookup"
  else match getFails w PHONE_NUMBER_CLIENT_MAP_TABLE with
       | Some e => Throw e
       | None =>
           match phoneNumberClientMap w !! phoneNumber with
           | None => Throw ("No location found for phone number: " +:+ phoneNumber)
           | Some item => Ok {| locationId := locationId item;
                                restaurantName := restaurantName item |}
           end
       end.

Definition getLocationMenu (restaurant location : string) (w : World)
  : Result (gmap string MenuItem) :=
  if String.eqb restaurant "" || String.eqb location ""
  then Throw "Restaurant name and location ID are required"
  else match getFails w CLIENT_MENU_TABLE with
       | Some e => Throw e
       | None =>
           match clientMenu w !! (restaurant, location) with
           | None => Throw ("No menu found for " +:+ restaurant +:+ " at location " +:+ location)
           | Some item => Ok item
           end
       end.

(** [getSessionCart]: a rejected read is logged and answered with [[]]. *)
Definition getSessionCart (callId : option string) (w : World) : list CartItem :=
  match callId with
  | None => []
  | Some c =>
      if String.eqb c "" then []
      else match getFails w SESSION_CARTS_TABLE with
           | Some _ => []
           | None => default [] (sessionCarts w !! c)
           end
  end.

(** [saveSessionCart]: one [put] of the whole cart; a rejected [put] is
    rethrown and leaves the row as it was. *)
Definition saveSessionCart (callId : option string) (cartItems : list CartItem)
  (w : World) : Result unit * World :=
  match callId with
  | None => (Throw "Call ID required for session cart", w)
  | Some c =>
      if String.eqb c "" then (Throw "Call ID required for session cart", w)
      else
        let logged := {| phoneNumberClientMap := phoneNumberClientMap w;
                         clientMenu := clientMenu w;
                         sessionCarts := sessionCarts w;
                         getFails := getFails w; putFails := putFails w;
                         putLog := (c, cartItems) :: putLog w |} in
        match putFails w with
        | Some e => (Throw e, logged)
        | None =>
            (Ok tt, {| phoneNumberClientMap := phoneNumberClientMap w;
                       clientMenu := clientMenu w;
                       sessionCarts := <[c := cartItems]> (sessionCarts w);
                       getFails := getFails w; putFails := putFails w;
                       putLog := (c, cartItems) :: putLog w |})
        end
  end.

(** ** Modifier resolver *)

Definition centsToDollars (cents : Z) : Q := (inject_Z cents / 100)%Q.

Definition FIRST_MODS : string := "Choose Your First Sandwich Mods".
Definition SECOND_MODS : string := "Choose Your Second Sandwich Mods".

Definition findSpiceLevelModifier (menuItem : MenuItem) (spiceLevel : string)
  (isFirstItem is2PcItem : bool) : option Modifier :=
  if String.eqb spiceLevel "" then None
  else match menu_modifiers menuItem with
  | None => None
  | Some cats =>
      let targetCategory :=
        if is2PcItem then
          let categoryName := if isFirstItem then FIRST_MODS else SECOND_MODS in
          List.find (fun cat => String.eqb (cat_category cat) categoryName) cats
        else
          List.find (fun cat =>
            JS.includes (JS.toLowerCase (cat_category cat)) "spice level") cats in
      match targetCategory with
      | None => None
      | Some cat =>
          match cat_options cat with
          | None => None
          | Some opts =>
              match List.find (fun option =>
                      String.eqb (JS.toLowerCase (JS.trim (opt_name option)))
                                 (JS.toLowerCase spiceLevel)) opts with
              | None => None
              | Some spiceOption =>
                  Some {| category := cat_category cat;
                          optionId := opt_id spiceOption;
                          optionName := opt_name spiceOption;
                          mod_price := centsToDollars (opt_price spiceOption);
                          mod_currency := opt_currency spiceOption |}
              end
          end
      end
  end.

Definition findModifierInCategory (menuItem : MenuItem)
  (modifierName targetCategoryName : string) : option Modifier :=
  if String.eqb modifierName "" then None
  else match menu_modifiers menuItem with
  | None => None
  | Some cats =>
      match List.find (fun cat => String.eqb (cat_category cat) targetCategoryName) cats with
      | None => None
      | Some cat =>
          match cat_options cat with
          | None => None
          | Some opts =>
              match List.find (fun option =>
                      String.eqb (JS.trim (opt_name option)) (JS.trim modifierName)) opts with
              | None => None
              | Some modifierOption =>
                  Some {| category := cat_category cat;
                          optionId := opt_id modifierOption;
                          optionName := opt_name modifierOption;
                          mod_price := centsToDollars (opt_price modifierOption);
                          mod_currency := opt_currency modifierOption |}
              end
          end
      end
  end.

(** The search of [addModifierToCart] for an item that is not a two-piece one:
    the first category, in menu order, that has an option of that name. *)
Fixpoint findModifierAnyCategory (cats : list ModifierCategory) (firstMod : string)
  : option Modifier :=
  match cats with
  | [] => None
  | modifierCategory :: rest =>
      match cat_options modifierCategory with
      | None => findModifierAnyCategory rest firstMod
      | Some opts =>
          match List.find (fun opt =>
                  String.eqb (JS.trim (opt_name opt)) (JS.trim firstMod)) opts with
          | Some option =>
              Some {| category := cat_category modifierCategory;
                      optionId := opt_id option;
                      optionName := opt_name option;
                      mod_price := centsToDollars (opt_price option);
                      mod_currency := if String.eqb (opt_currency option) ""
                                      then "USD" else opt_currency option |}
          | None => findModifierAnyCategory rest firstMod
          end
      end
  end.

(** ** Speech formatter *)

Definition convertModifierToSpeech (modifierName : string) : string :=
  if String.eqb modifierName "Original" then "original"
  else if String.eqb modifierName "Mild" then "mild"
  else if String.eqb modifierName "Medium" then "medium"
  else if String.eqb modifierName "Hot" then "hot"
  else if String.eqb modifierName "Extra Hot" then "extra hot"
  else if String.eqb modifierName "FCK YOU CRA" then "f you cray"
  else if JS.includes modifierName "Add cheese" then "with cheese"
  else if JS.includes modifierName "No cheese" then "no cheese"
  else if JS.includes modifierName "No Pickles" then "no pickles"
  else if JS.includes modifierName "No Slaw" then "no slaw"
  else if JS.includes modifierName "No Big Bird Sauce" then "no sauce"
  else if String.eqb modifierName "Add tender" then "with extra tender"
  else if String.eqb modifierName "Pickles on the side" then "pickles on the side"
  else if String.eqb modifierName "Slaw on the side" then "slaw on the side"
  else if String.eqb modifierName "Chicken & Bun Only" then "chicken and bun only"
  else if String.eqb modifierName "Substitute fries with mac & cheese"
       then "substitute fries with mac and cheese"
  else if String.eqb modifierName "Substitute fries with slaw"
       then "substitute fries with slaw"
  else if JS.includes modifierName "Substitute Slaw with Lettuce"
       then "substitute slaw with lettuce"
  else JS.trim (JS.stripTrailingDigits (JS.toLowerCase modifierName)).

Definition createModifierDescription (mods : list Modifier) : string :=
  match mods with
  | [] => ""
  | _ =>
      let speech m := convertModifierToSpeech (optionName m) in
      let piece1Modifiers :=
        speech <$> List.filter (fun m => JS.endsWith (optionName m) " 1") mods in
      let piece2Modifiers :=
        speech <$> List.filter (fun m => negb (JS.endsWith (optionName m) " 1")
                                         && JS.endsWith (optionName m) " 2") mods in
      let wholeItemModifiers :=
        speech <$> List.filter (fun m => negb (JS.endsWith (optionName m) " 1")
                                         && negb (JS.endsWith (optionName m) " 2")) mods in
      let descriptions :=
        (match piece1Modifiers with
         | [] => []
         | _ => ["first sandwich " +:+ JS.join " " piece1Modifiers]
         end)
        ++ (match piece2Modifiers with
            | [] => []
            | _ => ["second sandwich " +:+ JS.join " " piece2Modifiers]
            end)
        ++ wholeItemModifiers in
      match descriptions with
      | [] => ""
      | _ => " - " +:+ JS.join ", " descriptions
      end
  end.

(** [a || b] on strings. *)
Definition orElse (a b : string) : string := if String.eqb a "" then b else a.

Definition speechItem (item : CartItem) : string :=
  let itemName := orElse (item_name item) (orElse (name item) "Unknown Item") in
  let itemName :=
    if String.eqb (JS.toUpperCase itemName) "SODA"
       && negb (String.eqb (specialInstructions item) "")
    then specialInstructions item else itemName in
  let itemName := JS.replacePc itemName in
  let itemName := JS.replaceAll "FCK YOU CRA" "F.C.K." itemName in
  let quantity := if quantity item =? 0 then 1 else quantity item in
  JS.numberToString quantity +:+ " " +:+ itemName
  +:+ createModifierDescription (modifiers item).

Definition createSpeechFriendlySummary (sessionCart : list CartItem) (subtotal : Q)
  : string :=
  match sessionCart with
  | [] => "Your cart is empty."
  | _ =>
      let speechItems := speechItem <$> sessionCart in
      let itemsText := JS.join ", " speechItems in
      let formattedSubtotal := JS.toFixed2 subtotal in
      itemsText +:+ ". Your total is $" +:+ formattedSubtotal +:+ " plus tax"
  end.

(** ** Array helpers *)

(** [arr.findIndex(p)]: the least index whose element satisfies [p]. *)
Fixpoint findIndex {A : Type} (p : A -> bool) (l : list A) : option nat :=
  match l with
  | [] => None
  | x :: l' => if p x then Some 0%nat else S <$> findIndex p l'
  end.

(** [for (i = arr.length - 1; i >= 0; i--) if (p(arr[i])) ... break]: the
    greatest index whose element satisfies [p]. *)
Fixpoint findLastIndex {A : Type} (p : A -> bool) (l : list A) : option nat :=
  match l with
  | [] => None
  | x :: l' =>
      match findLastIndex p l' with
      | Some i => Some (S i)
      | None => if p x then Some 0%nat else None
      end
  end.

(** ** Cart engine: the in-memory steps *)

(** [(mod.price || 0)] *)
Definition orZero (p : Q) : Q := if Qeq_bool p 0 then 0%Q else p.

(** [mods.reduce((sum, mod) => sum + (mod.price || 0), 0)] *)
Definition modifierTotal (mods : list Modifier) : Q :=
  fold_left (fun sum m => (sum + orZero (mod_price m))%Q) mods 0%Q.

(** [Number.isInteger] on a rational. *)
Definition isInteger (q : Q) : bool := Qnum q mod Zpos (Qden q) =? 0.

(** [body.args?.quantity || 1] *)
Definition requestedQuantity (body : Body) : Q :=
  match arg_quantity body with
  | Some q => if Qeq_bool q 0 then 1%Q else q
  | None => 1%Q
  end.

(** The line [addToCart] builds from the menu item, with the spice levels it
    could resolve, and its line total. *)
Definition buildCartItem (itemName : string) (menuItem : MenuItem) (qty : Z)
  (instructions : string) (firstItemSpiceLevel secondItemSpiceLevel : option string)
  : CartItem :=
  let is2PcItem := JS.includes itemName "(2pc)" in
  let unit := centsToDollars (menu_price menuItem) in
  let first :=
    if JS.truthy firstItemSpiceLevel
    then findSpiceLevelModifier menuItem (default "" firstItemSpiceLevel) true is2PcItem
    else None in
  let second :=
    if JS.truthy secondItemSpiceLevel && is2PcItem
    then findSpiceLevelModifier menuItem (default "" secondItemSpiceLevel) false is2PcItem
    else None in
  let totalModifierPrice := 0%Q in
  let totalModifierPrice :=
    match first with Some m => (totalModifierPrice + mod_price m)%Q
                   | None => totalModifierPrice end in
  let totalModifierPrice :=
    match second with Some m => (totalModifierPrice + mod_price m)%Q
                    | None => totalModifierPrice end in
  {| variation_id := menu_variation_id menuItem;
     item_name := itemName;
     price := menu_price menuItem;
     currency := menu_currency menuItem;
     description := menu_description menuItem;
     quantity := qty;
     specialInstructions := instructions;
     unitPrice := unit;
     lineTotal := ((unit + totalModifierPrice) * inject_Z qty)%Q;
     modifiers := option_list first ++ option_list second;
     itemId := menu_variation_id menuItem;
     name := itemName |}.

(** [mods.map(mod => mod.optionId).sort()] *)
Definition sortedOptionIds (mods : list Modifier) : list string :=
  merge_sort String.le (optionId <$> mods).

(** The predicate of the [findIndex] of [addToCart]: same item, same
    instructions, same number of modifiers and the same sorted option ids. *)
Definition sameConfiguration (cartItem item : CartItem) : bool :=
  if negb (String.eqb (itemId item) (itemId cartItem))
     || negb (String.eqb (specialInstructions item) (specialInstructions cartItem))
  then false
  else if negb (length (modifiers item) =? length (modifiers cartItem))%nat
  then false
  else bool_decide (sortedOptionIds (modifiers item) = sortedOptionIds (modifiers cartItem)).

(** The update of an existing line: the quantity grows and the total is
    recomputed with the modifiers. *)
Definition increaseQuantity (qty : Z) (existing : CartItem) : CartItem :=
  let q := quantity existing + qty in
  with_quantity_total q
    ((unitPrice existing + modifierTotal (modifiers existing)) * inject_Z q)%Q existing.

Definition mergeIntoCart (cartItem : CartItem) (qty : Z) (sessionCart : list CartItem)
  : list CartItem :=
  match findIndex (sameConfiguration cartItem) sessionCart with
  | Some existingIndex => alter (increaseQuantity qty) existingIndex sessionCart
  | None => sessionCart ++ [cartItem]
  end.

(** The flexible name match of [removeFromCart]. *)
Definition nameMatches (itemName : string) (item : CartItem) : bool :=
  JS.includes (JS.toLowerCase (name item)) (JS.toLowerCase itemName)
  || JS.includes (JS.toLowerCase itemName) (JS.toLowerCase (name item)).

(** [quantityToRemove || cartItem.quantity] *)
Definition removeQuantity (quantityToRemove : option Z) (cartItem : CartItem) : Z :=
  match quantityToRemove with
  | Some n => if n =? 0 then quantity cartItem else n
  | None => quantity cartItem
  end.

(** The reduction of a line: the total is recomputed from the unit price. *)
Definition decreaseQuantity (removeQty : Z) (item : CartItem) : CartItem :=
  let q := quantity item - removeQty in
  with_quantity_total q (unitPrice item * inject_Z q)%Q item.

Definition removeAt (cartIndex : nat) (removeQty : Z) (cartItem : CartItem)
  (sessionCart : list CartItem) : list CartItem :=
  if removeQty >=? quantity cartItem
  then delete cartIndex sessionCart
  else alter (decreaseQuantity removeQty) cartIndex sessionCart.

(** The exact name match of the modifier handlers. *)
Definition isNamed (itemName : string) (item : CartItem) : bool :=
  String.eqb (item_name item) itemName || String.eqb (name item) itemName.

Definition resolveFirstMod (menuItem : MenuItem) (is2PcItem : bool) (firstMod : string)
  : option Modifier :=
  if is2PcItem then findModifierInCategory menuItem firstMod FIRST_MODS
  else findModifierAnyCategory (default [] (menu_modifiers menuItem)) firstMod.

(** The modifiers found for the requested names, first piece then second; a
    name that is not found only goes to the list of failures echoed back. *)
Definition modifiersToApply (menuItem : MenuItem) (is2PcItem : bool)
  (firstSandwichMods secondSandwichMods : list string) : list Modifier :=
  omap (resolveFirstMod menuItem is2PcItem) firstSandwichMods
  ++ (if is2PcItem
      then omap (fun secondMod => findModifierInCategory menuItem secondMod SECOND_MODS)
                secondSandwichMods
      else []).

(** State of the loops over modifiers: the modifiers of the line, and the
    modifiers added (or removed) so far, and the names skipped. *)
Record ModLoop := {
  loop_modifiers : list Modifier;
  loop_done : list Modifier;
  loop_skipped : list string
}.

(** One turn of the loop of [addModifierToCart]; [newModifier] copies the five
    fields of [modifierDetails]. *)
Definition applyModifier (st : ModLoop) (modifierDetails : Modifier) : ModLoop :=
  if existsb (fun m => String.eqb (optionId m) (optionId modifierDetails))
             (loop_modifiers st)
  then {| loop_modifiers := loop_modifiers st; loop_done := loop_done st;
          loop_skipped := loop_skipped st ++ [optionName modifierDetails] |}
  else {| loop_modifiers := loop_modifiers st ++ [modifierDetails];
          loop_done := loop_done st ++ [modifierDetails];
          loop_skipped := loop_skipped st |}.

Definition applyAll (mods toApply : list Modifier) : ModLoop :=
  fold_left applyModifier toApply
    {| loop_modifiers := mods; loop_done := []; loop_skipped := [] |}.

(** The match of [removeModifierFromCart] for a requested name: the trimmed
    option name and, for a two-piece item, the category of the piece. *)
Definition modifierMatches (pieceCategory : option string) (modToRemove : string)
  (m : Modifier) : bool :=
  String.eqb (JS.trim (optionName m)) (JS.trim modToRemove)
  && match pieceCategory with
     | Some c => String.eqb (category m) c
     | None => true
     end.

(** One turn of a loop of [removeModifierFromCart]: [splice(modifierIndex, 1)]. *)
Definition removeModifier (pieceCategory : option string) (st : ModLoop)
  (modToRemove : string) : ModLoop :=
  match findIndex (modifierMatches pieceCategory modToRemove) (loop_modifiers st) with
  | Some modifierIndex =>
      {| loop_modifiers := delete modifierIndex (loop_modifiers st);
         loop_done := loop_done st ++ take 1 (drop modifierIndex (loop_modifiers st));
         loop_skipped := loop_skipped st |}
  | None => st
  end.

Definition removeAll (is2PcItem : bool) (mods : list Modifier)
  (firstSandwichMods secondSandwichMods : list string) : ModLoop :=
  let st := {| loop_modifiers := mods; loop_done := []; loop_skipped := [] |} in
  let st := fold_left (removeModifier (if is2PcItem then Some FIRST_MODS else None))
                      firstSandwichMods st in
  if is2PcItem
  then fold_left (removeModifier (Some SECOND_MODS)) secondSandwichMods st
  else st.

(** [cartItem.lineTotal = (cartItem.unitPrice + modifierTotal) * cartItem.quantity]
    after the modifiers of the line were replaced by [mods]. *)
Definition setModifiers (mods : list Modifier) (cartItem : CartItem) : CartItem :=
  with_modifiers_total mods
    ((unitPrice cartItem + modifierTotal mods) * inject_Z (quantity cartItem))%Q cartItem.

(** ** Cart engine: the handlers

    Each handler returns early with an error response, or reaches its single
    [saveSessionCart]; an error thrown there is caught by the handler and
    answered with status 500. *)

Definition internalError : Response :=
  createErrorResponseWith 500 "Internal server error" ["details"].

Definition addToCart (body : Body) (w : World) : Response * World :=
  let callId := extractCallId body in
  if negb (JS.truthy callId)
  then (createErrorResponse 400 "Missing call ID in request", w)
  else
  let phoneNumber := extractPhoneNumber body in
  if String.eqb phoneNumber ""
  then (createErrorResponse 400
          "Missing phone number in request - cannot determine location", w)
  else
  let itemName := default "" (arg_itemName body) in
  let quantity := requestedQuantity body in
  let instructions := default "" (arg_specialInstructions body) in
  if negb (JS.truthy (arg_itemName body))
  then (createErrorResponse 400 "Missing required field: itemName", w)
  else if Qle_bool quantity 0 || negb (isInteger quantity)
  then (createErrorResponse 400 "Quantity must be a positive integer", w)
  else
  match getLocationFromPhoneNumber phoneNumber w with
  | Throw e => (createErrorResponse 404 ("Location lookup failed: " +:+ e), w)
  | Ok locationData =>
  match getLocationMenu (restaurantName locationData) (locationId locationData) w with
  | Throw e => (createErrorResponse 404 ("Menu lookup failed: " +:+ e), w)
  | Ok locationMenu =>
  match locationMenu !! itemName with
  | None =>
      (createErrorResponseWith 404
         ("Item " +:+ JS.dq +:+ itemName +:+ JS.dq +:+ " not found in "
          +:+ restaurantName locationData +:+ " " +:+ locationId locationData
          +:+ " menu") ["availableItems"], w)
  | Some menuItem =>
      let sessionCart := getSessionCart callId w in
      let qty := Qfloor quantity in
      let cartItem :=
        buildCartItem itemName menuItem qty instructions
          (arg_firstItemSpiceLevel body) (arg_secondItemSpiceLevel body) in
      let sessionCart := mergeIntoCart cartItem qty sessionCart in
      match saveSessionCart callId sessionCart w with
      | (Throw _, w') => (internalError, w')
      | (Ok _, w') =>
          (createSuccessResponse
             ("Added " +:+ JS.numberToString qty +:+ " " +:+ itemName
              +:+ " to cart for " +:+ restaurantName locationData +:+ " "
              +:+ locationId locationData), w')
      end
  end end end.

Definition removeFromCart (body : Body) (w : World) : Response * World :=
  let callId := extractCallId body in
  if negb (JS.truthy callId)
  then (createErrorResponse 400 "Missing call ID in request", w)
  else
  let itemName := default "" (arg_itemName body) in
  let quantityToRemove := arg_quantityToRemove body in
  if negb (JS.truthy (arg_itemName body))
  then (createErrorResponse 400 "Missing required field: itemName", w)
  else
  let sessionCart := getSessionCart callId w in
  match sessionCart with
  | [] => (createErrorResponse 400 "Cart is empty", w)
  | _ =>
  match findIndex (nameMatches itemName) sessionCart with
  | None =>
      (createErrorResponseWith 404
         ("Item " +:+ JS.dq +:+ itemName +:+ JS.dq +:+ " not found in cart")
         ["currentItems"], w)
  | Some cartIndex =>
  match sessionCart !! cartIndex with
  | None => (internalError, w)
  | Some cartItem =>
      let removeQty := removeQuantity quantityToRemove cartItem in
      let sessionCart := removeAt cartIndex removeQty cartItem sessionCart in
      match saveSessionCart callId sessionCart w with
      | (Throw _, w') => (internalError, w')
      | (Ok _, w') =>
          (createSuccessResponse
             ("Removed " +:+ JS.numberToString removeQty +:+ " " +:+ name cartItem
              +:+ " from cart"), w')
      end
  end end end.

Definition getCartSummary (body : Body) (w : World) : Response * World :=
  let callId := extractCallId body in
  if negb (JS.truthy callId)
  then (createErrorResponse 400 "Missing call ID in request", w)
  else
  let sessionCart := getSessionCart callId w in
  match sessionCart with
  | [] => (createSuccessResponse "Your cart is empty", w)
  | _ =>
      let subtotal := fold_left (fun sum item => (sum + lineTotal item)%Q) sessionCart 0%Q in
      let speechSummary := createSpeechFriendlySummary sessionCart subtotal in
      (createSuccessResponse speechSummary, w)
  end.

(** The offer of [upsell] from the four presence flags. *)
Definition upsellMessage (hasFries hasMac hasSlaw hasToffee : bool) : string :=
  let message := "Before I confirm, would you like to add " in
  let parts :=
    (if hasFries then [] else ["regular fries, cheese fries"])
    ++ (if hasMac then [] else ["mac & cheese"])
    ++ (if hasSlaw then [] else ["slaw"]) in
  let dessertPart :=
    if hasToffee then "" else ", we also have toffee cake for dessert" in
  match parts with
  | [] => ""
  | [part] => message +:+ part +:+ dessertPart +:+ "?"
  | _ =>
      let lastItem := default "" (last parts) in
      let parts := removelast parts in
      message +:+ JS.join ", " parts +:+ ", or " +:+ lastItem +:+ dessertPart +:+ "?"
  end.

Definition cartItemNames (sessionCart : list CartItem) : list string :=
  (fun item => JS.toLowerCase (orElse (item_name item) (orElse (name item) "")))
  <$> sessionCart.

Definition hasItem (sessionCart : list CartItem) (word : string) : bool :=
  existsb (fun item => JS.includes item word) (cartItemNames sessionCart).

Definition upsell (body : Body) (w : World) : Response * World :=
  let callId := extractCallId body in
  if negb (JS.truthy callId)
  then (createErrorResponse 400 "Missing call ID in request", w)
  else
  let sessionCart := getSessionCart callId w in
  let hasFries := hasItem sessionCart "fries" in
  let hasMac := hasItem sessionCart "mac" in
  let hasSlaw := hasItem sessionCart "slaw" in
  let hasToffee := hasItem sessionCart "toffee" in
  (createSuccessResponse (upsellMessage hasFries hasMac hasSlaw hasToffee), w).

Definition modifiersMessage (verb prep itemName : string) (names : list string)
  (totalRequested : nat) : string :=
  match names with
  | [only] => verb +:+ " " +:+ JS.dq +:+ only +:+ JS.dq +:+ " " +:+ prep +:+ " " +:+ itemName
  | _ =>
      if (length names =? totalRequested)%nat
      then verb +:+ " " +:+ JS.numberToString (Z.of_nat (length names))
           +:+ " modifiers " +:+ prep +:+ " " +:+ itemName +:+ ": " +:+ JS.join ", " names
      else verb +:+ " " +:+ JS.numberToString (Z.of_nat (length names)) +:+ " of "
           +:+ JS.numberToString (Z.of_nat totalRequested)
           +:+ " modifiers " +:+ prep +:+ " " +:+ itemName +:+ ": " +:+ JS.join ", " names
  end.

Definition addModifierToCart (body : Body) (w : World) : Response * World :=
  let callId := extractCallId body in
  if negb (JS.truthy callId)
  then (createErrorResponse 400 "Missing call ID in request", w)
  else
  let phoneNumber := extractPhoneNumber body in
  if String.eqb phoneNumber ""
  then (createErrorResponse 400
          "Missing phone number in request - cannot determine location", w)
  else
  let itemName := default "" (arg_itemName body) in
  let firstSandwichMods := arg_firstSandwichMods body in
  let secondSandwichMods := arg_secondSandwichMods body in
  if negb (JS.truthy (arg_itemName body))
  then (createErrorResponse 400 "Missing required field: itemName", w)
  else
  match firstSandwichMods, secondSandwichMods with
  | [], [] =>
      (createErrorResponse 400
         "At least one modifier array (firstSandwichMods or secondSandwichMods) must contain modifiers", w)
  | _, _ =>
  match getLocationFromPhoneNumber phoneNumber w with
  | Throw e => (createErrorResponse 404 ("Location lookup failed: " +:+ e), w)
  | Ok locationData =>
  match getLocationMenu (restaurantName locationData) (locationId locationData) w with
  | Throw e => (createErrorResponse 404 ("Menu lookup failed: " +:+ e), w)
  | Ok locationMenu =>
  match locationMenu !! itemName with
  | None =>
      (createErrorResponseWith 404
         ("Item " +:+ JS.dq +:+ itemName +:+ JS.dq +:+ " not found in "
          +:+ restaurantName locationData +:+ " menu") ["availableItems"], w)
  | Some menuItem =>
      let is2PcItem := JS.includes itemName "(2pc)" in
      let toApply := modifiersToApply menuItem is2PcItem firstSandwichMods secondSandwichMods in
      match toApply with
      | [] =>
          (createErrorResponseWith 404
             ("No valid modifiers found for " +:+ JS.dq +:+ itemName +:+ JS.dq)
             ["failedModifiers"; "availableCategories"], w)
      | _ =>
      let sessionCart := getSessionCart callId w in
      match findLastIndex (isNamed itemName) sessionCart with
      | None =>
          (createErrorResponse 404
             ("No " +:+ JS.dq +:+ itemName +:+ JS.dq
              +:+ " found in cart to modify. Add the item first."), w)
      | Some targetCartItemIndex =>
      match sessionCart !! targetCartItemIndex with
      | None => (internalError, w)
      | Some cartItem =>
          let st := applyAll (modifiers cartItem) toApply in
          match loop_done st with
          | [] =>
              (createErrorResponse 400
                 ("All modifiers already applied to this item: "
                  +:+ JS.join ", " (loop_skipped st)), w)
          | addedModifiers =>
              let sessionCart :=
                <[targetCartItemIndex := setModifiers (loop_modifiers st) cartItem]>
                  sessionCart in
              match saveSessionCart callId sessionCart w with
              | (Throw _, w') => (internalError, w')
              | (Ok _, w') =>
                  (createSuccessResponseWith
                     (modifiersMessage "Added" "to" itemName
                        (optionName <$> addedModifiers)
                        (length firstSandwichMods + length secondSandwichMods))
                     ["modifiersAdded"; "skippedModifiers"; "failedModifiers";
                      "newItemTotal"], w')
              end
          end
      end end end
  end end end end.

Definition removeModifierFromCart (body : Body) (w : World) : Response * World :=
  let callId := extractCallId body in
  if negb (JS.truthy callId)
  then (createErrorResponse 400 "Missing call ID in request", w)
  else
  let itemName := default "" (arg_itemName body) in
  let firstSandwichMods := arg_firstSandwichMods body in
  let secondSandwichMods := arg_secondSandwichMods body in
  if negb (JS.truthy (arg_itemName body))
  then (createErrorResponse 400 "Missing required field: itemName", w)
  else
  match firstSandwichMods, secondSandwichMods with
  | [], [] =>
      (createErrorResponse 400
         "At least one modifier array (firstSandwichMods or secondSandwichMods) must contain modifiers to remove", w)
  | _, _ =>
  let sessionCart := getSessionCart callId w in
  match sessionCart with
  | [] => (createErrorResponse 400 "Cart is empty", w)
  | _ =>
  match findLastIndex (isNamed itemName) sessionCart with
  | None =>
      (createErrorResponse 404
         ("No " +:+ JS.dq +:+ itemName +:+ JS.dq +:+ " found in cart to modify"), w)
  | Some targetCartItemIndex =>
  match sessionCart !! targetCartItemIndex with
  | None => (internalError, w)
  | Some cartItem =>
      match modifiers cartItem with
      | [] =>
          (createErrorResponse 404
             ("No modifiers found on " +:+ JS.dq +:+ itemName +:+ JS.dq), w)
      | _ =>
      let is2PcItem := JS.includes itemName "(2pc)" in
      let st := removeAll is2PcItem (modifiers cartItem)
                  firstSandwichMods secondSandwichMods in
      match loop_done st with
      | [] =>
          (createErrorResponseWith 404
             ("No specified modifiers found on " +:+ JS.dq +:+ itemName +:+ JS.dq)
             ["failedModifiers"; "availableModifiers"], w)
      | removedModifiers =>
          let sessionCart :=
            <[targetCartItemIndex := setModifiers (loop_modifiers st) cartItem]>
              sessionCart in
          match saveSessionCart callId sessionCart w with
          | (Throw _, w') => (internalError, w')
          | (Ok _, w') =>
              (createSuccessResponseWith
                 (modifiersMessage "Removed" "from" itemName
                    (optionName <$> removedModifiers)
                    (length firstSandwichMods + length secondSandwichMods))
                 ["modifiersRemoved"; "failedModifiers"; "newItemTotal"], w')
          end
      end end
  end end end end.

(** ** The operations of the engine *)

Inductive Operation :=
  | addItem | removeItem | summarize | upsellSuggestions | addModifiers | removeModifiers.

Definition run (op : Operation) : Body -> World -> Response * World :=
  match op with
  | addItem => addToCart
  | removeItem => removeFromCart
  | summarize => getCartSummary
  | upsellSuggestions => upsell
  | addModifiers => addModifierToCart
  | removeModifiers => removeModifierFromCart
  end.

(** ** The order for the payment processor (src/squareCallback.js)

    [createOrderAndPaymentLink] reads the session cart the handlers above
    wrote, sums it up and hands it to [convertCartToSquareOrder]. *)

(** [Math.round]: the nearest integer, the larger one on a tie. *)
Definition mathRound (x : Q) : Z := Qfloor (x + (1 # 2))%Q.

(** [sessionCart.reduce((sum, item) => sum + item.lineTotal, 0)] *)
Definition cartSubtotal (sessionCart : list CartItem) : Q :=
  fold_left (fun sum item => (sum + lineTotal item)%Q) sessionCart 0%Q.

(** [sessionCart.reduce((sum, item) => sum + item.quantity, 0)] *)
Definition cartItemCount (sessionCart : list CartItem) : Z :=
  fold_left (fun sum item => sum + quantity item) sessionCart 0.

(** A line item of the order; [sq_amount] is [basePriceMoney.amount], in
    cents, and [sq_note] is present for non-empty special instructions. *)
Record SquareLineItem := {
  sq_name : string;
  sq_quantity : string;
  sq_variationName : string;
  sq_catalogObjectId : string;
  sq_amount : Z;
  sq_currency : string;
  sq_note : option string
}.

(** The summary of the order, in cents ([items] repeats the cart, and the tax
    message and the time stamp are left out). *)
Record OrderSummary := {
  summary_subtotal : Z;
  summary_itemCount : Z
}.

(** [(item.modifiers || []).reduce((sum, mod) => sum + Math.round((mod.price || 0) * 100), 0)] *)
Definition modifierPriceInCents (mods : list Modifier) : Z :=
  fold_left (fun sum m => sum + mathRound (orZero (mod_price m) * 100)) mods 0.

(** The line item of one cart line; a line with price 0 or without a currency
    makes the conversion throw. *)
Definition squareLineItem (item : CartItem) : Result SquareLineItem :=
  if (price item =? 0) || String.eqb (currency item) ""
  then Throw ("Cart item " +:+ JS.dq +:+ item_name item +:+ JS.dq
              +:+ " is missing price information. Please refresh cart.")
  else
    let totalPriceInCents := price item + modifierPriceInCents (modifiers item) in
    Ok {| sq_name := item_name item +:+ " - Regular";
          sq_quantity := JS.numberToString (quantity item);
          sq_variationName := "Regular";
          sq_catalogObjectId := variation_id item;
          sq_amount := totalPriceInCents;
          sq_currency := currency item;
          sq_note := if String.eqb (specialInstructions item) "" then None
                     else Some (specialInstructions item) |}.

(** [cartItems.map(...)]: the first line that throws ends the conversion. *)
Fixpoint squareLineItems (cartItems : list CartItem) : Result (list SquareLineItem) :=
  match cartItems with
  | [] => Ok []
  | item :: rest =>
      match squareLineItem item with
      | Throw e => Throw e
      | Ok line =>
          match squareLineItems rest with
          | Throw e => Throw e
          | Ok lines => Ok (line :: lines)
          end
      end
  end.

Definition convertCartToSquareOrder (cartItems : list CartItem)
  (subtotal : Q) (itemCount : Z) : Result (OrderSummary * list SquareLineItem) :=
  match squareLineItems cartItems with
  | Throw e => Throw e
  | Ok lines =>
      Ok ({| summary_subtotal := mathRound (subtotal * 100);
             summary_itemCount := itemCount |}, lines)
  end.

(** The conversion of a session cart with the summary
    [createOrderAndPaymentLink] computes from it. *)
Definition orderOfCart (sessionCart : list CartItem)
  : Result (OrderSummary * list SquareLineItem) :=
  convertCartToSquareOrder sessionCart (cartSubtotal sessionCart) (cartItemCount sessionCart).


(** ** A sample location, menu and session *)

Module Sample.

Definition spicy2pc : MenuItem :=
  {| menu_variation_id := "VAR-SPICY-2PC"; menu_price := 899; menu_currency := "USD";
     menu_description := "Two spicy sandwiches";
     menu_modifiers := Some [
       {| cat_category := FIRST_MODS;
          cat_options := Some [
            {| opt_id := "F-MILD"; opt_name := "Mild"; opt_price := 0; opt_currency := "USD" |};
            {| opt_id := "F-CHEESE"; opt_name := "Add cheese 1"; opt_price := 100;
               opt_currency := "USD" |} ] |};
       {| cat_category := SECOND_MODS;
          cat_options := Some [
            {| opt_id := "S-HOT"; opt_name := "Hot"; opt_price := 0; opt_currency := "USD" |};
            {| opt_id := "S-CHEESE"; opt_name := "Add cheese 2"; opt_price := 100;
               opt_currency := "USD" |} ] |} ] |}.

Definition sandwich : MenuItem :=
  {| menu_variation_id := "VAR-SANDWICH"; menu_price := 899; menu_currency := "USD";
     menu_description := "";
     menu_modifiers := Some [
       {| cat_category := "Sandwich Spice Level";
          cat_options := Some [
            {| opt_id := "SP-MILD"; opt_name := "Mild"; opt_price := 0; opt_currency := "USD" |} ] |};
       {| cat_category := "Sandwich Mods";
          cat_options := Some [
            {| opt_id := "M-CHEESE"; opt_name := "Add cheese"; opt_price := 100;
               opt_currency := "USD" |};
            {| opt_id := "M-NOPICKLES"; opt_name := "No Pickles"; opt_price := 0;
               opt_currency := "USD" |} ] |} ] |}.

Definition simple (variation : string) (cents : Z) : MenuItem :=
  {| menu_variation_id := variation; menu_price := cents; menu_currency := "USD";
     menu_description := ""; menu_modifiers := None |}.

Definition menu : gmap string MenuItem :=
  <["Spicy Sandwich (2pc)" := spicy2pc]>
  (<["Sandwich" := sandwich]>
  (<["Fries" := simple "VAR-FRIES" 299]>
  (<["Mac & Cheese" := simple "VAR-MAC" 399]>
  (<["Cole Slaw" := simple "VAR-SLAW" 199]>
  (<["Toffee Cake" := simple "VAR-TOFFEE" 499]> ∅))))).

Definition world (carts : gmap string (list CartItem)) : World :=
  {| phoneNumberClientMap :=
       {[ "+17039120079" := {| locationId := "L1"; restaurantName := "Red Bird" |} ]};
     clientMenu := {[ ("Red Bird", "L1") := menu ]};
     sessionCarts := carts;
     getFails := fun _ => None;
     putFails := None;
     putLog := [] |}.

Definition request : Body :=
  {| call_id := Some "call-1"; to_number := None; arg_itemName := None;
     arg_quantity := None; arg_specialInstructions := None;
     arg_firstItemSpiceLevel := None; arg_secondItemSpiceLevel := None;
     arg_quantityToRemove := None; arg_firstSandwichMods := [];
     arg_secondSandwichMods := [] |}.

Definition addItemRequest (itemName : string) (q : option Q) (first second : option string)
  : Body :=
  {| call_id := Some "call-1"; to_number := None; arg_itemName := Some itemName;
     arg_quantity := q; arg_specialInstructions := None;
     arg_firstItemSpiceLevel := first; arg_secondItemSpiceLevel := second;
     arg_quantityToRemove := None; arg_firstSandwichMods := [];
     arg_secondSandwichMods := [] |}.

Definition removeItemRequest (itemName : string) (q : option Z) : Body :=
  {| call_id := Some "call-1"; to_number := None; arg_itemName := Some itemName;
     arg_quantity := None; arg_specialInstructions := None;
     arg_firstItemSpiceLevel := None; arg_secondItemSpiceLevel := None;
     arg_quantityToRemove := q; arg_firstSandwichMods := [];
     arg_secondSandwichMods := [] |}.

Definition modifiersRequest (itemName : string) (first second : list string) : Body :=
  {| call_id := Some "call-1"; to_number := None; arg_itemName := Some itemName;
     arg_quantity := None; arg_specialInstructions := None;
     arg_firstItemSpiceLevel := None; arg_secondItemSpiceLevel := None;
     arg_quantityToRemove := None; arg_firstSandwichMods := first;
     arg_secondSandwichMods := second |}.

(** The cart stored for the sample session after a sequence of requests. *)
Definition cartAfter (w : World) : list CartItem := storedCart w "call-1".

End Sample.

(** ** The shape of a handler run *)

(** A handler either returns without a [put], or ends with its only [put]:
    status 200 when the [put] is accepted, status 500 when it is rejected. *)
Inductive Outcome (w : World) (r : Response) (w' : World) : Prop :=
  | Returned :
      w' = w -> Outcome w r w'
  | Saved (callId : option string) (cart : list CartItem) :
      saveSessionCart callId cart w = (Ok tt, w') ->
      statusCode r = 200 -> Outcome w r w'
  | SaveFailed (callId : option string) (cart : list CartItem) (msg : string) :
      saveSessionCart callId cart w = (Throw msg, w') ->
      r = internalError -> Outcome w r w'.

(** A handler that writes either returns an error without a [put], or hands to
    [saveSessionCart] the cart it read, changed by its in-memory step [P]. *)
Inductive Run (P : list CartItem -> list CartItem -> Prop) (callId : option string)
  (w : World) (r : Response) (w' : World) : Prop :=
  | RunReturned :
      w' = w -> statusCode r <> 200 -> Run P callId w r w'
  | RunSaved (cart : list CartItem) (res : Result unit) :
      JS.truthy callId = true ->
      saveSessionCart callId cart w = (res, w') ->
      P (getSessionCart callId w) cart ->
      match res with
      | Ok _ => statusCode r = 200
      | Throw _ => r = internalError
      end ->
      Run P callId w r w'.

(** The step of [addToCart]: the line built from some menu item, for a
    positive quantity, is merged into the cart. *)
Definition addToCartStep (body : Body) (old new : list CartItem) : Prop :=
  exists (menuItem : MenuItem),
    let itemName := default "" (arg_itemName body) in
    let qty := Qfloor (requestedQuantity body) in
    (0 < qty)%Z
    /\ new = mergeIntoCart
               (buildCartItem itemName menuItem qty
                  (default "" (arg_specialInstructions body))
                  (arg_firstItemSpiceLevel body) (arg_secondItemSpiceLevel body))
               qty old.

(** The step of [removeFromCart]: the first line whose name matches is removed
    or reduced. *)
Definition removeFromCartStep (body : Body) (old new : list CartItem) : Prop :=
  exists (i : nat) (item : CartItem),
    findIndex (nameMatches (default "" (arg_itemName body))) old = Some i
    /\ old !! i = Some item
    /\ new = removeAt i (removeQuantity (arg_quantityToRemove body) item) item old.

(** The step of the two modifier handlers: the line at the greatest index
    among those named [itemName] gets new modifiers and a recomputed total. *)
Definition modifierStep (body : Body)
  (loop : CartItem -> ModLoop) (old new : list CartItem) : Prop :=
  exists (i : nat) (item : CartItem),
    findLastIndex (isNamed (default "" (arg_itemName body))) old = Some i
    /\ old !! i = Some item
    /\ loop_done (loop item) <> []
    /\ new = <[i := setModifiers (loop_modifiers (loop item)) item]> old.

(** The loop of [addModifierToCart] on the line it targets. *)
Definition addModifierLoop (body : Body) (menuItem : MenuItem) (item : CartItem) : ModLoop :=
  let itemName := default "" (arg_itemName body) in
  applyAll (modifiers item)
    (modifiersToApply menuItem (JS.includes itemName "(2pc)")
       (arg_firstSandwichMods body) (arg_secondSandwichMods body)).

(** The loops of [removeModifierFromCart] on the line it targets. *)
Definition removeModifierLoop (body : Body) (item : CartItem) : ModLoop :=
  let itemName := default "" (arg_itemName body) in
  removeAll (JS.includes itemName "(2pc)") (modifiers item)
    (arg_firstSandwichMods body) (arg_secondSandwichMods body).

(** The handler chosen by [remove]. *)
Definition modifierOp (remove : bool) : Operation :=
  if remove then removeModifiers else addModifiers.

(** ** The notions of the specification *)

(** The invariant of a line: the total is the unit price plus the prices of
    the applied modifiers, times the quantity (as numbers). *)
Definition lineTotalOk (it : CartItem) : Prop :=
  (lineTotal it == (unitPrice it + modifierTotal (modifiers it)) * inject_Z (quantity it))%Q.

(** Mergeable lines, in the words of the specification: the same variation,
    the same special instructions and the same multiset of option ids. *)
Definition mergeable (a b : CartItem) : Prop :=
  itemId a = itemId b
  /\ specialInstructions a = specialInstructions b
  /\ optionId <$> modifiers a ≡ₚ optionId <$> modifiers b.

(** The requests of a modifier handler as one list, in the order of the two
    loops: the names for the first piece, then, for a two-piece item, the
    names for the second piece, each with the category its match is
    restricted to. *)
Definition requests (is2PcItem : bool) (firstSandwichMods secondSandwichMods : list string)
  : list (option string * string) :=
  ((fun n => (if is2PcItem then Some FIRST_MODS else None, n)) <$> firstSandwichMods)
  ++ (if is2PcItem then (fun n => (Some SECOND_MODS, n)) <$> secondSandwichMods else []).

(** The loops of [removeModifierFromCart] as one loop over the requests. *)
Definition removeRequests (rq : list (option string * string)) (st : ModLoop) : ModLoop :=
  fold_left (fun st r => removeModifier r.1 st r.2) rq st.

(** The modifier found for a request. *)
Definition resolved (menuItem : MenuItem) (r : option string * string) (a : Modifier) : Prop :=
  match r.1 with
  | Some cat => findModifierInCategory menuItem r.2 cat = Some a
  | None => findModifierAnyCategory (default [] (menu_modifiers menuItem)) r.2 = Some a
  end.

(** A modifier priced in whole cents, as the resolver produces them. *)
Definition wholeCents (m : Modifier) : Prop :=
  exists cents : Z, mod_price m = centsToDollars cents.

(** A line as [addToCart] creates it and as the handlers keep it: a positive
    quantity, the two pairs of repeated fields in agreement, the unit price in
    dollars of the price in cents, and modifiers priced in whole cents. *)
Definition wellFormed (it : CartItem) : Prop :=
  0 < quantity it
  /\ itemId it = variation_id it
  /\ name it = item_name it
  /\ unitPrice it = centsToDollars (price it)
  /\ Forall wholeCents (modifiers it).

(** The price of one unit of a line in cents, modifiers included. *)
Definition unitCents (it : CartItem) : Z :=
  price it + modifierPriceInCents (modifiers it).


(** ** Variations of a request and of the tables *)

Definition withQuantity (q : option Q) (body : Body) : Body :=
  {| call_id := call_id body; to_number := to_number body;
     arg_itemName := arg_itemName body; arg_quantity := q;
     arg_specialInstructions := arg_specialInstructions body;
     arg_firstItemSpiceLevel := arg_firstItemSpiceLevel body;
     arg_secondItemSpiceLevel := arg_secondItemSpiceLevel body;
     arg_quantityToRemove := arg_quantityToRemove body;
     arg_firstSandwichMods := arg_firstSandwichMods body;
     arg_secondSandwichMods := arg_secondSandwichMods body |}.

Definition withQuantityToRemove (q : option Z) (body : Body) : Body :=
  {| call_id := call_id body; to_number := to_number body;
     arg_itemName := arg_itemName body; arg_quantity := arg_quantity body;
     arg_specialInstructions := arg_specialInstructions body;
     arg_firstItemSpiceLevel := arg_firstItemSpiceLevel body;
     arg_secondItemSpiceLevel := arg_secondItemSpiceLevel body;
     arg_quantityToRemove := q;
     arg_firstSandwichMods := arg_firstSandwichMods body;
     arg_secondSandwichMods := arg_secondSandwichMods body |}.

Definition withSecondSpice (s : option string) (body : Body) : Body :=
  {| call_id := call_id body; to_number := to_number body;
     arg_itemName := arg_itemName body; arg_quantity := arg_quantity body;
     arg_specialInstructions := arg_specialInstructions body;
     arg_firstItemSpiceLevel := arg_firstItemSpiceLevel body;
     arg_secondItemSpiceLevel := s;
     arg_quantityToRemove := arg_quantityToRemove body;
     arg_firstSandwichMods := arg_firstSandwichMods body;
     arg_secondSandwichMods := arg_secondSandwichMods body |}.


(** The same tables with no session row and with reads of the session table
    accepted. *)
Definition withoutSessionRows (w : World) : World :=
  {| phoneNumberClientMap := phoneNumberClientMap w;
     clientMenu := clientMenu w;
     sessionCarts := ∅;
     getFails := fun t => match t with
                          | SESSION_CARTS_TABLE => None
                          | _ => getFails w t
                          end;
     putFails := putFails w;
     putLog := putLog w |}.

(** The same tables, with every read and every write of the session table
    rejected with the error [e]. *)
Definition failing (e : string) (w : World) : World :=
  {| phoneNumberClientMap := phoneNumberClientMap w;
     clientMenu := clientMenu w;
     sessionCarts := sessionCarts w;
     getFails := fun t => match t with
                          | SESSION_CARTS_TABLE => Some e
                          | _ => getFails w t
                          end;
     putFails := Some e;
     putLog := putLog w |}.

(** ** Sample sessions

    States of the sample session, each reached from the empty cart through the
    handlers. *)

(** One line of fries. *)
Definition cartWithFries : World :=
  (addToCart (Sample.addItemRequest "Fries" (Some 1%Q) None None) (Sample.world ∅)).2.

(** One line of fries, on tables that reject the requests to the session
    table. *)
Definition tablesDown : World := failing "ServiceUnavailable" cartWithFries.

(** Fries, mac & cheese and slaw, and no dessert. *)
Definition cartWithSides : World :=
  let w := (addToCart (Sample.addItemRequest "Fries" (Some 1%Q) None None) (Sample.world ∅)).2 in
  let w := (addToCart (Sample.addItemRequest "Mac & Cheese" (Some 1%Q) None None) w).2 in
  (addToCart (Sample.addItemRequest "Cole Slaw" (Some 1%Q) None None) w).2.

(** One line of three fries. *)
Definition cartWithThreeFries : World :=
  (addToCart (Sample.addItemRequest "Fries" (Some 3%Q) None None) (Sample.world ∅)).2.

(** One line of two sandwiches with cheese. *)
Definition cheeseSandwiches : World :=
  let w := (addToCart (Sample.addItemRequest "Sandwich" (Some 2%Q) None None)
              (Sample.world ∅)).2 in
  (addModifierToCart (Sample.modifiersRequest "Sandwich" ["Add cheese"] []) w).2.

(** Two lines named [Sandwich]: a mild one, then a plain one. *)
Definition twoSandwiches : World :=
  let w := (addToCart (Sample.addItemRequest "Sandwich" (Some 1%Q) (Some "Mild") None)
              (Sample.world ∅)).2 in
  (addToCart (Sample.addItemRequest "Sandwich" (Some 1%Q) None None) w).2.

(** Two plain lines named [Sandwich] of one configuration, as the handlers
    produce them: a plain line, a mild line after it, and the spice level of
    the second line removed again. *)
Definition twoPlainSandwiches : World :=
  let w := (addToCart (Sample.addItemRequest "Sandwich" (Some 1%Q) None None)
              (Sample.world ∅)).2 in
  let w := (addToCart (Sample.addItemRequest "Sandwich" (Some 1%Q) (Some "Mild") None) w).2 in
  (removeModifierFromCart (Sample.modifiersRequest "Sandwich" ["Mild"] []) w).2.

(** One line of two mild sandwiches, and that line as [addToCart] builds it. *)
Definition mildSandwiches : World :=
  (addToCart (Sample.addItemRequest "Sandwich" (Some 2%Q) (Some "Mild") None)
     (Sample.world ∅)).2.

Definition mildLine : CartItem :=
  buildCartItem "Sandwich" Sample.sandwich 2 "" (Some "Mild") None.

(** Requests of the sample session. *)
Definition friesOnce : Body := Sample.addItemRequest "Fries" (Some (inject_Z 1)) None None.

Definition friesTwice : Body := Sample.addItemRequest "Fries" (Some (inject_Z 2)) None None.

Definition sandwichTwice : Body :=
  Sample.addItemRequest "Sandwich" (Some (inject_Z 2)) None None.

Definition sandwichThrice : Body :=
  Sample.addItemRequest "Sandwich" (Some (inject_Z 3)) None None.

Definition cheese : Body := Sample.modifiersRequest "Sandwich" [" Add cheese "] [].

Definition cheeseAndPickles : Body :=
  Sample.modifiersRequest "Sandwich" ["Add cheese"; "No Pickles"] [].

(** ** Sessions, orders and menus

    The notions the properties of whole sessions and of the order are stated
    with. *)

(** The tables after a sequence of requests, served in order. *)
Definition runAll (requests : list (Operation * Body)) (w : World) : World :=
  fold_left (fun w r => (run r.1 r.2 w).2) requests w.

(** The total of an order as the payment processor charges it: the amount of
    each line item times its quantity. *)
Definition orderTotal (cart : list CartItem) : Z :=
  fold_right (fun it total => unitCents it * quantity it + total) 0 cart.

(** A line that [convertCartToSquareOrder] refuses. *)
Definition unpriced (it : CartItem) : Prop := price it = 0 \/ currency it = "".

(** The line item of a cart line. *)
Definition lineItemOf (it : CartItem) (l : SquareLineItem) : Prop :=
  sq_catalogObjectId l = variation_id it
  /\ sq_name l = item_name it +:+ " - Regular"
  /\ sq_amount l = unitCents it
  /\ sq_quantity l = JS.numberToString (quantity it)
  /\ sq_currency l = currency it
  /\ (sq_note l = None <-> specialInstructions it = "").

(** An item that is on some menu of the menu table. *)
Definition onMenu (w : World) (menuItem : MenuItem) : Prop :=
  exists key menu itemName,
    clientMenu w !! key = Some menu /\ menu !! itemName = Some menuItem.

(** A menu item with a price and a currency. *)
Definition pricedItem (menuItem : MenuItem) : Prop :=
  menu_price menuItem <> 0 /\ menu_currency menuItem <> "".

(** A request that, when it is an [addItem], names an item of the menu that
    [addToCart] looks it up in. *)
Definition namesMenuItem (w : World) (r : Operation * Body) : Prop :=
  r.1 = addItem ->
  forall loc menu,
    getLocationFromPhoneNumber (extractPhoneNumber r.2) w = Ok loc ->
    getLocationMenu (restaurantName loc) (locationId loc) w = Ok menu ->
    is_Some (menu !! default "" (arg_itemName r.2)).

(** The request with the number that was called set to [n]. *)
Definition withToNumber (n : string) (body : Body) : Body :=
  {| call_id := call_id body; to_number := Some n;
     arg_itemName := arg_itemName body; arg_quantity := arg_quantity body;
     arg_specialInstructions := arg_specialInstructions body;
     arg_firstItemSpiceLevel := arg_firstItemSpiceLevel body;
     arg_secondItemSpiceLevel := arg_secondItemSpiceLevel body;
     arg_quantityToRemove := arg_quantityToRemove body;
     arg_firstSandwichMods := arg_firstSandwichMods body;
     arg_secondSandwichMods := arg_secondSandwichMods body |}.

(** An amount of cents as dollars with two decimals. *)
Definition dollarsAndCents (cents : Z) : string :=
  JS.numberToString (cents / 100) +:+ "."
  +:+ (if cents mod 100 <? 10 then "0" else "") +:+ JS.numberToString (cents mod 100).

(** ** Further sample sessions *)

(** The tables of the sample with the reads of the table of the locations
    rejected. *)
Definition locationsDown : World :=
  {| phoneNumberClientMap := phoneNumberClientMap cartWithFries;
     clientMenu := clientMenu cartWithFries;
     sessionCarts := sessionCarts cartWithFries;
     getFails := fun t => match t with
                          | PHONE_NUMBER_CLIENT_MAP_TABLE => Some "Throttled"
                          | _ => None
                          end;
     putFails := None;
     putLog := putLog cartWithFries |}.

(** The sample session with two sandwiches with cheese, on tables that reject
    the reads of the session table and accept the writes. *)
Definition readsDown : World :=
  {| phoneNumberClientMap := phoneNumberClientMap cheeseSandwiches;
     clientMenu := clientMenu cheeseSandwiches;
     sessionCarts := sessionCarts cheeseSandwiches;
     getFails := fun t => match t with
                          | SESSION_CARTS_TABLE => Some "Throttled"
                          | _ => None
                          end;
     putFails := None;
     putLog := putLog cheeseSandwiches |}.

(** The line of the two-piece sandwich with its two spice levels, and the same
    line with the modifiers in the other order. *)
Definition spicyLine : CartItem :=
  buildCartItem "Spicy Sandwich (2pc)" Sample.spicy2pc 1 "" (Some "Mild") (Some "Hot").

Definition spicyLineSwapped : CartItem :=
  with_modifiers_total (reverse (modifiers spicyLine)) (lineTotal spicyLine) spicyLine.

(** The sample tables with a cup of water on the menu, free of charge, and one
    line of fries in the cart. *)
Definition withFreeWater : World :=
  {| phoneNumberClientMap := phoneNumberClientMap cartWithFries;
     clientMenu := {[ ("Red Bird", "L1") :=
                        <["Water" := Sample.simple "VAR-WATER" 0]> Sample.menu ]};
     sessionCarts := sessionCarts cartWithFries;
     getFails := getFails cartWithFries;
     putFails := putFails cartWithFries;
     putLog := putLog cartWithFries |}.

(** * Properties *)

(** ** JavaScript string methods on examples *)

Example trim_ex : JS.trim "  No Pickles 1 " = "No Pickles 1".
Proof. reflexivity. Qed.

Example replacePc_ex : JS.replacePc "Spicy Sandwich (2pc)" = "Spicy Sandwich (2 piece)".
Proof. reflexivity. Qed.

Example replacePc_word : JS.replacePc "12pcs 3pc" = "12pcs 3 piece".
Proof. reflexivity. Qed.

Example toFixed2_ex : JS.toFixed2 (899 # 100) = "8.99" /\ JS.toFixed2 (17 # 2) = "8.50"
  /\ JS.toFixed2 (1 # 200) = "0.01".
Proof. repeat split; reflexivity. Qed.

Example includes_ex : JS.includes (JS.toLowerCase "Seasoned Fries") "fries" = true.
Proof. reflexivity. Qed.

(** ** Array helpers *)

Lemma findIndex_Some {A : Type} (p : A -> bool) (l : list A) (i : nat) :
  findIndex p l = Some i ->
  exists x, l !! i = Some x /\ p x = true
            /\ forall j y, (j < i)%nat -> l !! j = Some y -> p y = false.
Proof.
  revert i. induction l as [|a l IH]; intros i H; simpl in H; [discriminate|].
  destruct (p a) eqn:Hp.
  - injection H as <-. exists a. repeat split; auto. intros j y Hj; lia.
  - destruct (findIndex p l) as [k|] eqn:Hk; simpl in H; [|discriminate].
    injection H as <-. destruct (IH k eq_refl) as (x & Hx & Hpx & Hlt).
    exists x. repeat split; auto.
    intros [|j] y Hj Hy; simpl in Hy.
    + congruence.
    + apply (Hlt j); [lia|done].
Qed.

Lemma findIndex_None {A : Type} (p : A -> bool) (l : list A) :
  findIndex p l = None <-> forall x, x ∈ l -> p x = false.
Proof.
  induction l as [|a l IH]; simpl.
  - split; [intros _ x Hx; inversion Hx | done].
  - destruct (p a) eqn:Hp.
    + split; [discriminate|]. intros H. specialize (H a (list_elem_of_here _ _)). congruence.
    + destruct (findIndex p l) eqn:Hk; simpl.
      * split; [discriminate|]. intros H.
        assert (Some n = None) as Hn; [|discriminate].
        apply IH. intros x Hx. apply H. by right.
      * split; [|done]. intros _ x Hx. apply elem_of_cons in Hx as [->|Hx]; [done|].
        by apply IH.
Qed.

Lemma findIndex_app_r {A : Type} (p : A -> bool) (l1 l2 : list A) :
  (forall x, x ∈ l1 -> p x = false) ->
  findIndex p (l1 ++ l2) = (fun i => (length l1 + i)%nat) <$> findIndex p l2.
Proof.
  induction l1 as [|a l1 IH]; intros H; simpl.
  - by destruct (findIndex p l2).
  - rewrite (H a) by left. rewrite IH by (intros x Hx; apply H; by right).
    by destruct (findIndex p l2).
Qed.

(** The reverse scan stops at the greatest index that satisfies [p]. *)
Lemma findLastIndex_Some {A : Type} (p : A -> bool) (l : list A) (i : nat) :
  findLastIndex p l = Some i ->
  exists x, l !! i = Some x /\ p x = true
            /\ forall j y, (i < j)%nat -> l !! j = Some y -> p y = false.
Proof.
  revert i. induction l as [|a l IH]; intros i H; simpl in H; [discriminate|].
  destruct (findLastIndex p l) as [k|] eqn:Hk.
  - injection H as <-. destruct (IH k eq_refl) as (x & Hx & Hpx & Hgt).
    exists x. repeat split; auto.
    intros [|j] y Hj Hy; [lia|]. simpl in Hy. apply (Hgt j); [lia|done].
  - destruct (p a) eqn:Hp; [|discriminate]. injection H as <-.
    exists a. repeat split; auto.
    intros [|j] y Hj Hy; [lia|]. simpl in Hy.
    clear IH. revert j y Hj Hy. induction l as [|b l IHl]; intros j y Hj Hy.
    + done.
    + simpl in Hk. destruct (findLastIndex p l) eqn:Hl; [discriminate|].
      destruct (p b) eqn:Hb; [discriminate|].
      destruct j as [|j]; simpl in Hy; [congruence|].
      apply (IHl eq_refl j); [lia|done].
Qed.

Lemma findLastIndex_None {A : Type} (p : A -> bool) (l : list A) :
  findLastIndex p l = None <-> forall x, x ∈ l -> p x = false.
Proof.
  induction l as [|a l IH]; simpl.
  - split; [intros _ x Hx; inversion Hx | done].
  - destruct (findLastIndex p l) eqn:Hk.
    + split; [discriminate|]. intros H.
      assert (Some n = None) as Hn; [|discriminate].
      apply IH. intros x Hx. apply H. by right.
    + destruct (p a) eqn:Hp.
      * split; [discriminate|]. intros H. specialize (H a (list_elem_of_here _ _)). congruence.
      * split; [|done]. intros _ x Hx. apply elem_of_cons in Hx as [->|Hx]; [done|].
        by apply IH.
Qed.

(** ** The session table *)

Lemma truthy_Some (s : string) : s <> "" -> JS.truthy (Some s) = true.
Proof. intros H. simpl. by apply String.eqb_neq in H as ->. Qed.

Lemma truthy_inv (o : option string) :
  JS.truthy o = true -> exists s, o = Some s /\ s <> "".
Proof.
  destruct o as [s|]; simpl; [|discriminate].
  destruct (String.eqb s "") eqn:E; [discriminate|].
  intros _. exists s. split; [done|]. by apply String.eqb_neq.
Qed.

Lemma getSessionCart_ok (c : string) (w : World) :
  c <> "" -> getFails w SESSION_CARTS_TABLE = None ->
  getSessionCart (Some c) w = storedCart w c.
Proof.
  intros Hc Hg. unfold getSessionCart, storedCart.
  apply String.eqb_neq in Hc as ->. by rewrite Hg.
Qed.

Lemma getSessionCart_read_fails (c e : string) (w : World) :
  getFails w SESSION_CARTS_TABLE = Some e -> getSessionCart (Some c) w = [].
Proof.
  intros Hg. unfold getSessionCart. rewrite Hg. by destruct (String.eqb c "").
Qed.

(** A [put] that is accepted stores the cart; the other rows stay. *)
Lemma saveSessionCart_ok (c : string) (cart : list CartItem) (w : World) :
  c <> "" -> putFails w = None ->
  exists w', saveSessionCart (Some c) cart w = (Ok tt, w')
             /\ sessionCarts w' = <[c := cart]> (sessionCarts w)
             /\ storedCart w' c = cart
             /\ getFails w' = getFails w /\ putFails w' = putFails w
             /\ phoneNumberClientMap w' = phoneNumberClientMap w
             /\ clientMenu w' = clientMenu w
             /\ putLog w' = (c, cart) :: putLog w.
Proof.
  intros Hc Hp. unfold saveSessionCart.
  apply String.eqb_neq in Hc as ->. rewrite Hp.
  eexists; split; [reflexivity|]. unfold storedCart; simpl.
  rewrite lookup_insert_eq. repeat split; reflexivity.
Qed.

(** A [put] that is rejected is rethrown and stores nothing. *)
Lemma saveSessionCart_throws (callId : option string) (cart : list CartItem)
  (w w' : World) (msg : string) :
  saveSessionCart callId cart w = (Throw msg, w') ->
  sessionCarts w' = sessionCarts w.
Proof.
  unfold saveSessionCart. destruct callId as [c|]; [|by intros [= _ <-]].
  destruct (String.eqb c ""); [by intros [= _ <-]|].
  destruct (putFails w); intros [= <-]; subst; reflexivity.
Qed.

Lemma saveSessionCart_log (callId : option string) (cart : list CartItem)
  (w w' : World) (r : Result unit) :
  saveSessionCart callId cart w = (r, w') ->
  (length (putLog w') <= S (length (putLog w)))%nat
  /\ (putLog w' <> putLog w -> putFails w <> None ->
      exists msg, r = Throw msg).
Proof.
  unfold saveSessionCart. destruct callId as [c|]; [|intros [= <- <-]; split; [lia|done]].
  destruct (String.eqb c ""); [intros [= <- <-]; split; [lia|done]|].
  destruct (putFails w) eqn:Hp; intros [= <- <-]; simpl; split; try lia; eauto.
  intros _ H. done.
Qed.

(** ** The shape of a handler run

    A handler either returns without a [put], or ends with its only [put]:
    status 200 when the [put] is accepted, status 500 when it is rejected. *)

Ltac close_outcome :=
  simpl;
  first
    [ by apply Returned
    | match goal with
      | H : saveSessionCart _ _ _ = (Ok ?u, _) |- _ =>
          destruct u; by eapply Saved; [exact H|]
      | H : saveSessionCart _ _ _ = (Throw _, _) |- _ =>
          by eapply SaveFailed; [exact H|]
      end ].

(** One case distinction of a handler, in the order of its guards. *)
Ltac handler_step :=
  match goal with
  | |- context [if ?b then _ else _] =>
      lazymatch b with
      | negb (JS.truthy _) => destruct b eqn:?
      | String.eqb (extractPhoneNumber _) _ => destruct b eqn:?
      | (Qle_bool _ _ || _)%bool => destruct b eqn:?
      end
  | |- context [match arg_firstSandwichMods ?b with _ => _ end] =>
      destruct (arg_firstSandwichMods b) eqn:?
  | |- context [match arg_secondSandwichMods ?b with _ => _ end] =>
      destruct (arg_secondSandwichMods b) eqn:?
  | |- context [match getLocationFromPhoneNumber ?a ?b with _ => _ end] =>
      destruct (getLocationFromPhoneNumber a b) eqn:?
  | |- context [match getLocationMenu ?a ?b ?c with _ => _ end] =>
      destruct (getLocationMenu a b c) eqn:?
  | |- context [match modifiersToApply ?a ?b ?c ?d with _ => _ end] =>
      destruct (modifiersToApply a b c d) eqn:?
  | |- context [match getSessionCart ?a ?b with _ => _ end] =>
      destruct (getSessionCart a b) eqn:?
  | |- context [match findIndex ?a ?b with _ => _ end] =>
      destruct (findIndex a b) eqn:?
  | |- context [match findLastIndex ?a ?b with _ => _ end] =>
      destruct (findLastIndex a b) eqn:?
  | |- context [match modifiers ?a with _ => _ end] =>
      destruct (modifiers a) eqn:?
  | |- context [match loop_done ?a with _ => _ end] =>
      destruct (loop_done a) eqn:?
  | |- context [match @lookup ?K ?V ?M ?L ?k ?m with _ => _ end] =>
      destruct (@lookup K V M L k m) eqn:?
  | |- context [saveSessionCart ?a ?b ?c] =>
      destruct (saveSessionCart a b c) as [[[]|?] ?] eqn:?
  end.

Lemma addToCart_outcome (body : Body) (w : World) :
  Outcome w (addToCart body w).1 (addToCart body w).2.
Proof. unfold addToCart. repeat handler_step; close_outcome. Qed.

Lemma removeFromCart_outcome (body : Body) (w : World) :
  Outcome w (removeFromCart body w).1 (removeFromCart body w).2.
Proof. unfold removeFromCart. repeat handler_step; close_outcome. Qed.

Lemma getCartSummary_outcome (body : Body) (w : World) :
  Outcome w (getCartSummary body w).1 (getCartSummary body w).2.
Proof. unfold getCartSummary. repeat handler_step; close_outcome. Qed.

Lemma upsell_outcome (body : Body) (w : World) :
  Outcome w (upsell body w).1 (upsell body w).2.
Proof. unfold upsell. repeat handler_step; close_outcome. Qed.

Lemma addModifierToCart_outcome (body : Body) (w : World) :
  Outcome w (addModifierToCart body w).1 (addModifierToCart body w).2.
Proof. unfold addModifierToCart. repeat handler_step; close_outcome. Qed.

Lemma removeModifierFromCart_outcome (body : Body) (w : World) :
  Outcome w (removeModifierFromCart body w).1 (removeModifierFromCart body w).2.
Proof. unfold removeModifierFromCart. repeat handler_step; close_outcome. Qed.

Lemma run_outcome (op : Operation) (body : Body) (w : World) :
  Outcome w (run op body w).1 (run op body w).2.
Proof.
  destruct op; simpl.
  - apply addToCart_outcome.
  - apply removeFromCart_outcome.
  - apply getCartSummary_outcome.
  - apply upsell_outcome.
  - apply addModifierToCart_outcome.
  - apply removeModifierFromCart_outcome.
Qed.

(** ** Errors and the stored cart *)

(** C3. Whenever an operation of the engine answers with an error, the session
    table is exactly as before the call; on a validation or not-found answer
    (any status but 500) no [put] was issued at all, and no call issues more
    than one [put]. *)
Theorem error_leaves_stored_cart (op : Operation) (body : Body) (w : World) :
  statusCode (run op body w).1 <> 200 ->
  sessionCarts (run op body w).2 = sessionCarts w
  /\ (statusCode (run op body w).1 <> 500 -> (run op body w).2 = w)
  /\ (length (putLog (run op body w).2) <= S (length (putLog w)))%nat.
Proof.
  intros Herr.
  destruct (run_outcome op body w) as [Hw | callId cart Hsave H200 | callId cart msg Hsave Hr].
  - rewrite Hw. repeat split; auto.
  - contradiction.
  - repeat split.
    + eapply saveSessionCart_throws, Hsave.
    + rewrite Hr. simpl. done.
    + eapply saveSessionCart_log, Hsave.
Qed.

Lemma error_leaves_stored_cart_witness :
  statusCode (run addModifiers (Sample.modifiersRequest "Sandwich" ["Add cheese"] [])
                cartWithFries).1 = 404
  /\ sessionCarts (run addModifiers (Sample.modifiersRequest "Sandwich" ["Add cheese"] [])
                     cartWithFries).2 = sessionCarts cartWithFries.
Proof.
  split; [by vm_compute|].
  apply (error_leaves_stored_cart addModifiers
           (Sample.modifiersRequest "Sandwich" ["Add cheese"] []) cartWithFries).
  by vm_compute.
Defined.

(** ** Failures of the session table *)

Lemma getSessionCart_withoutSessionRows (callId : option string) (w : World) :
  getSessionCart callId (withoutSessionRows w) = [].
Proof.
  destruct callId as [c|]; [|done]. unfold getSessionCart. simpl.
  destruct (String.eqb c ""); [done|]. by rewrite lookup_empty.
Qed.

Lemma saveSessionCart_withoutSessionRows (callId : option string)
  (cart : list CartItem) (w : World) :
  (saveSessionCart callId cart (withoutSessionRows w)).1
  = (saveSessionCart callId cart w).1.
Proof.
  unfold saveSessionCart. destruct callId as [c|]; [|done].
  destruct (String.eqb c ""); [done|]. simpl. by destruct (putFails w).
Qed.

Lemma getLocationFromPhoneNumber_withoutSessionRows (phone : string) (w : World) :
  getLocationFromPhoneNumber phone (withoutSessionRows w)
  = getLocationFromPhoneNumber phone w.
Proof. reflexivity. Qed.

Lemma getLocationMenu_withoutSessionRows (r l : string) (w : World) :
  getLocationMenu r l (withoutSessionRows w) = getLocationMenu r l w.
Proof. reflexivity. Qed.

(** With a rejected read both runs see the empty cart; they differ only in the
    state handed to [saveSessionCart], which does not decide the answer. *)
Lemma read_failure_as_empty_cart (op : Operation) (body : Body) (w : World) (e : string) :
  getFails w SESSION_CARTS_TABLE = Some e ->
  (run op body w).1 = (run op body (withoutSessionRows w)).1.
Proof.
  intros Hg.
  assert (Hread : forall callId, getSessionCart callId w = []).
  { intros [c|]; [|done]. by eapply getSessionCart_read_fails. }
  destruct op; simpl.
  - unfold addToCart.
    rewrite !Hread, !getSessionCart_withoutSessionRows,
      getLocationFromPhoneNumber_withoutSessionRows.
    repeat first [ rewrite getLocationMenu_withoutSessionRows | handler_step ];
      simpl; try reflexivity.
    all: match goal with
         | H1 : saveSessionCart ?a ?b ?w1 = _,
           H2 : saveSessionCart ?a ?b (withoutSessionRows ?w1) = _ |- _ =>
             pose proof (saveSessionCart_withoutSessionRows a b w1) as Hs;
             rewrite H1, H2 in Hs; simpl in Hs; try discriminate Hs
         end; reflexivity.
  - unfold removeFromCart. rewrite !Hread, !getSessionCart_withoutSessionRows.
    repeat handler_step; reflexivity.
  - unfold getCartSummary. rewrite !Hread, !getSessionCart_withoutSessionRows.
    repeat handler_step; reflexivity.
  - unfold upsell. rewrite !Hread, !getSessionCart_withoutSessionRows.
    repeat handler_step; reflexivity.
  - unfold addModifierToCart.
    rewrite !Hread, !getSessionCart_withoutSessionRows,
      getLocationFromPhoneNumber_withoutSessionRows.
    cbn [findLastIndex].
    repeat first [ rewrite getLocationMenu_withoutSessionRows | handler_step ];
      reflexivity.
  - unfold removeModifierFromCart. rewrite !Hread, !getSessionCart_withoutSessionRows.
    repeat handler_step; reflexivity.
Qed.

Lemma saveSessionCart_Ok_inv (callId : option string) (cart : list CartItem)
  (w w' : World) (u : unit) :
  saveSessionCart callId cart w = (Ok u, w') -> putFails w = None.
Proof.
  unfold saveSessionCart. destruct callId as [c|]; [|discriminate].
  destruct (String.eqb c ""); [discriminate|].
  by destruct (putFails w).
Qed.

(** C7, as the code has it.  A rejected [put] on the session table is answered
    with an internal error (status 500).  A rejected read is not: the operation
    answers exactly as it does when the session has no stored cart. *)
Theorem store_failure_surfacing (op : Operation) (body : Body) (w : World) (e : string) :
  (putFails w = Some e -> putLog (run op body w).2 <> putLog w ->
   errorKind (run op body w).1 = Some InternalError)
  /\ (getFails w SESSION_CARTS_TABLE = Some e ->
      (run op body w).1 = (run op body (withoutSessionRows w)).1).
Proof.
  split.
  - intros Hp Hlog.
    destruct (run_outcome op body w) as [Hw | callId cart Hsave H200 | callId cart msg Hsave Hr].
    + rewrite Hw in Hlog. done.
    + apply saveSessionCart_Ok_inv in Hsave. congruence.
    + by rewrite Hr.
  - apply read_failure_as_empty_cart.
Qed.

Lemma store_failure_surfacing_witness :
  errorKind (run addItem (Sample.addItemRequest "Fries" (Some 1%Q) None None) tablesDown).1
  = Some InternalError
  /\ (run addItem (Sample.addItemRequest "Fries" (Some 1%Q) None None) tablesDown).1
     = (run addItem (Sample.addItemRequest "Fries" (Some 1%Q) None None)
          (withoutSessionRows tablesDown)).1.
Proof.
  destruct (store_failure_surfacing addItem
              (Sample.addItemRequest "Fries" (Some 1%Q) None None) tablesDown
              "ServiceUnavailable") as [Hput Hget].
  split.
  - apply Hput; [reflexivity|]. by vm_compute.
  - apply Hget. reflexivity.
Defined.

(** C7, counterexample.  The session has a stored line of fries and the read
    of the session table is rejected; [summarize] answers with status 200 and
    the empty-cart message, not with an internal error. *)
Lemma read_failure_not_surfaced :
  getFails tablesDown SESSION_CARTS_TABLE = Some "ServiceUnavailable"
  /\ length (storedCart tablesDown "call-1") = 1%nat
  /\ (run summarize Sample.request tablesDown).1
     = createSuccessResponse "Your cart is empty"
  /\ errorKind (run summarize Sample.request tablesDown).1 <> Some InternalError.
Proof. repeat split; by vm_compute. Qed.

(** ** The summary of an empty cart *)

Lemma createSpeechFriendlySummary_empty (subtotal : Q) :
  createSpeechFriendlySummary [] subtotal = "Your cart is empty.".
Proof. reflexivity. Qed.

(** C5, as the code has it.  For a session whose stored cart is empty,
    [summarize] answers with status 200 and the message [Your cart is empty],
    without a final period, and changes nothing; the body of the response has
    the field [message] and no other, so no subtotal field.  The string of the
    formatter is not used on this path. *)
Theorem summarize_empty_cart (body : Body) (w : World) (c : string) :
  call_id body = Some c -> c <> "" -> storedCart w c = [] ->
  getCartSummary body w
  = ({| statusCode := 200; message := "Your cart is empty";
        fieldNames := ["message"] |}, w)
  /\ "subtotal" ∉ fieldNames (getCartSummary body w).1.
Proof.
  intros Hc Hne Hcart. unfold getCartSummary, extractCallId. rewrite Hc.
  rewrite truthy_Some by done. simpl negb. cbv iota.
  assert (getSessionCart (Some c) w = []) as ->.
  { unfold getSessionCart. apply String.eqb_neq in Hne as ->.
    destruct (getFails w SESSION_CARTS_TABLE); [done|exact Hcart]. }
  split; [reflexivity|]. cbn. intros Hin. apply list_elem_of_singleton in Hin. discriminate.
Qed.

Lemma summarize_empty_cart_witness :
  storedCart (Sample.world ∅) "call-1" = []
  /\ getCartSummary Sample.request (Sample.world ∅)
     = ({| statusCode := 200; message := "Your cart is empty";
           fieldNames := ["message"] |}, Sample.world ∅)
  /\ "subtotal" ∉ fieldNames (getCartSummary Sample.request (Sample.world ∅)).1.
Proof.
  split; [reflexivity|].
  apply (summarize_empty_cart Sample.request (Sample.world ∅) "call-1");
    [reflexivity | discriminate | reflexivity].
Defined.

(** C5, counterexample.  On the empty cart the message of [summarize] is not
    the string with the final period. *)
Lemma summarize_empty_cart_no_period :
  storedCart (Sample.world ∅) "call-1" = []
  /\ message (getCartSummary Sample.request (Sample.world ∅)).1 <> "Your cart is empty.".
Proof. split; [reflexivity | by vm_compute]. Qed.

(** ** Up-sell *)

(** When one of fries, mac & cheese and slaw is missing from the cart, the
    offer names exactly the missing ones, and the dessert when it is missing;
    when the three are in the cart the offer is empty whatever the dessert. *)
Lemma upsellMessage_spec (hasFries hasMac hasSlaw hasToffee : bool) :
  let msg := upsellMessage hasFries hasMac hasSlaw hasToffee in
  if hasFries && hasMac && hasSlaw then msg = ""
  else JS.includes msg "regular fries, cheese fries" = negb hasFries
       /\ JS.includes msg "mac & cheese" = negb hasMac
       /\ JS.includes msg "slaw" = negb hasSlaw
       /\ JS.includes msg "toffee cake" = negb hasToffee.
Proof.
  destruct hasFries, hasMac, hasSlaw, hasToffee; vm_compute; repeat split.
Qed.

(** C6, the failing input.  The cart holds fries, mac & cheese and slaw and no
    toffee cake: the dessert is the only missing category, and the offer is the
    empty string. *)
Lemma upsell_dessert_only_missing :
  name <$> storedCart cartWithSides "call-1" = ["Fries"; "Mac & Cheese"; "Cole Slaw"]
  /\ hasItem (storedCart cartWithSides "call-1") "toffee" = false
  /\ (run upsellSuggestions Sample.request cartWithSides).1 = createSuccessResponse "".
Proof. repeat split; by vm_compute. Qed.

(** The scenario of the specification: fries and slaw in the cart. *)
Example upsell_fries_and_slaw :
  upsellMessage true false true false
  = "Before I confirm, would you like to add mac & cheese, we also have toffee cake for dessert?".
Proof. reflexivity. Qed.

(** ** Removing a line *)

(** A run of [removeFromCart] that finds a line, on tables that answer. *)
Lemma removeFromCart_found (body : Body) (w : World) (c itemName : string)
  (i : nat) (item : CartItem) :
  call_id body = Some c -> c <> "" ->
  arg_itemName body = Some itemName -> itemName <> "" ->
  getFails w SESSION_CARTS_TABLE = None -> putFails w = None ->
  findIndex (nameMatches itemName) (storedCart w c) = Some i ->
  storedCart w c !! i = Some item ->
  statusCode (removeFromCart body w).1 = 200
  /\ storedCart (removeFromCart body w).2 c
     = removeAt i (removeQuantity (arg_quantityToRemove body) item) item (storedCart w c).
Proof.
  intros Hc Hne Hn Hnn Hg Hp Hi Hitem.
  unfold removeFromCart, extractCallId. rewrite Hc, Hn.
  change (default "" (Some itemName)) with itemName.
  rewrite !truthy_Some by done. simpl negb. cbv iota.
  rewrite getSessionCart_ok by done.
  destruct (storedCart w c) as [|x cart] eqn:Hcart; [done|].
  rewrite Hi, Hitem.
  destruct (saveSessionCart_ok c
              (removeAt i (removeQuantity (arg_quantityToRemove body) item) item (x :: cart))
              w Hne Hp) as (w' & -> & _ & Hstored & _).
  simpl. split; [reflexivity | exact Hstored].
Qed.

(** C10. With [quantityToRemove] equal to 0, [removeItem] does what it does
    when the quantity is omitted; on a cart with a matching line, and with the
    session table answering, it deletes the first matching line as a whole. *)
Theorem removeFromCart_zero_removes_line (body : Body) (w : World)
  (c itemName : string) (i : nat) :
  call_id body = Some c -> c <> "" ->
  arg_itemName body = Some itemName -> itemName <> "" ->
  arg_quantityToRemove body = Some 0 ->
  getFails w SESSION_CARTS_TABLE = None -> putFails w = None ->
  findIndex (nameMatches itemName) (storedCart w c) = Some i ->
  statusCode (removeFromCart body w).1 = 200
  /\ storedCart (removeFromCart body w).2 c = delete i (storedCart w c)
  /\ removeFromCart body w = removeFromCart (withQuantityToRemove None body) w.
Proof.
  intros Hc Hne Hn Hnn Hq Hg Hp Hi.
  destruct (findIndex_Some _ _ _ Hi) as (item & Hitem & _).
  destruct (removeFromCart_found body w c itemName i item) as [H200 Hcart]; try done.
  split; [exact H200|]. split.
  - rewrite Hcart, Hq. unfold removeAt. simpl removeQuantity.
    by rewrite Z.geb_leb, Z.leb_refl.
  - unfold removeFromCart, extractCallId. simpl. rewrite Hq. reflexivity.
Qed.

Lemma removeFromCart_zero_removes_line_witness :
  quantity <$> storedCart cartWithThreeFries "call-1" = [3]
  /\ statusCode (removeFromCart (Sample.removeItemRequest "fries" (Some 0)) cartWithThreeFries).1
     = 200
  /\ storedCart (removeFromCart (Sample.removeItemRequest "fries" (Some 0))
                   cartWithThreeFries).2 "call-1"
     = delete 0%nat (storedCart cartWithThreeFries "call-1").
Proof.
  split; [by vm_compute|].
  destruct (removeFromCart_zero_removes_line
              (Sample.removeItemRequest "fries" (Some 0)) cartWithThreeFries
              "call-1" "fries" 0%nat) as (H1 & H2 & _);
    try reflexivity; try discriminate.
  split; [exact H1 | exact H2].
Defined.

(** ** The runs of the handlers that write

    A handler that writes either returns an error without a [put], or hands to
    [saveSessionCart] the cart it read, changed by its in-memory step [P]. *)

Ltac close_run :=
  simpl;
  first
    [ by apply RunReturned
    | match goal with
      | H : saveSessionCart _ _ _ = _ |- _ =>
          eapply RunSaved;
          [ by apply negb_false_iff | exact H | | done ]
      end ].

Lemma isInteger_positive (q : Q) :
  (Qle_bool q 0 || negb (isInteger q))%bool = false -> (0 < Qfloor q)%Z.
Proof.
  intros H. apply orb_false_iff in H as [Hle Hint].
  apply negb_false_iff in Hint. unfold isInteger in Hint.
  destruct q as [n d]. simpl in *. unfold Qle_bool in Hle. simpl in Hle.
  apply Z.eqb_eq in Hint. apply Z.leb_gt in Hle.
  apply Z.div_str_pos. split; [lia|].
  assert (n = Z.pos d * (n / Z.pos d))%Z by (apply Z.div_exact; [lia|done]).
  destruct (Z.le_gt_cases (Z.pos d) n) as [?|Hlt]; [lia|exfalso].
  assert (n / Z.pos d = 0)%Z by (apply Z.div_small; lia). lia.
Qed.

Lemma addToCart_run (body : Body) (w : World) :
  Run (addToCartStep body) (call_id body) w (addToCart body w).1 (addToCart body w).2.
Proof.
  unfold addToCart, extractCallId. repeat handler_step; close_run.
  all: eexists; split; [by apply isInteger_positive | reflexivity].
Qed.

Lemma removeFromCart_run (body : Body) (w : World) :
  Run (removeFromCartStep body) (call_id body) w
    (removeFromCart body w).1 (removeFromCart body w).2.
Proof.
  unfold removeFromCart, extractCallId. repeat handler_step; close_run.
  all: try (apply findIndex_Some in Heqo as (? & ? & _); congruence).
  all: rewrite Heql; eexists _, _; repeat split; eassumption.
Qed.

Lemma addModifierToCart_run (body : Body) (w : World) :
  Run (fun old new => exists menuItem,
         modifierStep body (addModifierLoop body menuItem) old new)
    (call_id body) w (addModifierToCart body w).1 (addModifierToCart body w).2.
Proof.
  unfold addModifierToCart, extractCallId. repeat handler_step; close_run.
  all: match goal with
       | H : @lookup _ MenuItem _ _ _ _ = Some ?m |- _ => exists m
       end.
  all: eexists _, _; unfold addModifierLoop.
  all: repeat match goal with
              | H : arg_firstSandwichMods _ = _ |- _ => rewrite H
              | H : arg_secondSandwichMods _ = _ |- _ => rewrite H
              | H : modifiersToApply _ _ _ _ = _ |- _ => rewrite H
              end.
  all: repeat split; try eassumption; congruence.
Qed.

Lemma removeModifierFromCart_run (body : Body) (w : World) :
  Run (modifierStep body (removeModifierLoop body))
    (call_id body) w (removeModifierFromCart body w).1 (removeModifierFromCart body w).2.
Proof.
  unfold removeModifierFromCart, extractCallId. repeat handler_step; close_run.
  all: match goal with
       | H : getSessionCart _ _ = _ |- _ => rewrite H
       end.
  all: eexists _, _; unfold removeModifierLoop.
  all: repeat match goal with
              | H : arg_firstSandwichMods _ = _ |- _ => rewrite H
              | H : arg_secondSandwichMods _ = _ |- _ => rewrite H
              | H : modifiers _ = _ :: _ |- _ => rewrite H
              end.
  all: repeat split; try eassumption; congruence.
Qed.

(** ** The line total *)

Lemma orZero_eq (p : Q) : (orZero p == p)%Q.
Proof.
  unfold orZero. destruct (Qeq_bool p 0) eqn:E; [|reflexivity].
  apply Qeq_bool_iff in E. by rewrite E.
Qed.

Lemma fold_modifierTotal (ms : list Modifier) (acc : Q) :
  (fold_left (fun sum m => sum + orZero (mod_price m)) ms acc
   == acc + modifierTotal ms)%Q.
Proof.
  unfold modifierTotal. revert acc.
  induction ms as [|m ms IH]; intros acc; simpl.
  - ring.
  - rewrite IH, (IH (0 + orZero (mod_price m))%Q). ring.
Qed.

Lemma modifierTotal_cons (m : Modifier) (ms : list Modifier) :
  (modifierTotal (m :: ms) == mod_price m + modifierTotal ms)%Q.
Proof.
  unfold modifierTotal at 1. simpl. rewrite fold_modifierTotal, orZero_eq. ring.
Qed.

Lemma modifierTotal_app (ms1 ms2 : list Modifier) :
  (modifierTotal (ms1 ++ ms2) == modifierTotal ms1 + modifierTotal ms2)%Q.
Proof.
  induction ms1 as [|m ms1 IH]; simpl.
  - unfold modifierTotal at 2. simpl. ring.
  - rewrite !modifierTotal_cons, IH. ring.
Qed.

Lemma buildCartItem_ok (itemName : string) (menuItem : MenuItem) (qty : Z)
  (instructions : string) (first second : option string) :
  lineTotalOk (buildCartItem itemName menuItem qty instructions first second).
Proof.
  unfold lineTotalOk, buildCartItem. simpl.
  set (f := if JS.truthy first then _ else _).
  set (s := if (JS.truthy second && _)%bool then _ else _).
  destruct f as [a|], s as [b|]; simpl;
    rewrite ?modifierTotal_cons; unfold modifierTotal; simpl; ring.
Qed.

Lemma increaseQuantity_ok (qty : Z) (existing : CartItem) :
  lineTotalOk (increaseQuantity qty existing).
Proof. unfold lineTotalOk. simpl. reflexivity. Qed.

Lemma setModifiers_ok (mods : list Modifier) (cartItem : CartItem) :
  lineTotalOk (setModifiers mods cartItem).
Proof. unfold lineTotalOk. simpl. reflexivity. Qed.

Lemma mergeIntoCart_ok (cartItem : CartItem) (qty : Z) (cart : list CartItem) :
  lineTotalOk cartItem -> Forall lineTotalOk cart ->
  Forall lineTotalOk (mergeIntoCart cartItem qty cart).
Proof.
  intros Hitem Hcart. unfold mergeIntoCart.
  destruct (findIndex _ cart) as [i|].
  - apply Forall_alter; [done|]. intros x _ _. apply increaseQuantity_ok.
  - apply Forall_app. split; [done|]. by constructor.
Qed.

Lemma getSessionCart_cases (callId : option string) (w : World) :
  getSessionCart callId w = []
  \/ exists c, callId = Some c /\ getSessionCart callId w = storedCart w c.
Proof.
  destruct callId as [c|]; [|by left]. unfold getSessionCart, storedCart.
  destruct (String.eqb c ""); [by left|].
  destruct (getFails w SESSION_CARTS_TABLE); [by left|]. right. by exists c.
Qed.

Lemma saveSessionCart_stored (callId : option string) (cart : list CartItem)
  (w w' : World) (res : Result unit) (c' : string) :
  saveSessionCart callId cart w = (res, w') ->
  storedCart w' c' = storedCart w c' \/ storedCart w' c' = cart.
Proof.
  unfold saveSessionCart, storedCart. destruct callId as [c|]; [|intros [= _ <-]; by left].
  destruct (String.eqb c ""); [intros [= _ <-]; by left|].
  destruct (putFails w); intros [= _ <-]; simpl; [by left|].
  destruct (decide (c = c')) as [->|Hne].
  - right. by rewrite lookup_insert_eq.
  - left. by rewrite lookup_insert_ne.
Qed.

(** A property of all stored lines that the in-memory step keeps is kept by
    the run. *)
Lemma Run_preserves (P : list CartItem -> list CartItem -> Prop)
  (I : CartItem -> Prop) (callId : option string) (w w' : World) (r : Response) :
  Run P callId w r w' ->
  (forall old new, P old new -> Forall I old -> Forall I new) ->
  (forall c, Forall I (storedCart w c)) ->
  forall c, Forall I (storedCart w' c).
Proof.
  intros [-> _ | cart res _ Hsave HP _] Hstep Hinv c; [apply Hinv|].
  destruct (saveSessionCart_stored _ _ _ _ _ c Hsave) as [-> | ->]; [apply Hinv|].
  apply (Hstep _ _ HP).
  destruct (getSessionCart_cases callId w) as [-> | (c0 & _ & ->)]; [constructor | apply Hinv].
Qed.

(** [addItem], [addModifiers] and [removeModifiers] keep the invariant of the
    line total on every stored line. *)
Lemma lineTotal_kept (op : Operation) (body : Body) (w : World) :
  op = addItem \/ op = addModifiers \/ op = removeModifiers ->
  (forall c, Forall lineTotalOk (storedCart w c)) ->
  forall c, Forall lineTotalOk (storedCart (run op body w).2 c).
Proof.
  intros [-> | [-> | ->]] Hinv; simpl.
  - eapply Run_preserves; [apply addToCart_run | | exact Hinv].
    intros old new (menuItem & _ & ->) Hold.
    apply mergeIntoCart_ok; [apply buildCartItem_ok | done].
  - eapply Run_preserves; [apply addModifierToCart_run | | exact Hinv].
    intros old new (menuItem & i & item & _ & _ & _ & ->) Hold.
    apply Forall_insert; [done | apply setModifiers_ok].
  - eapply Run_preserves; [apply removeModifierFromCart_run | | exact Hinv].
    intros old new (i & item & _ & _ & _ & ->) Hold.
    apply Forall_insert; [done | apply setModifiers_ok].
Qed.

(** C1, the failing input.  The cart holds two sandwiches with cheese
    (8.99 + 1.00 each, total 19.98); removing one leaves a line of quantity 1
    that still has the cheese, with total 8.99 where the invariant asks for
    9.99. *)
Lemma removeFromCart_decrement_forgets_modifiers :
  Forall lineTotalOk (storedCart cheeseSandwiches "call-1")
  /\ exists it : CartItem,
       storedCart (run removeItem (Sample.removeItemRequest "Sandwich" (Some 1))
                     cheeseSandwiches).2 "call-1" = [it]
       /\ quantity it = 1
       /\ optionName <$> modifiers it = ["Add cheese"]
       /\ (lineTotal it == 899 # 100)%Q
       /\ ((unitPrice it + modifierTotal (modifiers it)) * inject_Z (quantity it)
           == 999 # 100)%Q
       /\ ~ lineTotalOk it.
Proof.
  split.
  - vm_compute storedCart. repeat constructor.
  - eexists. split; [vm_compute; reflexivity|].
    repeat split; try (by vm_compute).
Qed.

(** ** The guards of [addItem] *)

Lemma extractPhoneNumber_nonempty (body : Body) :
  String.eqb (extractPhoneNumber body) "" = false.
Proof.
  unfold extractPhoneNumber. destruct (JS.truthy (to_number body)) eqn:E; [|reflexivity].
  apply truthy_inv in E as (s & -> & Hs). simpl. by apply String.eqb_neq.
Qed.

(** A quantity other than 0 that is not a positive integer is refused with
    status 400 and nothing is written. *)
Lemma addToCart_rejects_quantity (body : Body) (w : World) (c itemName : string) (q : Q) :
  call_id body = Some c -> c <> "" ->
  arg_itemName body = Some itemName -> itemName <> "" ->
  arg_quantity body = Some q -> ~ (q == 0)%Q ->
  (q <= 0)%Q \/ isInteger q = false ->
  addToCart body w = (createErrorResponse 400 "Quantity must be a positive integer", w).
Proof.
  intros Hc Hne Hn Hnn Hq Hq0 Hbad.
  unfold addToCart, extractCallId. rewrite Hc, Hn, extractPhoneNumber_nonempty.
  rewrite !truthy_Some by done. simpl negb. cbv iota.
  unfold requestedQuantity. rewrite Hq.
  destruct (Qeq_bool q 0) eqn:E; [by apply Qeq_bool_iff in E|].
  assert ((Qle_bool q 0 || negb (isInteger q))%bool = true) as ->; [|reflexivity].
  destruct Hbad as [Hle | Hint].
  - apply Qle_bool_iff in Hle. by rewrite Hle.
  - rewrite Hint. apply orb_true_r.
Qed.

(** A name that is not in the menu of the location (and is no other property
    of its row) is refused with status 404 and nothing is written. *)
Lemma addToCart_unknown_item (body : Body) (w : World) (c itemName : string)
  (loc : LocationData) (menu : gmap string MenuItem) :
  call_id body = Some c -> c <> "" ->
  arg_itemName body = Some itemName -> itemName <> "" ->
  (Qle_bool (requestedQuantity body) 0 || negb (isInteger (requestedQuantity body)))%bool
  = false ->
  getLocationFromPhoneNumber (extractPhoneNumber body) w = Ok loc ->
  getLocationMenu (restaurantName loc) (locationId loc) w = Ok menu ->
  menu !! itemName = None ->
  errorKind (addToCart body w).1 = Some NotFoundError /\ (addToCart body w).2 = w.
Proof.
  intros Hc Hne Hn Hnn Hq Hloc Hmenu Hitem.
  unfold addToCart, extractCallId. rewrite Hc, Hn, extractPhoneNumber_nonempty.
  rewrite !truthy_Some by done. simpl negb. cbv iota.
  rewrite Hq, Hloc, Hmenu. change (default "" (Some itemName)) with itemName.
  rewrite Hitem. by split.
Qed.

(** The quantity 0 is read as a missing quantity, that is as 1. *)
Lemma addToCart_zero_as_omitted (body : Body) (w : World) (q : Q) :
  arg_quantity body = Some q -> (q == 0)%Q ->
  addToCart body w = addToCart (withQuantity None body) w.
Proof.
  intros Hq H0. unfold addToCart, requestedQuantity, extractCallId, extractPhoneNumber.
  simpl. rewrite Hq. apply Qeq_bool_iff in H0. rewrite H0. reflexivity.
Qed.

(** C4, the failing input.  A request for 0 fries on the empty cart is
    answered with status 200 and stores one line of quantity 1. *)
Lemma addToCart_quantity_zero_adds_one :
  statusCode (run addItem (Sample.addItemRequest "Fries" (Some 0%Q) None None)
                (Sample.world ∅)).1 = 200
  /\ (fun it => (name it, quantity it))
     <$> storedCart (run addItem (Sample.addItemRequest "Fries" (Some 0%Q) None None)
                       (Sample.world ∅)).2 "call-1"
     = [("Fries", 1)].
Proof. split; by vm_compute. Qed.

Example addToCart_rejects_negative :
  addToCart (Sample.addItemRequest "Fries" (Some (-2)%Q) None None) (Sample.world ∅)
  = (createErrorResponse 400 "Quantity must be a positive integer", Sample.world ∅).
Proof.
  apply (addToCart_rejects_quantity _ _ "call-1" "Fries" (-2)%Q);
    try reflexivity; try discriminate.
  by left.
Qed.

(** ** The line the modifier handlers work on *)

Lemma saveSessionCart_Ok_stored (c : string) (cart : list CartItem)
  (w w' : World) (u : unit) :
  saveSessionCart (Some c) cart w = (Ok u, w') -> storedCart w' c = cart.
Proof.
  unfold saveSessionCart. destruct (String.eqb c ""); [discriminate|].
  destruct (putFails w); [discriminate|]. intros [= _ <-].
  unfold storedCart. cbn [sessionCarts]. by rewrite lookup_insert_eq.
Qed.

(** A successful run of a modifier handler stores the cart it read with one
    line replaced: the line at the greatest index among those named
    [itemName]. *)
Lemma modifierStep_target (body : Body) (loop : CartItem -> ModLoop)
  (itemName : string) (old new : list CartItem) :
  arg_itemName body = Some itemName ->
  modifierStep body loop old new ->
  exists (i : nat) (item : CartItem) (ms : list Modifier),
    old !! i = Some item /\ isNamed itemName item = true
    /\ (forall j y, (i < j)%nat -> old !! j = Some y -> isNamed itemName y = false)
    /\ new = <[i := setModifiers ms item]> old.
Proof.
  intros Hn (i & item & Hlast & Hitem & _ & ->). rewrite Hn in Hlast.
  change (default "" (Some itemName)) with itemName in Hlast.
  destruct (findLastIndex_Some _ _ _ Hlast) as (x & Hx & Hp & Hgt).
  assert (x = item) as -> by congruence.
  exists i, item, (loop_modifiers (loop item)). repeat split; auto.
Qed.

(** C9, as the code has it.  For a request with a call id, an item name and at
    least one modifier name: a successful [addModifiers] or [removeModifiers]
    changes exactly the line at the greatest index among the lines named
    [itemName]; when no line has that name the answer is a not-found error,
    except that [removeModifiers] on the empty cart answers with the
    validation error [Cart is empty]. *)
Theorem modifier_target (remove : bool) (body : Body) (w : World) (c itemName : string) :
  call_id body = Some c -> c <> "" ->
  arg_itemName body = Some itemName -> itemName <> "" ->
  arg_firstSandwichMods body <> [] \/ arg_secondSandwichMods body <> [] ->
  let cart := getSessionCart (Some c) w in
  let result := run (modifierOp remove) body w in
  (statusCode result.1 = 200 ->
   exists (i : nat) (item : CartItem) (ms : list Modifier),
     cart !! i = Some item /\ isNamed itemName item = true
     /\ (forall j y, (i < j)%nat -> cart !! j = Some y -> isNamed itemName y = false)
     /\ storedCart result.2 c = <[i := setModifiers ms item]> cart)
  /\ ((forall y, y ∈ cart -> isNamed itemName y = false) ->
      errorKind result.1
      = Some (match remove, cart with
              | true, [] => ValidationError
              | _, _ => NotFoundError
              end)).
Proof.
  intros Hc Hne Hn Hnn Hmods cart result. split.
  - intros H200.
    assert (Hrun : exists P,
               Run P (Some c) w result.1 result.2
               /\ forall old new, P old new ->
                    exists (i : nat) (item : CartItem) (ms : list Modifier),
                      old !! i = Some item /\ isNamed itemName item = true
                      /\ (forall j y, (i < j)%nat -> old !! j = Some y ->
                                      isNamed itemName y = false)
                      /\ new = <[i := setModifiers ms item]> old).
    { subst result. destruct remove; simpl; rewrite <- Hc; eexists; split.
      - apply removeModifierFromCart_run.
      - intros old new Hstep. by eapply modifierStep_target.
      - apply addModifierToCart_run.
      - intros old new (menuItem & Hstep). by eapply modifierStep_target. }
    destruct Hrun as (P & [_ Hno | new res _ Hsave HP Hres] & Htarget); [done|].
    destruct res as [[]|msg]; [|rewrite Hres in H200; done].
    destruct (Htarget _ _ HP) as (i & item & ms & Hitem & Hnamed & Hgt & ->).
    exists i, item, ms. repeat split; auto.
    by eapply saveSessionCart_Ok_stored.
  - intros Hnone. apply findLastIndex_None in Hnone.
    subst result cart. remember (getSessionCart (Some c) w) as cart eqn:Hcart.
    destruct remove; cbn [modifierOp run].
    + unfold removeModifierFromCart, extractCallId. rewrite Hc, Hn.
      change (default "" (Some itemName)) with itemName.
      rewrite !truthy_Some by done. simpl negb. cbv iota.
      rewrite <- Hcart, Hnone.
      destruct (arg_firstSandwichMods body), (arg_secondSandwichMods body), cart;
        try reflexivity.
      all: by destruct Hmods.
    + unfold addModifierToCart, extractCallId. rewrite Hc, Hn.
      change (default "" (Some itemName)) with itemName.
      rewrite !truthy_Some by done. rewrite extractPhoneNumber_nonempty.
      simpl negb. cbv iota. rewrite <- Hcart, Hnone.
      destruct (arg_firstSandwichMods body) eqn:Hf, (arg_secondSandwichMods body) eqn:Hs.
      1: by destruct Hmods.
      all: repeat handler_step; reflexivity.
Qed.

Lemma modifier_target_witness :
  exists (i : nat) (item : CartItem) (ms : list Modifier),
    getSessionCart (Some "call-1") twoSandwiches !! i = Some item
    /\ isNamed "Sandwich" item = true
    /\ (forall j y, (i < j)%nat ->
          getSessionCart (Some "call-1") twoSandwiches !! j = Some y ->
          isNamed "Sandwich" y = false)
    /\ storedCart (run addModifiers (Sample.modifiersRequest "Sandwich" ["Add cheese"] [])
                     twoSandwiches).2 "call-1"
       = <[i := setModifiers ms item]> (getSessionCart (Some "call-1") twoSandwiches).
Proof.
  destruct (modifier_target false (Sample.modifiersRequest "Sandwich" ["Add cheese"] [])
              twoSandwiches "call-1" "Sandwich") as [Hok _];
    try reflexivity; try discriminate.
  - left. discriminate.
  - apply Hok. by vm_compute.
Defined.

(** Of two lines named [Sandwich] the second one gets the cheese. *)
Example addModifiers_targets_last :
  (fun it => optionName <$> modifiers it)
  <$> storedCart (run addModifiers (Sample.modifiersRequest "Sandwich" ["Add cheese"] [])
                    twoSandwiches).2 "call-1"
  = [["Mild"]; ["Add cheese"]].
Proof. by vm_compute. Qed.

(** C9, counterexample.  On the empty cart, which has no line named
    [Sandwich], [removeModifiers] answers with a validation error (status 400,
    [Cart is empty]) and not with a not-found error. *)
Lemma removeModifiers_empty_cart_validation :
  (forall y, y ∈ storedCart (Sample.world ∅) "call-1" -> isNamed "Sandwich" y = false)
  /\ errorKind (run removeModifiers (Sample.modifiersRequest "Sandwich" ["Add cheese"] [])
                  (Sample.world ∅)).1 = Some ValidationError
  /\ errorKind (run removeModifiers (Sample.modifiersRequest "Sandwich" ["Add cheese"] [])
                  (Sample.world ∅)).1 <> Some NotFoundError.
Proof.
  split; [|split; by vm_compute].
  intros y Hy. change (storedCart (Sample.world ∅) "call-1") with (@nil CartItem) in Hy.
  inversion Hy.
Qed.

(** ** Merging lines *)

Lemma sort_eq_iff_Permutation (l1 l2 : list string) :
  merge_sort String.le l1 = merge_sort String.le l2 <-> l1 ≡ₚ l2.
Proof.
  split; intros H.
  - rewrite <- (merge_sort_Permutation String.le l1), H.
    apply merge_sort_Permutation.
  - apply (StronglySorted_unique String.le).
    + apply StronglySorted_merge_sort; apply _.
    + apply StronglySorted_merge_sort; apply _.
    + by rewrite !merge_sort_Permutation.
Qed.

(** The predicate of [addToCart] decides mergeability. *)
Lemma sameConfiguration_mergeable (cartItem item : CartItem) :
  sameConfiguration cartItem item = true <-> mergeable cartItem item.
Proof.
  unfold sameConfiguration, mergeable, sortedOptionIds.
  destruct (String.eqb_spec (itemId item) (itemId cartItem)) as [Hid|Hid]; simpl.
  2: { split; [discriminate|]. intros (? & _). congruence. }
  destruct (String.eqb_spec (specialInstructions item) (specialInstructions cartItem))
    as [Hsp|Hsp]; simpl.
  2: { split; [discriminate|]. intros (_ & ? & _). congruence. }
  destruct (Nat.eqb_spec (length (modifiers item)) (length (modifiers cartItem)))
    as [Hlen|Hlen]; simpl.
  - rewrite bool_decide_eq_true, sort_eq_iff_Permutation.
    split.
    + intros H. by repeat split.
    + by intros (_ & _ & ->).
  - split; [discriminate|]. intros (_ & _ & Hperm).
    apply Permutation_length in Hperm. rewrite !length_fmap in Hperm. congruence.
Qed.

Lemma mergeable_sym (a b : CartItem) : mergeable a b -> mergeable b a.
Proof. intros (? & ? & ?). by repeat split. Qed.

Lemma mergeable_trans (a b c : CartItem) : mergeable a b -> mergeable b c -> mergeable a c.
Proof.
  intros (? & ? & ?) (? & ? & ?). repeat split; try congruence. by etrans.
Qed.

Lemma sameConfiguration_false (cartItem item : CartItem) :
  sameConfiguration cartItem item = false <-> ~ mergeable cartItem item.
Proof.
  rewrite <- sameConfiguration_mergeable. by destruct (sameConfiguration cartItem item).
Qed.

(** With a mergeable line in the cart, the merge step adds no line. *)
Lemma mergeIntoCart_no_duplicate (cartItem : CartItem) (qty : Z) (cart : list CartItem) :
  (exists x, x ∈ cart /\ mergeable cartItem x) ->
  length (mergeIntoCart cartItem qty cart) = length cart.
Proof.
  intros (x & Hx & Hm). unfold mergeIntoCart.
  destruct (findIndex (sameConfiguration cartItem) cart) as [i|] eqn:Hi.
  - apply length_alter.
  - rewrite findIndex_None in Hi. apply sameConfiguration_mergeable in Hm.
    rewrite (Hi x Hx) in Hm. discriminate.
Qed.

(** Without one, the new line is appended. *)
Lemma mergeIntoCart_new (cartItem : CartItem) (qty : Z) (cart : list CartItem) :
  (forall x, x ∈ cart -> ~ mergeable cartItem x) ->
  mergeIntoCart cartItem qty cart = cart ++ [cartItem].
Proof.
  intros Hnone. unfold mergeIntoCart.
  assert (findIndex (sameConfiguration cartItem) cart = None) as ->; [|done].
  apply findIndex_None. intros x Hx. by apply sameConfiguration_false, Hnone.
Qed.

(** A line mergeable with the last one, and with no other, is merged into it. *)
Lemma mergeIntoCart_last (cartItem line : CartItem) (qty : Z) (cart : list CartItem) :
  (forall x, x ∈ cart -> ~ mergeable cartItem x) ->
  mergeable cartItem line ->
  mergeIntoCart cartItem qty (cart ++ [line]) = cart ++ [increaseQuantity qty line].
Proof.
  intros Hnone Hm. unfold mergeIntoCart.
  rewrite findIndex_app_r
    by (intros x Hx; by apply sameConfiguration_false, Hnone).
  simpl. apply sameConfiguration_mergeable in Hm as ->. simpl.
  rewrite Nat.add_0_r.
  replace (length cart) with (length cart + 0)%nat at 1 by lia.
  by rewrite alter_app_r.
Qed.

(** The requested quantity, for a positive integer [q]. *)
Lemma requestedQuantity_integer (body : Body) (q : Z) :
  arg_quantity body = Some (inject_Z q) -> 0 < q ->
  (Qle_bool (requestedQuantity body) 0 || negb (isInteger (requestedQuantity body)))%bool
  = false
  /\ Qfloor (requestedQuantity body) = q.
Proof.
  intros Hq Hpos. unfold requestedQuantity. rewrite Hq.
  assert (Qeq_bool (inject_Z q) 0 = false) as ->.
  { unfold Qeq_bool, inject_Z. simpl. apply Z.eqb_neq. lia. }
  split.
  - apply orb_false_iff. split.
    + unfold Qle_bool, inject_Z. simpl. apply Z.leb_gt. lia.
    + unfold isInteger, inject_Z. simpl. by rewrite Z.mod_1_r.
  - unfold Qfloor, inject_Z. apply Z.div_1_r.
Qed.

(** A run of [addToCart] that passes every guard, on tables that answer: the
    merged cart is stored and the other tables and the failure modes are as
    before. *)
Lemma addToCart_ok (body : Body) (w : World) (c itemName : string) (q : Z)
  (loc : LocationData) (menu : gmap string MenuItem) (menuItem : MenuItem) :
  call_id body = Some c -> c <> "" ->
  arg_itemName body = Some itemName -> itemName <> "" ->
  arg_quantity body = Some (inject_Z q) -> 0 < q ->
  getLocationFromPhoneNumber (extractPhoneNumber body) w = Ok loc ->
  getLocationMenu (restaurantName loc) (locationId loc) w = Ok menu ->
  menu !! itemName = Some menuItem ->
  getFails w SESSION_CARTS_TABLE = None -> putFails w = None ->
  let line := buildCartItem itemName menuItem q
                (default "" (arg_specialInstructions body))
                (arg_firstItemSpiceLevel body) (arg_secondItemSpiceLevel body) in
  let w' := (addToCart body w).2 in
  statusCode (addToCart body w).1 = 200
  /\ storedCart w' c = mergeIntoCart line q (storedCart w c)
  /\ getFails w' = getFails w /\ putFails w' = putFails w
  /\ phoneNumberClientMap w' = phoneNumberClientMap w
  /\ clientMenu w' = clientMenu w.
Proof.
  intros Hc Hne Hn Hnn Hq Hpos Hloc Hmenu Hitem Hg Hp line w'.
  subst line w'.
  destruct (requestedQuantity_integer body q Hq Hpos) as [Hvalid Hfloor].
  unfold addToCart, extractCallId. rewrite Hc, Hn, extractPhoneNumber_nonempty.
  rewrite !truthy_Some by done. simpl negb. cbv iota.
  rewrite Hvalid, Hloc, Hmenu, Hfloor. change (default "" (Some itemName)) with itemName.
  rewrite Hitem, getSessionCart_ok by done.
  match goal with
  | |- context [saveSessionCart (Some c) ?cart w] =>
      destruct (saveSessionCart_ok c cart w Hne Hp)
        as (w' & -> & _ & Hst & Hgf & Hpf & Hph & Hcm & _)
  end.
  simpl. by repeat split.
Qed.

Lemma lookups_same_tables (phone : string) (w w' : World) :
  getFails w' = getFails w ->
  phoneNumberClientMap w' = phoneNumberClientMap w ->
  clientMenu w' = clientMenu w ->
  getLocationFromPhoneNumber phone w' = getLocationFromPhoneNumber phone w
  /\ forall r l, getLocationMenu r l w' = getLocationMenu r l w.
Proof.
  intros Hg Hp Hm. unfold getLocationFromPhoneNumber, getLocationMenu.
  by rewrite Hg, Hp, Hm.
Qed.

Lemma findIndex_ext {A : Type} (p q : A -> bool) (l : list A) :
  (forall x, p x = q x) -> findIndex p l = findIndex q l.
Proof. intros H. induction l as [|a l IH]; simpl; [done|]. by rewrite H, IH. Qed.

Lemma findIndex_alter {A : Type} (p : A -> bool) (f : A -> A) (l : list A) (k : nat) :
  (forall x, p (f x) = p x) -> findIndex p (alter f k l) = findIndex p l.
Proof.
  intros H. revert k. induction l as [|a l IH]; intros k; [done|].
  destruct k as [|k]; cbn.
  - by rewrite H.
  - specialize (IH k). cbn in IH. by rewrite IH.
Qed.

Lemma alter_twice {A : Type} (f g : A -> A) (l : list A) (k : nat) :
  alter g k (alter f k l) = alter (fun x => g (f x)) k l.
Proof.
  revert k. induction l as [|a l IH]; intros k; [done|].
  destruct k as [|k]; cbn; [done|]. specialize (IH k). cbn in IH. by rewrite IH.
Qed.

Lemma alter_as_insert {A : Type} (f : A -> A) (l : list A) (k : nat) (x : A) :
  l !! k = Some x -> alter f k l = <[k := f x]> l.
Proof.
  revert k. induction l as [|a l IH]; intros k Hx; [done|].
  destruct k as [|k]; cbn in *.
  - by injection Hx as ->.
  - specialize (IH k Hx). cbn in IH. by rewrite IH.
Qed.

(** Mergeable new lines select the same lines of a cart. *)
Lemma sameConfiguration_ext (a b x : CartItem) :
  mergeable a b -> sameConfiguration a x = sameConfiguration b x.
Proof.
  intros Hab.
  destruct (sameConfiguration a x) eqn:Ha, (sameConfiguration b x) eqn:Hb; try done.
  - apply sameConfiguration_mergeable in Ha. apply sameConfiguration_false in Hb.
    destruct Hb. eapply mergeable_trans; [by apply mergeable_sym | done].
  - apply sameConfiguration_mergeable in Hb. apply sameConfiguration_false in Ha.
    destruct Ha. by eapply mergeable_trans.
Qed.

(** A larger quantity does not change the configuration of a line. *)
Lemma sameConfiguration_increaseQuantity (a x : CartItem) (qty : Z) :
  sameConfiguration a (increaseQuantity qty x) = sameConfiguration a x.
Proof. reflexivity. Qed.

(** C2, as the code has it.  Two [addItem] calls of one session for the same
    menu item, with the same special instructions and spice levels that
    resolve to the same multiset of option ids, with quantities [q1] and [q2]:
    both succeed.  On a
    cart that holds no line mergeable with the new one, the stored cart is the
    old cart followed by one line of quantity [q1 + q2], which is the only
    line of that configuration.  On a cart that holds such lines, the first of
    them takes both quantities and no line is added.  The merge step never
    adds a line to a cart that holds a mergeable one. *)
Theorem addToCart_twice_one_line (b1 b2 : Body) (w : World) (c itemName : string)
  (q1 q2 : Z) (loc : LocationData) (menu : gmap string MenuItem) (menuItem : MenuItem) :
  call_id b1 = Some c -> call_id b2 = Some c -> c <> "" ->
  arg_itemName b1 = Some itemName -> arg_itemName b2 = Some itemName -> itemName <> "" ->
  arg_quantity b1 = Some (inject_Z q1) -> arg_quantity b2 = Some (inject_Z q2) ->
  0 < q1 -> 0 < q2 ->
  extractPhoneNumber b2 = extractPhoneNumber b1 ->
  getLocationFromPhoneNumber (extractPhoneNumber b1) w = Ok loc ->
  getLocationMenu (restaurantName loc) (locationId loc) w = Ok menu ->
  menu !! itemName = Some menuItem ->
  getFails w SESSION_CARTS_TABLE = None -> putFails w = None ->
  let line1 := buildCartItem itemName menuItem q1
                 (default "" (arg_specialInstructions b1))
                 (arg_firstItemSpiceLevel b1) (arg_secondItemSpiceLevel b1) in
  let line2 := buildCartItem itemName menuItem q2
                 (default "" (arg_specialInstructions b2))
                 (arg_firstItemSpiceLevel b2) (arg_secondItemSpiceLevel b2) in
  default "" (arg_specialInstructions b1) = default "" (arg_specialInstructions b2) ->
  optionId <$> modifiers line1 ≡ₚ optionId <$> modifiers line2 ->
  let w1 := (addToCart b1 w).2 in
  let w2 := (addToCart b2 w1).2 in
  statusCode (addToCart b1 w).1 = 200
  /\ statusCode (addToCart b2 w1).1 = 200
  /\ ((forall x, x ∈ storedCart w c -> ~ mergeable line1 x) ->
      storedCart w2 c = storedCart w c ++ [increaseQuantity q2 line1]
      /\ quantity (increaseQuantity q2 line1) = q1 + q2
      /\ mergeable line1 (increaseQuantity q2 line1)
      /\ forall i x, storedCart w2 c !! i = Some x -> mergeable line1 x ->
           i = length (storedCart w c) /\ quantity x = q1 + q2)
  /\ (forall k x, findIndex (sameConfiguration line1) (storedCart w c) = Some k ->
        storedCart w c !! k = Some x ->
        storedCart w2 c = <[k := increaseQuantity q2 (increaseQuantity q1 x)]> (storedCart w c)
        /\ quantity (increaseQuantity q2 (increaseQuantity q1 x)) = quantity x + q1 + q2
        /\ length (storedCart w2 c) = length (storedCart w c))
  /\ (forall cart, (exists x, x ∈ cart /\ mergeable line2 x) ->
        length (mergeIntoCart line2 q2 cart) = length cart).
Proof.
  intros Hc1 Hc2 Hne Hn1 Hn2 Hnn Hq1 Hq2 Hp1 Hp2 Hphone Hloc Hmenu Hitem Hg Hp
    line1 line2 Hinstr Hperm w1 w2.
  assert (H12 : mergeable line2 line1).
  { repeat split; [| by symmetry]. subst line1 line2. simpl. by symmetry. }
  destruct (addToCart_ok b1 w c itemName q1 loc menu menuItem)
    as (H1 & Hst1 & Hgf & Hpf & Hph & Hcm); try done.
  fold line1 w1 in Hst1, Hgf, Hpf, Hph, Hcm.
  destruct (lookups_same_tables (extractPhoneNumber b2) w w1 Hgf Hph Hcm) as [Hl2 Hm2].
  destruct (addToCart_ok b2 w1 c itemName q2 loc menu menuItem)
    as (H2 & Hst2 & _); try done.
  { by rewrite Hl2, Hphone. }
  { by rewrite Hm2. }
  { by rewrite Hgf. }
  { by rewrite Hpf. }
  fold line2 w2 in Hst2. rewrite Hst1 in Hst2.
  split; [exact H1|]. split; [exact H2|]. split; [|split].
  - intros Hnone. rewrite (mergeIntoCart_new line1 q1 (storedCart w c) Hnone) in Hst2.
    rewrite mergeIntoCart_last in Hst2; [|..|done].
    2: { intros x Hx Hmx. apply (Hnone x Hx).
         eapply mergeable_trans; [apply mergeable_sym, H12 | done]. }
    assert (Hm : mergeable line1 (increaseQuantity q2 line1)) by (by repeat split).
    repeat split; try done.
    + rewrite Hst2 in H. apply lookup_app_Some in H as [Hold | [Hlen Hlast]].
      * exfalso. apply (Hnone x); [|done]. by eapply list_elem_of_lookup_2.
      * apply list_lookup_singleton_Some in Hlast as [Hi _]. lia.
    + rewrite Hst2 in H. apply lookup_app_Some in H as [Hold | [Hlen Hlast]].
      * exfalso. apply (Hnone x); [|done]. by eapply list_elem_of_lookup_2.
      * by apply list_lookup_singleton_Some in Hlast as [_ <-].
  - intros k x Hk Hx. unfold mergeIntoCart in Hst2 at 2. rewrite Hk in Hst2.
    unfold mergeIntoCart in Hst2.
    rewrite (findIndex_ext _ (sameConfiguration line1)) in Hst2
      by (intros y; by apply sameConfiguration_ext).
    rewrite findIndex_alter, Hk, alter_twice in Hst2
      by (intros y; apply sameConfiguration_increaseQuantity).
    rewrite Hst2. split; [|split].
    + by apply (alter_as_insert (fun y => increaseQuantity q2 (increaseQuantity q1 y))).
    + simpl. lia.
    + apply length_alter.
  - apply mergeIntoCart_no_duplicate.
Qed.

(** The scenario of the specification: fries once, then twice. *)
Lemma addToCart_twice_one_line_witness :
  storedCart (addToCart friesTwice (addToCart friesOnce (Sample.world ∅)).2).2 "call-1"
  = storedCart (Sample.world ∅) "call-1"
    ++ [increaseQuantity 2 (buildCartItem "Fries" (Sample.simple "VAR-FRIES" 299) 1 "" None None)]
  /\ quantity (increaseQuantity 2
                 (buildCartItem "Fries" (Sample.simple "VAR-FRIES" 299) 1 "" None None)) = 1 + 2.
Proof.
  destruct (addToCart_twice_one_line friesOnce friesTwice (Sample.world ∅)
              "call-1" "Fries" 1 2
              {| locationId := "L1"; restaurantName := "Red Bird" |}
              Sample.menu (Sample.simple "VAR-FRIES" 299))
    as (_ & _ & Hnew & _);
    try reflexivity; try discriminate; try lia.
  destruct Hnew as (Hcart & Hq & _).
  - intros x Hx. change (storedCart (Sample.world ∅) "call-1") with (@nil CartItem) in Hx.
    inversion Hx.
  - split; [exact Hcart | exact Hq].
Defined.

(** C2, counterexample.  The session holds two plain lines named [Sandwich]
    of one configuration, each of quantity 1 ([removeModifiers] made the second
    equal to the first).  Two [addItem] calls for that configuration, with
    quantities 2 and 3, both succeed and both merge into the first line: the
    cart ends with two lines of the configuration, of quantities 6 and 1, and
    none of quantity 2 + 3. *)
Lemma addToCart_twice_two_lines :
  (quantity <$> storedCart twoPlainSandwiches "call-1" = [1; 1])
  /\ statusCode (addToCart sandwichTwice twoPlainSandwiches).1 = 200
  /\ statusCode (addToCart sandwichThrice
                   (addToCart sandwichTwice twoPlainSandwiches).2).1 = 200
  /\ exists a b : CartItem,
       storedCart (addToCart sandwichThrice
                     (addToCart sandwichTwice twoPlainSandwiches).2).2 "call-1" = [a; b]
       /\ mergeable (buildCartItem "Sandwich" Sample.sandwich 2 "" None None) a
       /\ mergeable (buildCartItem "Sandwich" Sample.sandwich 2 "" None None) b
       /\ quantity a = 6 /\ quantity b = 1
       /\ quantity a <> 2 + 3 /\ quantity b <> 2 + 3.
Proof.
  split; [by vm_compute|]. split; [by vm_compute|]. split; [by vm_compute|].
  eexists _, _. split; [vm_compute; reflexivity|].
  split; [repeat split; vm_compute; constructor|].
  split; [repeat split; vm_compute; constructor|].
  repeat split; by vm_compute.
Qed.

Example fries_three :
  (fun it => (quantity it, JS.toFixed2 (lineTotal it)))
  <$> storedCart (addToCart friesTwice (addToCart friesOnce (Sample.world ∅)).2).2 "call-1"
  = [(3, "8.97")].
Proof. by vm_compute. Qed.

(** The scenario of the specification: a two-piece sandwich with a spice level
    for each piece is one line with two modifiers and total 8.99. *)
Example spicy_two_piece :
  (fun it => (quantity it, optionName <$> modifiers it, JS.toFixed2 (lineTotal it)))
  <$> storedCart
        (addToCart (Sample.addItemRequest "Spicy Sandwich (2pc)" (Some 1%Q)
                      (Some "Mild") (Some "Hot")) (Sample.world ∅)).2 "call-1"
  = [(1, ["Mild"; "Hot"], "8.99")].
Proof. by vm_compute. Qed.

(** ** Adding and then removing modifiers *)

(** The loop of [addModifierToCart] appends the modifiers it adds; they are
    among the modifiers to apply, and their option ids are pairwise distinct
    and new to the line. *)
Lemma fold_applyModifier (toApply : list Modifier) (st : ModLoop) :
  exists added : list Modifier,
    loop_modifiers (fold_left applyModifier toApply st) = loop_modifiers st ++ added
    /\ loop_done (fold_left applyModifier toApply st) = loop_done st ++ added
    /\ (forall a, a ∈ added -> a ∈ toApply)
    /\ NoDup (optionId <$> added)
    /\ (forall a m, a ∈ added -> m ∈ loop_modifiers st -> optionId m <> optionId a).
Proof.
  revert st. induction toApply as [|d toApply IH]; intros st; simpl.
  - exists []. rewrite !app_nil_r. repeat split; try done; [constructor | intros a m Ha; inversion Ha].
  - destruct (IH (applyModifier st d)) as (added & Hm & Hd & Hin & Hnd & Hnew).
    unfold applyModifier in *.
    destruct (existsb _ (loop_modifiers st)) eqn:Hex; simpl in *.
    + exists added. repeat split; auto. intros a Ha. right. by apply Hin.
    + exists (d :: added). rewrite Hm, Hd, <- !app_assoc. simpl.
      repeat split; auto.
      * intros a Ha. apply elem_of_cons in Ha as [->|Ha]; [by left | right; by apply Hin].
      * constructor; [|done]. intros Hdup. apply list_elem_of_fmap in Hdup as (a & Hid & Ha).
        apply (Hnew a d Ha); [|done]. apply elem_of_app. right. by left.
      * intros a m Ha Hmem. apply elem_of_cons in Ha as [->|Ha].
        -- intros Heq.
           assert (existsb (fun m0 => String.eqb (optionId m0) (optionId d))
                     (loop_modifiers st) = true); [|congruence].
           apply existsb_exists. exists m. split; [by apply list_elem_of_In|].
           by apply String.eqb_eq.
        -- apply (Hnew a m Ha). apply elem_of_app. by left.
Qed.

Lemma applyAll_spec (mods toApply : list Modifier) :
  exists added : list Modifier,
    loop_modifiers (applyAll mods toApply) = mods ++ added
    /\ loop_done (applyAll mods toApply) = added
    /\ (forall a, a ∈ added -> a ∈ toApply)
    /\ NoDup added.
Proof.
  destruct (fold_applyModifier toApply
              {| loop_modifiers := mods; loop_done := []; loop_skipped := [] |})
    as (added & Hm & Hd & Hin & Hnd & _).
  exists added. repeat split; auto. by eapply NoDup_fmap_1.
Qed.

Lemma fold_left_fmap {A B C : Type} (f : A -> C -> A) (g : B -> C) (l : list B) (a : A) :
  fold_left f (g <$> l) a = fold_left (fun a x => f a (g x)) l a.
Proof. revert a. induction l as [|x l IH]; intros a; simpl; [done | apply IH]. Qed.

Lemma removeAll_requests (is2PcItem : bool) (mods : list Modifier)
  (firstSandwichMods secondSandwichMods : list string) :
  removeAll is2PcItem mods firstSandwichMods secondSandwichMods
  = removeRequests (requests is2PcItem firstSandwichMods secondSandwichMods)
      {| loop_modifiers := mods; loop_done := []; loop_skipped := [] |}.
Proof.
  unfold removeAll, removeRequests, requests.
  rewrite fold_left_app, !fold_left_fmap. simpl.
  destruct is2PcItem; [by rewrite fold_left_fmap | reflexivity].
Qed.

Lemma modifiersToApply_resolved (menuItem : MenuItem) (is2PcItem : bool)
  (firstSandwichMods secondSandwichMods : list string) (a : Modifier) :
  a ∈ modifiersToApply menuItem is2PcItem firstSandwichMods secondSandwichMods ->
  exists r, r ∈ requests is2PcItem firstSandwichMods secondSandwichMods
            /\ resolved menuItem r a.
Proof.
  unfold modifiersToApply, requests, resolved, resolveFirstMod.
  intros Ha. apply elem_of_app in Ha as [Ha | Ha].
  - apply list_elem_of_omap in Ha as (n & Hn & Hres).
    exists (if is2PcItem then Some FIRST_MODS else None, n). split.
    + apply elem_of_app. left. apply list_elem_of_fmap. by exists n.
    + by destruct is2PcItem.
  - destruct is2PcItem; [|inversion Ha].
    apply list_elem_of_omap in Ha as (n & Hn & Hres).
    exists (Some SECOND_MODS, n). split; [|done].
    apply elem_of_app. right. apply list_elem_of_fmap. by exists n.
Qed.

Lemma find_some_iff {A : Type} (f : A -> bool) (l : list A) (x : A) :
  List.find f l = Some x -> f x = true.
Proof. intros H. by apply List.find_some in H as [_ ?]. Qed.

(** A modifier found in a category has the requested name, up to white space at
    the ends, and the name of that category. *)
Lemma findModifierInCategory_matches (menuItem : MenuItem) (n cat : string) (a : Modifier) :
  findModifierInCategory menuItem n cat = Some a ->
  JS.trim (optionName a) = JS.trim n /\ category a = cat.
Proof.
  unfold findModifierInCategory.
  destruct (String.eqb n ""); [discriminate|].
  destruct (menu_modifiers menuItem) as [cats|]; [|discriminate].
  destruct (List.find _ cats) as [c|] eqn:Hc; [|discriminate].
  destruct (cat_options c) as [opts|]; [|discriminate].
  destruct (List.find _ opts) as [o|] eqn:Ho; [|discriminate].
  intros [= <-]. simpl.
  apply find_some_iff in Hc, Ho. by apply String.eqb_eq in Hc, Ho.
Qed.

Lemma findModifierAnyCategory_matches (cats : list ModifierCategory) (n : string)
  (a : Modifier) :
  findModifierAnyCategory cats n = Some a -> JS.trim (optionName a) = JS.trim n.
Proof.
  induction cats as [|c cats IH]; simpl; [discriminate|].
  destruct (cat_options c) as [opts|]; [|done].
  destruct (List.find _ opts) as [o|] eqn:Ho; [|done].
  intros [= <-]. simpl. apply find_some_iff in Ho. by apply String.eqb_eq in Ho.
Qed.

Lemma resolved_matches (menuItem : MenuItem) (r : option string * string) (a : Modifier) :
  resolved menuItem r a -> modifierMatches r.1 r.2 a = true.
Proof.
  unfold resolved, modifierMatches. destruct r as [[cat|] n]; simpl; intros H.
  - apply findModifierInCategory_matches in H as [-> ->]. by rewrite !String.eqb_refl.
  - apply findModifierAnyCategory_matches in H as ->. by rewrite String.eqb_refl.
Qed.

(** Two names that are equal up to white space at the ends find the same
    modifier. *)
Lemma findModifierInCategory_trim (menuItem : MenuItem) (n n' cat : string)
  (a a' : Modifier) :
  findModifierInCategory menuItem n cat = Some a ->
  findModifierInCategory menuItem n' cat = Some a' ->
  JS.trim n = JS.trim n' -> a = a'.
Proof.
  unfold findModifierInCategory. intros H H' Ht.
  destruct (String.eqb n ""); [discriminate|].
  destruct (String.eqb n' ""); [discriminate|].
  destruct (menu_modifiers menuItem) as [cats|]; [|discriminate].
  destruct (List.find _ cats) as [c|]; [|discriminate].
  destruct (cat_options c) as [opts|]; [|discriminate].
  rewrite Ht in H. congruence.
Qed.

Lemma findModifierAnyCategory_trim (cats : list ModifierCategory) (n n' : string) :
  JS.trim n = JS.trim n' ->
  findModifierAnyCategory cats n = findModifierAnyCategory cats n'.
Proof.
  intros Ht. induction cats as [|c cats IH]; simpl; [done|].
  by rewrite Ht, IH.
Qed.

Lemma resolved_unique (menuItem : MenuItem) (cat : option string) (n n' : string)
  (a a' : Modifier) :
  resolved menuItem (cat, n) a -> resolved menuItem (cat, n') a' ->
  JS.trim n = JS.trim n' -> a = a'.
Proof.
  unfold resolved. destruct cat as [c|]; simpl; intros H H' Ht.
  - by eapply findModifierInCategory_trim.
  - rewrite (findModifierAnyCategory_trim _ n n' Ht) in H. congruence.
Qed.

Lemma requests_category (is2PcItem : bool) (first second : list string)
  (r : option string * string) :
  r ∈ requests is2PcItem first second ->
  if is2PcItem then r.1 = Some FIRST_MODS \/ r.1 = Some SECOND_MODS else r.1 = None.
Proof.
  unfold requests. intros Hr. apply elem_of_app in Hr as [Hr | Hr].
  - apply list_elem_of_fmap in Hr as (n & -> & _). destruct is2PcItem; simpl; auto.
  - destruct is2PcItem; [|inversion Hr].
    apply list_elem_of_fmap in Hr as (n & -> & _). simpl; auto.
Qed.

(** Among the modifiers to apply, a request matches at most one. *)
Lemma modifiersToApply_match_unique (menuItem : MenuItem) (is2PcItem : bool)
  (first second : list string) (r : option string * string) (a a' : Modifier) :
  r ∈ requests is2PcItem first second ->
  a ∈ modifiersToApply menuItem is2PcItem first second ->
  a' ∈ modifiersToApply menuItem is2PcItem first second ->
  modifierMatches r.1 r.2 a = true -> modifierMatches r.1 r.2 a' = true ->
  a = a'.
Proof.
  intros Hr Ha Ha' Hm Hm'.
  apply modifiersToApply_resolved in Ha as ([ca na] & Hra & Hresa).
  apply modifiersToApply_resolved in Ha' as ([ca' na'] & Hra' & Hresa').
  pose proof (resolved_matches _ _ _ Hresa) as Hka.
  pose proof (resolved_matches _ _ _ Hresa') as Hka'.
  apply requests_category in Hr, Hra, Hra'.
  unfold modifierMatches in *. simpl in *.
  apply andb_prop in Hm as [Hn Hc], Hm' as [Hn' Hc'], Hka as [Hna Hca], Hka' as [Hna' Hca'].
  apply String.eqb_eq in Hn, Hn', Hna, Hna'.
  assert (ca = ca') as <-.
  { destruct is2PcItem; [|congruence].
    destruct r as [[c|] n]; simpl in *; [|by destruct Hr].
    apply String.eqb_eq in Hc, Hc'.
    destruct Hra as [-> | ->], Hra' as [-> | ->]; try done;
      apply String.eqb_eq in Hca, Hca'; congruence. }
  eapply resolved_unique; [exact Hresa | exact Hresa' | congruence].
Qed.

(** A decomposition of a list at the index [findIndex] returns. *)
Lemma findIndex_split {A : Type} (p : A -> bool) (l : list A) (k : nat) :
  findIndex p l = Some k ->
  exists l1 x l2, l = l1 ++ x :: l2 /\ length l1 = k /\ p x = true.
Proof.
  intros Hk. destruct (findIndex_Some p l k Hk) as (x & Hx & Hp & _).
  exists (take k l), x, (drop (S k) l). split; [by rewrite take_drop_middle|].
  split; [|done]. apply length_take_le. apply lookup_lt_Some in Hx. lia.
Qed.

Lemma removeRequests_cons (r : option string * string)
  (rq : list (option string * string)) (st : ModLoop) :
  removeRequests (r :: rq) st = removeRequests rq (removeModifier r.1 st r.2).
Proof. reflexivity. Qed.

(** One turn on a line whose modifiers are [mods ++ added], when the request
    matches no modifier of [mods]: the first match in [added] is removed. *)
Lemma removeModifier_app (cat : option string) (n : string)
  (mods added removed : list Modifier) (skipped : list string) :
  (forall m, m ∈ mods -> modifierMatches cat n m = false) ->
  let st := {| loop_modifiers := mods ++ added; loop_done := removed;
               loop_skipped := skipped |} in
  (findIndex (modifierMatches cat n) added = None /\ removeModifier cat st n = st)
  \/ (exists l1 a l2,
        added = l1 ++ a :: l2 /\ modifierMatches cat n a = true
        /\ removeModifier cat st n
           = {| loop_modifiers := mods ++ l1 ++ l2; loop_done := removed ++ [a];
                loop_skipped := skipped |}).
Proof.
  intros Hold st. subst st. unfold removeModifier. cbn [loop_modifiers loop_done loop_skipped].
  rewrite findIndex_app_r by done.
  destruct (findIndex (modifierMatches cat n) added) as [k|] eqn:Hk;
    cbn [fmap option_fmap option_map]; [right | by left].
  apply findIndex_split in Hk as (l1 & a & l2 & -> & <- & Ha).
  exists l1, a, l2. repeat split; [done|].
  replace (mods ++ l1 ++ a :: l2) with ((mods ++ l1) ++ a :: l2)
    by (by rewrite <- app_assoc).
  rewrite <- length_app, delete_middle, drop_app_length, <- app_assoc.
  reflexivity.
Qed.

(** The loops of [removeModifierFromCart] over a line whose modifiers are
    [mods ++ added]: when no request matches a modifier of [mods], each
    request matches at most one modifier of [added], and each modifier of
    [added] is matched by a request, the loops remove exactly [added]. *)
Lemma removeRequests_added (rq : list (option string * string))
  (mods added removed : list Modifier) (skipped : list string) :
  (forall r m, r ∈ rq -> m ∈ mods -> modifierMatches r.1 r.2 m = false) ->
  NoDup added ->
  (forall r a a', r ∈ rq -> a ∈ added -> a' ∈ added ->
     modifierMatches r.1 r.2 a = true -> modifierMatches r.1 r.2 a' = true -> a = a') ->
  (forall a, a ∈ added -> exists r, r ∈ rq /\ modifierMatches r.1 r.2 a = true) ->
  let st := removeRequests rq {| loop_modifiers := mods ++ added; loop_done := removed;
                                 loop_skipped := skipped |} in
  loop_modifiers st = mods
  /\ length (loop_done st) = (length removed + length added)%nat.
Proof.
  revert added removed.
  induction rq as [|r rq IH]; intros added removed Hold Hnd Huniq Hcover.
  - destruct added as [|a added].
    + simpl. rewrite app_nil_r. split; [done | lia].
    + destruct (Hcover a) as (r & Hr & _); [by left | inversion Hr].
  - rewrite removeRequests_cons.
    destruct (removeModifier_app r.1 r.2 mods added removed skipped)
      as [[Hk ->] | (l1 & a & l2 & -> & Ha & ->)].
    { intros m Hm. apply Hold; [by left | done]. }
    + apply IH; auto.
      * intros r' m Hr' Hm. apply Hold; [by right | done].
      * intros r' x x' Hr'. apply Huniq. by right.
      * intros x Hx. destruct (Hcover x Hx) as (r' & Hr' & Hmatch).
        apply elem_of_cons in Hr' as [-> | Hr']; [|by exists r'].
        rewrite findIndex_None in Hk. rewrite (Hk x Hx) in Hmatch. discriminate.
    + apply NoDup_app in Hnd as (Hnd1 & Hdisj & Hnd2).
      apply NoDup_cons in Hnd2 as [Ha2 Hnd2].
      assert (Hsub : forall x, x ∈ l1 ++ l2 -> x ∈ l1 ++ a :: l2).
      { intros x Hx. apply elem_of_app in Hx as [?|?]; apply elem_of_app;
          [by left | right; by right]. }
      destruct (IH (l1 ++ l2) (removed ++ [a])) as [Hmods Hlen].
      * intros r' m Hr' Hm. apply Hold; [by right | done].
      * apply NoDup_app. repeat split; auto.
        intros x Hx Hx2. apply (Hdisj x Hx). by right.
      * intros r' x x' Hr' Hx Hx'. apply Huniq; [by right | by apply Hsub..].
      * intros x Hx.
        destruct (Hcover x (Hsub x Hx)) as (r' & Hr' & Hmatch).
        apply elem_of_cons in Hr' as [-> | Hr']; [|by exists r'].
        exfalso.
        assert (x = a) as ->.
        { apply (Huniq r x a);
            [by left | by apply Hsub | apply elem_of_app; right; by left | done | done]. }
        apply elem_of_app in Hx as [Hx | Hx]; [|done].
        apply (Hdisj a Hx). by left.
      * split; [exact Hmods|]. rewrite Hlen, !length_app. simpl. lia.
Qed.

(** The two loops in sequence: removing, with the same names, what the loop of
    [addModifierToCart] added gives back the modifiers of the line, provided
    no request matches a modifier the line already had. *)
Lemma removeAll_applyAll (menuItem : MenuItem) (is2PcItem : bool)
  (mods : list Modifier) (first second : list string) :
  (forall r m, r ∈ requests is2PcItem first second -> m ∈ mods ->
     modifierMatches r.1 r.2 m = false) ->
  let added := applyAll mods (modifiersToApply menuItem is2PcItem first second) in
  let removed := removeAll is2PcItem (loop_modifiers added) first second in
  loop_modifiers removed = mods
  /\ length (loop_done removed) = length (loop_done added).
Proof.
  intros Hold added removed. subst added removed.
  destruct (applyAll_spec mods (modifiersToApply menuItem is2PcItem first second))
    as (added & -> & -> & Hin & Hnd).
  rewrite removeAll_requests.
  apply (removeRequests_added _ mods added [] []); auto.
  - intros r a a' Hr Ha Ha'. eapply modifiersToApply_match_unique; eauto.
  - intros a Ha. destruct (modifiersToApply_resolved _ _ _ _ _ (Hin a Ha)) as (r & Hr & Hres).
    exists r. split; [done|]. by eapply resolved_matches.
Qed.

Lemma findLastIndex_insert {A : Type} (p : A -> bool) (l : list A) (i : nat) (x y : A) :
  l !! i = Some x -> p y = p x ->
  findLastIndex p (<[i := y]> l) = findLastIndex p l.
Proof.
  revert i. induction l as [|a l IH]; intros i Hx Hp; [done|].
  destruct i as [|i]; simpl in *.
  - injection Hx as ->. by rewrite Hp.
  - by rewrite (IH i Hx Hp).
Qed.

(** A run of [removeModifierFromCart] that removes something, on tables that
    answer. *)
Lemma removeModifierFromCart_ok (body : Body) (w : World) (c itemName : string)
  (i : nat) (item : CartItem) :
  call_id body = Some c -> c <> "" ->
  arg_itemName body = Some itemName -> itemName <> "" ->
  arg_firstSandwichMods body <> [] \/ arg_secondSandwichMods body <> [] ->
  getFails w SESSION_CARTS_TABLE = None -> putFails w = None ->
  findLastIndex (isNamed itemName) (storedCart w c) = Some i ->
  storedCart w c !! i = Some item ->
  modifiers item <> [] ->
  loop_done (removeModifierLoop body item) <> [] ->
  statusCode (removeModifierFromCart body w).1 = 200
  /\ storedCart (removeModifierFromCart body w).2 c
     = <[i := setModifiers (loop_modifiers (removeModifierLoop body item)) item]>
         (storedCart w c).
Proof.
  intros Hc Hne Hn Hnn Hmods Hg Hp Hlast Hitem Hm Hdone.
  unfold removeModifierFromCart, extractCallId. unfold removeModifierLoop in *.
  rewrite Hc, Hn in *. change (default "" (Some itemName)) with itemName in *.
  rewrite !truthy_Some by done. simpl negb. cbv iota.
  rewrite getSessionCart_ok by done.
  destruct (storedCart w c) as [|x cart] eqn:Hcart; [done|].
  rewrite Hlast, Hitem.
  destruct (modifiers item) as [|m ms] eqn:Hms; [done|].
  destruct (loop_done (removeAll _ (m :: ms) _ _)) as [|d ds] eqn:Hd; [done|].
  match goal with
  | |- context [saveSessionCart (Some c) ?new w] =>
      destruct (saveSessionCart_ok c new w Hne Hp) as (w' & Hsave & _ & Hst & _)
  end.
  destruct (arg_firstSandwichMods body), (arg_secondSandwichMods body);
    [by destruct Hmods | ..]; rewrite Hsave; simpl; by split.
Qed.

(** C8, as the code has it.  When [addModifiers] succeeds on a line none of
    whose modifiers is matched by a requested name (trimmed option name and,
    for a two-piece item, the category of the piece), [removeModifiers] with
    the same names succeeds and stores the cart with that line carrying its
    modifiers of before the addition; its total is the one of before the
    addition whenever that one satisfied the invariant of the line total. *)
Theorem addModifiers_then_removeModifiers (body : Body) (w : World)
  (c itemName : string) (i : nat) (item : CartItem) :
  call_id body = Some c -> c <> "" ->
  arg_itemName body = Some itemName -> itemName <> "" ->
  getFails w SESSION_CARTS_TABLE = None ->
  findLastIndex (isNamed itemName) (storedCart w c) = Some i ->
  storedCart w c !! i = Some item ->
  statusCode (addModifierToCart body w).1 = 200 ->
  (forall r m,
     r ∈ requests (JS.includes itemName "(2pc)")
           (arg_firstSandwichMods body) (arg_secondSandwichMods body) ->
     m ∈ modifiers item -> modifierMatches r.1 r.2 m = false) ->
  let w1 := (addModifierToCart body w).2 in
  let w2 := (removeModifierFromCart body w1).2 in
  statusCode (removeModifierFromCart body w1).1 = 200
  /\ exists item' : CartItem,
       storedCart w2 c = <[i := item']> (storedCart w c)
       /\ storedCart w2 c !! i = Some item'
       /\ modifiers item' = modifiers item
       /\ (lineTotalOk item -> (lineTotal item' == lineTotal item)%Q).
Proof.
  intros Hc Hne Hn Hnn Hg Hlast Hitem H200 Hold w1 w2.
  pose proof (lookup_lt_Some _ _ _ Hitem) as Hlt.
  destruct (addModifierToCart_run body w)
    as [_ Hno | cart1 res _ Hsave (menuItem & i' & item0 & Hlast' & Hitem' & Hdone & ->) Hres];
    [done|].
  fold w1 in Hsave. rewrite Hc in Hsave, Hlast', Hitem'.
  rewrite getSessionCart_ok in Hsave, Hlast', Hitem' by done.
  rewrite Hn in Hlast'. change (default "" (Some itemName)) with itemName in Hlast'.
  assert (i' = i) as -> by congruence. assert (item0 = item) as -> by congruence.
  destruct res as [[]|msg]; [|rewrite Hres in H200; done].
  pose proof (saveSessionCart_Ok_inv _ _ _ _ _ Hsave) as Hp.
  destruct (saveSessionCart_ok c
              (<[i := setModifiers (loop_modifiers (addModifierLoop body menuItem item)) item]>
                 (storedCart w c)) w Hne Hp)
    as (w' & Hsave' & _ & Hst1 & Hgf & Hpf & _).
  assert (w' = w1) as -> by congruence.
  unfold addModifierLoop in Hdone, Hst1. rewrite Hn in Hdone, Hst1.
  change (default "" (Some itemName)) with itemName in Hdone, Hst1.
  set (is2Pc := JS.includes itemName "(2pc)") in *.
  set (first := arg_firstSandwichMods body) in *.
  set (second := arg_secondSandwichMods body) in *.
  set (added := applyAll (modifiers item) (modifiersToApply menuItem is2Pc first second)) in *.
  destruct (removeAll_applyAll menuItem is2Pc (modifiers item) first second Hold)
    as [Hback Hcount].
  fold added in Hback, Hcount.
  set (item1 := setModifiers (loop_modifiers added) item) in *.
  assert (Hloop : removeModifierLoop body item1
                  = removeAll is2Pc (loop_modifiers added) first second).
  { unfold removeModifierLoop. rewrite Hn. reflexivity. }
  assert (Hmods : first <> [] \/ second <> []).
  { destruct first eqn:Hf, second eqn:Hs; [|right; done|left; done|left; done].
    exfalso. apply Hdone. subst added. unfold modifiersToApply. simpl.
    by destruct is2Pc. }
  destruct (removeModifierFromCart_ok body w1 c itemName i item1) as [Hok Hstored];
    try done.
  - congruence.
  - congruence.
  - rewrite Hst1. by erewrite findLastIndex_insert.
  - rewrite Hst1. by apply list_lookup_insert_eq.
  - subst item1. simpl.
    destruct (applyAll_spec (modifiers item) (modifiersToApply menuItem is2Pc first second))
      as (l & Hl & Hd & _).
    fold added in Hl, Hd. rewrite Hl. rewrite Hd in Hdone.
    destruct l; [done|]. by destruct (modifiers item).
  - rewrite Hloop. intros Hnil. rewrite Hnil in Hcount. simpl in Hcount.
    destruct (loop_done added); [done | discriminate].
  - split; [exact Hok|].
    fold w2 in Hstored. rewrite Hloop, Hback, Hst1, list_insert_insert_eq in Hstored.
    exists (setModifiers (modifiers item) item1). repeat split.
    + exact Hstored.
    + rewrite Hstored. by apply list_lookup_insert_eq.
    + intros Hinv. unfold lineTotalOk in Hinv. rewrite Hinv. reflexivity.
Qed.

Lemma addModifiers_then_removeModifiers_witness :
  statusCode (addModifierToCart cheese mildSandwiches).1 = 200
  /\ statusCode (removeModifierFromCart cheese
                   (addModifierToCart cheese mildSandwiches).2).1 = 200
  /\ exists item' : CartItem,
       storedCart (removeModifierFromCart cheese
                     (addModifierToCart cheese mildSandwiches).2).2 "call-1"
       = <[0%nat := item']> (storedCart mildSandwiches "call-1")
       /\ storedCart (removeModifierFromCart cheese
                        (addModifierToCart cheese mildSandwiches).2).2 "call-1" !! 0%nat
          = Some item'
       /\ modifiers item' = modifiers mildLine
       /\ (lineTotalOk mildLine -> (lineTotal item' == lineTotal mildLine)%Q).
Proof.
  split; [by vm_compute|].
  apply (addModifiers_then_removeModifiers cheese mildSandwiches "call-1" "Sandwich"
           0%nat mildLine);
    try reflexivity; try discriminate; try (by vm_compute).
  intros r m Hr Hm.
  change (r ∈ [(@None string, " Add cheese ")]) in Hr.
  apply list_elem_of_singleton in Hr as ->.
  assert (Hmild : modifiers mildLine = [{| category := "Sandwich Spice Level";
                                           optionId := "SP-MILD"; optionName := "Mild";
                                           mod_price := centsToDollars 0;
                                           mod_currency := "USD" |}])
    by (by vm_compute).
  rewrite Hmild in Hm. apply list_elem_of_singleton in Hm as ->. by vm_compute.
Defined.

(** C8, counterexample.  The line already has the cheese.  [addModifiers] for
    cheese and no pickles skips the cheese and adds the other; [removeModifiers]
    with the same two names removes both, so the line ends without the cheese
    it had and with a smaller total. *)
Lemma roundtrip_removes_earlier_modifier :
  statusCode (run addModifiers cheeseAndPickles cheeseSandwiches).1 = 200
  /\ statusCode (run removeModifiers cheeseAndPickles
                   (run addModifiers cheeseAndPickles cheeseSandwiches).2).1 = 200
  /\ exists before after : CartItem,
       storedCart cheeseSandwiches "call-1" = [before]
       /\ storedCart (run removeModifiers cheeseAndPickles
                        (run addModifiers cheeseAndPickles cheeseSandwiches).2).2 "call-1"
          = [after]
       /\ optionName <$> modifiers before = ["Add cheese"]
       /\ modifiers after = []
       /\ modifiers after <> modifiers before
       /\ (lineTotal before == 1998 # 100)%Q
       /\ (lineTotal after == 1798 # 100)%Q
       /\ ~ (lineTotal after == lineTotal before)%Q.
Proof.
  split; [by vm_compute|]. split; [by vm_compute|].
  eexists _, _. split; [vm_compute; reflexivity|]. split; [vm_compute; reflexivity|].
  repeat split; by vm_compute.
Qed.

(** * Further properties of the cart engine *)

(** ** The session table as a store *)

(** Every operation either leaves the tables as they are or ends with a
    [saveSessionCart] for the call id of its request. *)
Lemma run_saves_own_session (op : Operation) (body : Body) (w : World) :
  (run op body w).2 = w
  \/ exists cart res, saveSessionCart (call_id body) cart w = (res, (run op body w).2).
Proof.
  assert (Hrun : forall P r w',
             Run P (call_id body) w r w' ->
             w' = w \/ exists cart res, saveSessionCart (call_id body) cart w = (res, w')).
  { intros P r w' [-> _ | cart res _ Hsave _ _]; [by left | right; eauto]. }
  destruct op; simpl.
  - eapply Hrun, addToCart_run.
  - eapply Hrun, removeFromCart_run.
  - left. unfold getCartSummary. repeat handler_step; reflexivity.
  - left. unfold upsell. repeat handler_step; reflexivity.
  - eapply Hrun, addModifierToCart_run.
  - eapply Hrun, removeModifierFromCart_run.
Qed.

(** X1. A cart that [saveSessionCart] stored is the cart [getSessionCart]
    reads back for that call id, and the carts of the other call ids are read
    as before. *)
Theorem saved_cart_is_read_back (c : string) (cart : list CartItem) (w w' : World) :
  saveSessionCart (Some c) cart w = (Ok tt, w') ->
  getFails w SESSION_CARTS_TABLE = None ->
  getSessionCart (Some c) w' = cart
  /\ forall c', c' <> c -> getSessionCart (Some c') w' = getSessionCart (Some c') w.
Proof.
  unfold saveSessionCart. destruct (String.eqb c "") eqn:Hc; [discriminate|].
  destruct (putFails w); [discriminate|]. intros [= <-] Hg.
  unfold getSessionCart. cbn [getFails sessionCarts]. rewrite Hc, Hg. split.
  - by rewrite lookup_insert_eq.
  - intros c' Hne. destruct (String.eqb c' ""); [done|].
    by rewrite lookup_insert_ne.
Qed.

Lemma saved_cart_is_read_back_witness :
  getSessionCart (Some "call-1") cartWithFries = storedCart cartWithFries "call-1"
  /\ forall c', c' <> "call-1" ->
       getSessionCart (Some c') cartWithFries = getSessionCart (Some c') (Sample.world ∅).
Proof.
  apply (saved_cart_is_read_back "call-1" (storedCart cartWithFries "call-1")
           (Sample.world ∅) cartWithFries); reflexivity.
Defined.

(** X2. An operation never touches the cart of another session, nor the
    tables of the locations and of the menus. *)
Theorem other_sessions_untouched (op : Operation) (body : Body) (w : World) (c' : string) :
  call_id body <> Some c' ->
  sessionCarts (run op body w).2 !! c' = sessionCarts w !! c'
  /\ phoneNumberClientMap (run op body w).2 = phoneNumberClientMap w
  /\ clientMenu (run op body w).2 = clientMenu w.
Proof.
  intros Hother.
  destruct (run_saves_own_session op body w) as [-> | (cart & res & Hsave)]; [done|].
  revert Hsave. generalize (run op body w).2. intros w'.
  unfold saveSessionCart. destruct (call_id body) as [c|]; [|by intros [= _ <-]].
  destruct (String.eqb c ""); [by intros [= _ <-]|].
  destruct (putFails w); intros [= _ <-]; cbn; [done|].
  split; [|done]. apply lookup_insert_ne. congruence.
Qed.

Lemma other_sessions_untouched_witness :
  sessionCarts (run removeItem (Sample.removeItemRequest "Fries" None) cartWithFries).2
    !! "call-2"
  = sessionCarts cartWithFries !! "call-2"
  /\ phoneNumberClientMap (run removeItem (Sample.removeItemRequest "Fries" None)
                             cartWithFries).2 = phoneNumberClientMap cartWithFries
  /\ clientMenu (run removeItem (Sample.removeItemRequest "Fries" None) cartWithFries).2
     = clientMenu cartWithFries.
Proof.
  apply (other_sessions_untouched removeItem (Sample.removeItemRequest "Fries" None)
           cartWithFries "call-2").
  discriminate.
Defined.

Lemma getCartSummary_world (body : Body) (w : World) : (getCartSummary body w).2 = w.
Proof. unfold getCartSummary. repeat handler_step; reflexivity. Qed.

Lemma upsell_world (body : Body) (w : World) : (upsell body w).2 = w.
Proof. unfold upsell. repeat handler_step; reflexivity. Qed.

(** X3. [summarize] and [upsell] never write: they return the tables as they
    got them, and for a request with a call id they answer with status 200,
    also when the read of the session table is rejected. *)
Theorem summary_and_upsell_read_only (body : Body) (w : World) :
  (run summarize body w).2 = w
  /\ (run upsellSuggestions body w).2 = w
  /\ (JS.truthy (call_id body) = true ->
      statusCode (run summarize body w).1 = 200
      /\ statusCode (run upsellSuggestions body w).1 = 200).
Proof.
  simpl. unfold getCartSummary, upsell, extractCallId.
  destruct (JS.truthy (call_id body)); simpl.
  - destruct (getSessionCart (call_id body) w); auto.
  - repeat split; discriminate.
Qed.

Lemma summary_and_upsell_read_only_witness :
  statusCode (run summarize Sample.request tablesDown).1 = 200
  /\ statusCode (run upsellSuggestions Sample.request tablesDown).1 = 200.
Proof.
  apply (summary_and_upsell_read_only Sample.request tablesDown). reflexivity.
Defined.

(** ** Requests that are refused *)

(** X4. A request without a call id is refused by every operation with status
    400 and the tables are not touched; with a call id but without an item
    name, the four operations on items and modifiers refuse it the same way. *)
Theorem missing_fields_rejected (op : Operation) (body : Body) (w : World) :
  (JS.truthy (call_id body) = false ->
   run op body w = (createErrorResponse 400 "Missing call ID in request", w))
  /\ (JS.truthy (call_id body) = true -> JS.truthy (arg_itemName body) = false ->
      op <> summarize -> op <> upsellSuggestions ->
      run op body w = (createErrorResponse 400 "Missing required field: itemName", w)).
Proof.
  split.
  - intros Hc. destruct op; simpl;
      unfold addToCart, removeFromCart, getCartSummary, upsell, addModifierToCart,
        removeModifierFromCart, extractCallId; by rewrite Hc.
  - intros Hc Hn Hs Hu. destruct op; try done; simpl;
      unfold addToCart, removeFromCart, addModifierToCart, removeModifierFromCart,
        extractCallId; rewrite Hc, Hn, ?extractPhoneNumber_nonempty; reflexivity.
Qed.

Lemma missing_fields_rejected_witness :
  run removeModifiers (Sample.removeItemRequest "" None) cartWithFries
  = (createErrorResponse 400 "Missing required field: itemName", cartWithFries).
Proof.
  apply (missing_fields_rejected removeModifiers (Sample.removeItemRequest "" None)
           cartWithFries); [reflexivity | reflexivity | discriminate | discriminate].
Defined.

(** X5. In [addItem] and [addModifiers], a rejected read of the table of the
    locations or of the table of the menus is answered like a missing row: with
    status 404 and the message of the error, and without a write.  (A rejected
    write of the session table is answered with status 500.) *)
Theorem table_failure_answered_not_found (add : bool) (body : Body) (w : World)
  (c itemName e : string) :
  call_id body = Some c -> c <> "" ->
  arg_itemName body = Some itemName -> itemName <> "" ->
  (if add
   then (Qle_bool (requestedQuantity body) 0
         || negb (isInteger (requestedQuantity body)))%bool = false
   else arg_firstSandwichMods body <> [] \/ arg_secondSandwichMods body <> []) ->
  let op := if add then addItem else addModifiers in
  (getFails w PHONE_NUMBER_CLIENT_MAP_TABLE = Some e ->
   run op body w = (createErrorResponse 404 ("Location lookup failed: " +:+ e), w))
  /\ (forall loc,
        getLocationFromPhoneNumber (extractPhoneNumber body) w = Ok loc ->
        restaurantName loc <> "" -> locationId loc <> "" ->
        getFails w CLIENT_MENU_TABLE = Some e ->
        run op body w = (createErrorResponse 404 ("Menu lookup failed: " +:+ e), w)).
Proof.
  intros Hc Hne Hn Hnn Hvalid op.
  assert (Hphone : forall e', getFails w PHONE_NUMBER_CLIENT_MAP_TABLE = Some e' ->
            getLocationFromPhoneNumber (extractPhoneNumber body) w = Throw e').
  { intros e' He. unfold getLocationFromPhoneNumber.
    by rewrite extractPhoneNumber_nonempty, He. }
  assert (Hmenu : forall loc, restaurantName loc <> "" -> locationId loc <> "" ->
            getFails w CLIENT_MENU_TABLE = Some e ->
            getLocationMenu (restaurantName loc) (locationId loc) w = Throw e).
  { intros loc Hr Hl He. unfold getLocationMenu.
    apply String.eqb_neq in Hr as ->. apply String.eqb_neq in Hl as ->. by rewrite He. }
  subst op. destruct add; simpl.
  - unfold addToCart, extractCallId. rewrite Hc, Hn, extractPhoneNumber_nonempty, Hvalid.
    rewrite !truthy_Some by done. simpl negb. cbv iota. split.
    + intros He. by rewrite (Hphone e He).
    + intros loc Hloc Hr Hl He. by rewrite Hloc, (Hmenu loc Hr Hl He).
  - unfold addModifierToCart, extractCallId. rewrite Hc, Hn, extractPhoneNumber_nonempty.
    rewrite !truthy_Some by done. simpl negb. cbv iota. split.
    + intros He. rewrite (Hphone e He).
      destruct (arg_firstSandwichMods body), (arg_secondSandwichMods body);
        [by destruct Hvalid | done..].
    + intros loc Hloc Hr Hl He. rewrite Hloc, (Hmenu loc Hr Hl He).
      destruct (arg_firstSandwichMods body), (arg_secondSandwichMods body);
        [by destruct Hvalid | done..].
Qed.

Lemma table_failure_answered_not_found_witness :
  run addItem friesOnce locationsDown
  = (createErrorResponse 404 "Location lookup failed: Throttled", locationsDown).
Proof.
  refine (proj1 (table_failure_answered_not_found true friesOnce locationsDown
                   "call-1" "Fries" "Throttled" _ _ _ _ _) _);
    try reflexivity; discriminate.
Defined.

(** ** Invariants of the stored lines *)

Lemma findSpiceLevelModifier_wholeCents (menuItem : MenuItem) (spiceLevel : string)
  (isFirstItem is2PcItem : bool) (a : Modifier) :
  findSpiceLevelModifier menuItem spiceLevel isFirstItem is2PcItem = Some a ->
  wholeCents a.
Proof.
  unfold findSpiceLevelModifier.
  destruct (String.eqb spiceLevel ""); [discriminate|].
  destruct (menu_modifiers menuItem) as [cats|]; [|discriminate].
  match goal with |- context [match ?t with Some _ => _ | None => None end] =>
    destruct t as [cat|]; [|discriminate] end.
  destruct (cat_options cat) as [opts|]; [|discriminate].
  destruct (List.find _ opts) as [o|]; [|discriminate].
  intros [= <-]. by exists (opt_price o).
Qed.

Lemma findModifierInCategory_wholeCents (menuItem : MenuItem) (n cat : string)
  (a : Modifier) :
  findModifierInCategory menuItem n cat = Some a -> wholeCents a.
Proof.
  unfold findModifierInCategory.
  destruct (String.eqb n ""); [discriminate|].
  destruct (menu_modifiers menuItem) as [cats|]; [|discriminate].
  destruct (List.find _ cats) as [c|]; [|discriminate].
  destruct (cat_options c) as [opts|]; [|discriminate].
  destruct (List.find _ opts) as [o|]; [|discriminate].
  intros [= <-]. by exists (opt_price o).
Qed.

Lemma findModifierAnyCategory_wholeCents (cats : list ModifierCategory) (n : string)
  (a : Modifier) :
  findModifierAnyCategory cats n = Some a -> wholeCents a.
Proof.
  induction cats as [|c cats IH]; simpl; [discriminate|].
  destruct (cat_options c) as [opts|]; [|done].
  destruct (List.find _ opts) as [o|]; [|done].
  intros [= <-]. by exists (opt_price o).
Qed.

Lemma modifiersToApply_wholeCents (menuItem : MenuItem) (is2PcItem : bool)
  (first second : list string) :
  Forall wholeCents (modifiersToApply menuItem is2PcItem first second).
Proof.
  apply Forall_forall. intros a Ha.
  apply modifiersToApply_resolved in Ha as ([[cat|] n] & _ & Hres); unfold resolved in Hres;
    simpl in Hres.
  - by eapply findModifierInCategory_wholeCents.
  - by eapply findModifierAnyCategory_wholeCents.
Qed.

Lemma buildCartItem_wellFormed (itemName : string) (menuItem : MenuItem) (qty : Z)
  (instructions : string) (first second : option string) :
  0 < qty -> wellFormed (buildCartItem itemName menuItem qty instructions first second).
Proof.
  intros Hq. unfold wellFormed, buildCartItem. simpl. repeat split; try done.
  apply Forall_app. split.
  - destruct (JS.truthy first); [|constructor].
    destruct (findSpiceLevelModifier _ _ _ _) eqn:E; [|constructor].
    repeat constructor. by eapply findSpiceLevelModifier_wholeCents.
  - destruct (JS.truthy second && _)%bool; [|constructor].
    destruct (findSpiceLevelModifier _ _ _ _) eqn:E; [|constructor].
    repeat constructor. by eapply findSpiceLevelModifier_wholeCents.
Qed.

Lemma mergeIntoCart_wellFormed (cartItem : CartItem) (qty : Z) (cart : list CartItem) :
  0 < qty -> wellFormed cartItem -> Forall wellFormed cart ->
  Forall wellFormed (mergeIntoCart cartItem qty cart).
Proof.
  intros Hq Hitem Hcart. unfold mergeIntoCart.
  destruct (findIndex _ cart) as [i|].
  - apply Forall_alter; [done|]. intros x _ (Hx & ? & ? & ? & ?).
    unfold wellFormed. simpl. repeat split; try done. lia.
  - apply Forall_app. split; [done|]. by constructor.
Qed.

Lemma removeAt_wellFormed (i : nat) (removeQty : Z) (cartItem : CartItem)
  (cart : list CartItem) :
  cart !! i = Some cartItem -> Forall wellFormed cart ->
  Forall wellFormed (removeAt i removeQty cartItem cart).
Proof.
  intros Hi Hcart. unfold removeAt.
  destruct (removeQty >=? quantity cartItem) eqn:Hge.
  - by apply Forall_delete.
  - apply Forall_alter; [done|]. intros x Hx (Hq & ? & ? & ? & ?).
    assert (x = cartItem) as -> by congruence.
    unfold wellFormed. simpl. repeat split; try done.
    rewrite Z.geb_leb in Hge. apply Z.leb_gt in Hge. lia.
Qed.

Lemma setModifiers_wellFormed (mods : list Modifier) (cartItem : CartItem) :
  wellFormed cartItem -> Forall wholeCents mods -> wellFormed (setModifiers mods cartItem).
Proof. intros (? & ? & ? & ? & ?) Hmods. unfold wellFormed. simpl. by repeat split. Qed.

(** The loops of [removeModifierFromCart] only delete modifiers. *)
Lemma removeRequests_sublist (rq : list (option string * string)) (st : ModLoop) :
  loop_modifiers (removeRequests rq st) `sublist_of` loop_modifiers st
  /\ (length (loop_modifiers (removeRequests rq st))
      + length (loop_done (removeRequests rq st))
      = length (loop_modifiers st) + length (loop_done st))%nat.
Proof.
  revert st. induction rq as [|r rq IH]; intros st; [done|].
  rewrite removeRequests_cons. destruct (IH (removeModifier r.1 st r.2)) as [Hsub Hlen].
  unfold removeModifier in *.
  destruct (findIndex _ (loop_modifiers st)) as [k|] eqn:Hk; [|done].
  cbn [loop_modifiers loop_done] in *. split.
  - etrans; [exact Hsub | apply sublist_delete].
  - rewrite Hlen. apply findIndex_split in Hk as (l1 & a & l2 & -> & <- & _).
    rewrite delete_middle, drop_app_length, !length_app. simpl. lia.
Qed.

Lemma sublist_Forall_keep {A : Type} (P : A -> Prop) (l k : list A) :
  l `sublist_of` k -> Forall P k -> Forall P l.
Proof.
  intros Hsub Hk. apply Forall_forall. intros x Hx.
  rewrite Forall_forall in Hk. apply Hk. by eapply elem_of_sublist.
Qed.

(** One operation keeps the stored lines well formed. *)
Lemma run_wellFormed (op : Operation) (body : Body) (w : World) :
  (forall c, Forall wellFormed (storedCart w c)) ->
  forall c, Forall wellFormed (storedCart (run op body w).2 c).
Proof.
  intros Hinv. destruct op; simpl.
  - eapply Run_preserves; [apply addToCart_run | | exact Hinv].
    intros old new (menuItem & Hq & ->) Hold.
    apply mergeIntoCart_wellFormed; [done | by apply buildCartItem_wellFormed | done].
  - eapply Run_preserves; [apply removeFromCart_run | | exact Hinv].
    intros old new (i & item & _ & Hitem & ->) Hold. by apply removeAt_wellFormed.
  - by rewrite getCartSummary_world.
  - by rewrite upsell_world.
  - eapply Run_preserves; [apply addModifierToCart_run | | exact Hinv].
    intros old new (menuItem & i & item & _ & Hitem & _ & ->) Hold.
    assert (Hwf : wellFormed item).
    { rewrite Forall_forall in Hold. apply Hold. by eapply list_elem_of_lookup_2. }
    apply Forall_insert; [done|]. apply setModifiers_wellFormed; [done|].
    unfold addModifierLoop.
    destruct (applyAll_spec (modifiers item)
                (modifiersToApply menuItem
                   (JS.includes (default "" (arg_itemName body)) "(2pc)")
                   (arg_firstSandwichMods body) (arg_secondSandwichMods body)))
      as (added & -> & _ & Hin & _).
    apply Forall_app. split; [apply Hwf|].
    apply Forall_forall. intros a Ha.
    pose proof (modifiersToApply_wholeCents menuItem
                  (JS.includes (default "" (arg_itemName body)) "(2pc)")
                  (arg_firstSandwichMods body) (arg_secondSandwichMods body)) as Hall.
    rewrite Forall_forall in Hall. by apply Hall, Hin.
  - eapply Run_preserves; [apply removeModifierFromCart_run | | exact Hinv].
    intros old new (i & item & _ & Hitem & _ & ->) Hold.
    assert (Hwf : wellFormed item).
    { rewrite Forall_forall in Hold. apply Hold. by eapply list_elem_of_lookup_2. }
    apply Forall_insert; [done|]. apply setModifiers_wellFormed; [done|].
    unfold removeModifierLoop. rewrite removeAll_requests.
    eapply sublist_Forall_keep; [apply removeRequests_sublist | apply Hwf].
Qed.

Lemma runAll_preserves (I : World -> Prop) :
  (forall op body w, I w -> I (run op body w).2) ->
  forall requests w, I w -> I (runAll requests w).
Proof.
  intros Hstep requests. unfold runAll.
  induction requests as [|[op body] requests IH]; intros w Hw; simpl; [done|].
  by apply IH, Hstep.
Qed.

(** X6. Every sequence of operations keeps the stored lines well formed:
    positive quantities, [itemId] and [name] equal to [variation_id] and
    [item_name], the unit price in dollars of the price in cents, and modifiers
    priced in whole cents. *)
Theorem wellFormed_kept (requests : list (Operation * Body)) (w : World) :
  (forall c, Forall wellFormed (storedCart w c)) ->
  forall c, Forall wellFormed (storedCart (runAll requests w) c).
Proof.
  apply (runAll_preserves (fun w => forall c, Forall wellFormed (storedCart w c))).
  intros op body w'. apply run_wellFormed.
Qed.

Lemma wellFormed_kept_witness :
  Forall wellFormed
    (storedCart (runAll [(addItem, Sample.addItemRequest "Fries" (Some 3%Q) None None);
                         (removeItem, Sample.removeItemRequest "Fries" (Some 1))]
                   (Sample.world ∅)) "call-1").
Proof.
  apply (wellFormed_kept [(addItem, Sample.addItemRequest "Fries" (Some 3%Q) None None);
                          (removeItem, Sample.removeItemRequest "Fries" (Some 1))]
           (Sample.world ∅)).
  intros c. unfold storedCart. simpl. rewrite lookup_empty. constructor.
Defined.

Lemma removeAt_lineTotalOk (i : nat) (removeQty : Z) (cartItem : CartItem)
  (cart : list CartItem) :
  cart !! i = Some cartItem -> Forall lineTotalOk cart ->
  removeQty >= quantity cartItem \/ (modifierTotal (modifiers cartItem) == 0)%Q ->
  Forall lineTotalOk (removeAt i removeQty cartItem cart).
Proof.
  intros Hi Hcart Hcond. unfold removeAt.
  destruct (removeQty >=? quantity cartItem) eqn:Hge.
  - by apply Forall_delete.
  - apply Forall_alter; [done|]. intros x Hx _.
    assert (x = cartItem) as -> by congruence.
    destruct Hcond as [Hall | Hzero].
    + rewrite Z.geb_leb in Hge. apply Z.leb_gt in Hge. lia.
    + unfold lineTotalOk. simpl. rewrite Hzero. ring.
Qed.

(** X7. The invariant of the line total, for all stored lines: [addItem],
    [addModifiers], [removeModifiers], [summarize] and [upsell] keep it, and
    [removeItem] keeps it when the line it finds is removed as a whole or has
    modifiers that cost nothing. *)
Theorem lineTotal_invariant (op : Operation) (body : Body) (w : World) :
  (forall c, Forall lineTotalOk (storedCart w c)) ->
  (op = removeItem ->
   forall c i item,
     call_id body = Some c ->
     findIndex (nameMatches (default "" (arg_itemName body))) (storedCart w c) = Some i ->
     storedCart w c !! i = Some item ->
     removeQuantity (arg_quantityToRemove body) item >= quantity item
     \/ (modifierTotal (modifiers item) == 0)%Q) ->
  forall c, Forall lineTotalOk (storedCart (run op body w).2 c).
Proof.
  intros Hinv Hremove.
  destruct op; try (apply lineTotal_kept; [tauto | done]).
  - intros c. simpl.
    destruct (removeFromCart_run body w) as [-> _ | cart res _ Hsave Hstep _];
      [apply Hinv|].
    destruct (saveSessionCart_stored _ _ _ _ _ c Hsave) as [-> | ->]; [apply Hinv|].
    destruct Hstep as (i & item & Hi & Hitem & ->).
    destruct (getSessionCart_cases (call_id body) w) as [Hnil | (c0 & Hc0 & Hread)].
    + rewrite Hnil in Hi. discriminate.
    + rewrite Hread in *. apply removeAt_lineTotalOk; [done | apply Hinv |].
      by eapply Hremove.
  - intros c. simpl. by rewrite getCartSummary_world.
  - intros c. simpl. by rewrite upsell_world.
Qed.

Lemma lineTotalOk_from_empty (c : string) :
  Forall lineTotalOk (storedCart cheeseSandwiches c).
Proof.
  unfold cheeseSandwiches.
  apply (lineTotal_kept addModifiers); [tauto|].
  apply (lineTotal_kept addItem); [tauto|].
  intros c'. unfold storedCart. simpl. rewrite lookup_empty. constructor.
Qed.

Lemma lineTotal_invariant_witness :
  Forall lineTotalOk
    (storedCart (run removeItem (Sample.removeItemRequest "Sandwich" None)
                   cheeseSandwiches).2 "call-1").
Proof.
  apply (lineTotal_invariant removeItem (Sample.removeItemRequest "Sandwich" None)
           cheeseSandwiches).
  - apply lineTotalOk_from_empty.
  - intros _ c i item _ _ _. left. simpl. lia.
Defined.

(** ** What the modifier handlers change *)

(** X8. A successful [addModifiers] only appends: the line it works on keeps
    its modifiers, in order, and gets at least one more; the added ones are
    priced in whole cents, and their option ids are pairwise distinct and
    distinct from those the line had, so a line without repeated option ids
    stays so. *)
Theorem addModifiers_appends (body : Body) (w : World) (c : string) :
  call_id body = Some c ->
  statusCode (addModifierToCart body w).1 = 200 ->
  exists (i : nat) (item : CartItem) (added : list Modifier),
    getSessionCart (Some c) w !! i = Some item
    /\ storedCart (addModifierToCart body w).2 c
       = <[i := setModifiers (modifiers item ++ added) item]> (getSessionCart (Some c) w)
    /\ added <> []
    /\ Forall wholeCents added
    /\ NoDup (optionId <$> added)
    /\ (forall a m, a ∈ added -> m ∈ modifiers item -> optionId m <> optionId a)
    /\ (NoDup (optionId <$> modifiers item) ->
        NoDup (optionId <$> (modifiers item ++ added))).
Proof.
  intros Hc H200.
  destruct (addModifierToCart_run body w)
    as [_ Hno | cart res _ Hsave (menuItem & i & item & _ & Hitem & Hdone & ->) Hres];
    [done|].
  rewrite Hc in Hsave, Hitem.
  destruct res as [[]|msg]; [|rewrite Hres in H200; done].
  apply saveSessionCart_Ok_stored in Hsave.
  unfold addModifierLoop, applyAll in *.
  set (toApply := modifiersToApply _ _ _ _) in *.
  destruct (fold_applyModifier toApply
              {| loop_modifiers := modifiers item; loop_done := []; loop_skipped := [] |})
    as (added & Hm & Hd & Hin & Hnd & Hnew).
  cbn [loop_modifiers loop_done] in Hm, Hd, Hnew. simpl in Hd.
  rewrite Hm in Hsave. rewrite Hd in Hdone.
  exists i, item, added. repeat split; try done.
  - apply Forall_forall. intros a Ha.
    pose proof (modifiersToApply_wholeCents menuItem
                  (JS.includes (default "" (arg_itemName body)) "(2pc)")
                  (arg_firstSandwichMods body) (arg_secondSandwichMods body)) as Hall.
    rewrite Forall_forall in Hall. by apply Hall, Hin.
  - intros Hold. rewrite fmap_app. apply NoDup_app. repeat split; try done.
    intros x Hx Hx'. apply list_elem_of_fmap in Hx as (m & -> & Hm').
    apply list_elem_of_fmap in Hx' as (a & Heq & Ha). by apply (Hnew a m).
Qed.

Lemma addModifiers_appends_witness :
  exists (i : nat) (item : CartItem) (added : list Modifier),
    getSessionCart (Some "call-1") mildSandwiches !! i = Some item
    /\ storedCart (addModifierToCart cheese mildSandwiches).2 "call-1"
       = <[i := setModifiers (modifiers item ++ added) item]>
           (getSessionCart (Some "call-1") mildSandwiches)
    /\ added <> []
    /\ Forall wholeCents added
    /\ NoDup (optionId <$> added)
    /\ (forall a m, a ∈ added -> m ∈ modifiers item -> optionId m <> optionId a)
    /\ (NoDup (optionId <$> modifiers item) ->
        NoDup (optionId <$> (modifiers item ++ added))).
Proof.
  apply (addModifiers_appends cheese mildSandwiches "call-1"); [reflexivity | by vm_compute].
Defined.

Lemma removeRequests_keeps (rq : list (option string * string)) (st : ModLoop)
  (m : Modifier) :
  m ∈ loop_modifiers st ->
  (forall r, r ∈ rq -> modifierMatches r.1 r.2 m = false) ->
  m ∈ loop_modifiers (removeRequests rq st).
Proof.
  revert st. induction rq as [|r rq IH]; intros st Hm Hno; [done|].
  rewrite removeRequests_cons. apply IH; [|intros r' Hr'; apply Hno; by right].
  unfold removeModifier.
  destruct (findIndex _ (loop_modifiers st)) as [k|] eqn:Hk; [|done].
  cbn [loop_modifiers].
  apply findIndex_split in Hk as (l1 & a & l2 & Heq & <- & Ha).
  rewrite Heq in *. rewrite delete_middle.
  apply elem_of_app in Hm as [Hm | Hm]; apply elem_of_app; [by left|right].
  apply elem_of_cons in Hm as [-> | Hm]; [|done].
  rewrite (Hno r) in Ha by left. discriminate.
Qed.

Lemma removeRequests_count (rq : list (option string * string)) (st : ModLoop) :
  (length (loop_done (removeRequests rq st)) <= length (loop_done st) + length rq)%nat.
Proof.
  revert st. induction rq as [|r rq IH]; intros st; [simpl; lia|].
  rewrite removeRequests_cons. etrans; [apply IH|].
  unfold removeModifier.
  destruct (findIndex _ (loop_modifiers st)) as [k|]; cbn [loop_done]; simpl; [|lia].
  rewrite length_app. destruct (drop k (loop_modifiers st)); simpl; lia.
Qed.

Lemma requests_length (is2PcItem : bool) (first second : list string) :
  (length (requests is2PcItem first second) <= length first + length second)%nat.
Proof.
  unfold requests. rewrite length_app, length_fmap.
  destruct is2PcItem; [rewrite length_fmap|simpl]; lia.
Qed.

(** X9. A successful [removeModifiers] only removes: the line it works on
    keeps a proper sublist of its modifiers, in their order; at most one
    modifier goes per requested name, and a modifier that no request matches
    (by trimmed name and, for a two-piece item, by the category of the piece)
    stays. *)
Theorem removeModifiers_only_removes (body : Body) (w : World) (c : string) :
  call_id body = Some c ->
  statusCode (removeModifierFromCart body w).1 = 200 ->
  exists (i : nat) (item : CartItem) (kept : list Modifier),
    getSessionCart (Some c) w !! i = Some item
    /\ storedCart (removeModifierFromCart body w).2 c
       = <[i := setModifiers kept item]> (getSessionCart (Some c) w)
    /\ kept `sublist_of` modifiers item
    /\ (length kept < length (modifiers item))%nat
    /\ (length (modifiers item)
        <= length kept + (length (arg_firstSandwichMods body)
                          + length (arg_secondSandwichMods body)))%nat
    /\ (forall m, m ∈ modifiers item ->
          (forall r, r ∈ requests (JS.includes (default "" (arg_itemName body)) "(2pc)")
                           (arg_firstSandwichMods body) (arg_secondSandwichMods body) ->
                     modifierMatches r.1 r.2 m = false) ->
          m ∈ kept).
Proof.
  intros Hc H200.
  destruct (removeModifierFromCart_run body w)
    as [_ Hno | cart res _ Hsave (i & item & _ & Hitem & Hdone & ->) Hres]; [done|].
  rewrite Hc in Hsave, Hitem.
  destruct res as [[]|msg]; [|rewrite Hres in H200; done].
  apply saveSessionCart_Ok_stored in Hsave.
  unfold removeModifierLoop in *. rewrite removeAll_requests in *.
  set (rq := requests _ _ _) in *.
  set (st := {| loop_modifiers := modifiers item; loop_done := []; loop_skipped := [] |}) in *.
  destruct (removeRequests_sublist rq st) as [Hsub Hlen].
  pose proof (removeRequests_count rq st) as Hcount.
  pose proof (requests_length (JS.includes (default "" (arg_itemName body)) "(2pc)")
                (arg_firstSandwichMods body) (arg_secondSandwichMods body)) as Hrq.
  fold rq in Hrq. simpl in Hlen, Hcount.
  exists i, item, (loop_modifiers (removeRequests rq st)).
  repeat split; try done.
  - destruct (loop_done (removeRequests rq st)); [done|]. simpl in Hlen. lia.
  - lia.
  - intros m Hm Hno. by apply removeRequests_keeps.
Qed.

Lemma removeModifiers_only_removes_witness :
  exists (i : nat) (item : CartItem) (kept : list Modifier),
    getSessionCart (Some "call-1") cheeseSandwiches !! i = Some item
    /\ storedCart (removeModifierFromCart cheeseAndPickles cheeseSandwiches).2 "call-1"
       = <[i := setModifiers kept item]> (getSessionCart (Some "call-1") cheeseSandwiches)
    /\ kept `sublist_of` modifiers item
    /\ (length kept < length (modifiers item))%nat
    /\ (length (modifiers item)
        <= length kept + (length (arg_firstSandwichMods cheeseAndPickles)
                          + length (arg_secondSandwichMods cheeseAndPickles)))%nat
    /\ (forall m, m ∈ modifiers item ->
          (forall r, r ∈ requests
                           (JS.includes (default "" (arg_itemName cheeseAndPickles)) "(2pc)")
                           (arg_firstSandwichMods cheeseAndPickles)
                           (arg_secondSandwichMods cheeseAndPickles) ->
                     modifierMatches r.1 r.2 m = false) ->
          m ∈ kept).
Proof.
  apply (removeModifiers_only_removes cheeseAndPickles cheeseSandwiches "call-1");
    [reflexivity | by vm_compute].
Defined.

(** ** The spice level of the second piece *)

(** X10. For an item whose name does not contain [(2pc)], [addItem] ignores
    the spice level of the second piece: the answer and the stored cart are
    the same whatever that argument. *)
Theorem second_spice_ignored (body : Body) (w : World) (s : option string) :
  JS.includes (default "" (arg_itemName body)) "(2pc)" = false ->
  addToCart (withSecondSpice s body) w = addToCart body w.
Proof.
  intros H2pc. unfold addToCart, extractCallId, extractPhoneNumber, requestedQuantity.
  cbn [withSecondSpice call_id to_number arg_itemName arg_quantity arg_specialInstructions
         arg_firstItemSpiceLevel arg_secondItemSpiceLevel].
  assert (Hline : forall menuItem qty,
            buildCartItem (default "" (arg_itemName body)) menuItem qty
              (default "" (arg_specialInstructions body)) (arg_firstItemSpiceLevel body) s
            = buildCartItem (default "" (arg_itemName body)) menuItem qty
                (default "" (arg_specialInstructions body)) (arg_firstItemSpiceLevel body)
                (arg_secondItemSpiceLevel body)).
  { intros menuItem qty. unfold buildCartItem. by rewrite H2pc, !andb_false_r. }
  repeat first [ rewrite Hline | handler_step ]; try reflexivity.
  all: congruence.
Qed.

Lemma second_spice_ignored_witness :
  addToCart (withSecondSpice (Some "Hot")
               (Sample.addItemRequest "Sandwich" (Some 1%Q) (Some "Mild") None))
    (Sample.world ∅)
  = addToCart (Sample.addItemRequest "Sandwich" (Some 1%Q) (Some "Mild") None)
      (Sample.world ∅).
Proof.
  apply (second_spice_ignored
           (Sample.addItemRequest "Sandwich" (Some 1%Q) (Some "Mild") None)
           (Sample.world ∅) (Some "Hot")).
  reflexivity.
Defined.

(** ** Adding and removing lines *)

Lemma prefix_refl (s : string) : String.prefix s s = true.
Proof.
  induction s as [|a s IH]; [done|]. simpl.
  destruct (ascii_dec a a); [exact IH | done].
Qed.

Lemma includes_refl (s : string) : JS.includes s s = true.
Proof. destruct s; cbn [JS.includes]; by rewrite prefix_refl. Qed.

(** A line matches its own name. *)
Lemma nameMatches_own_name (item : CartItem) : nameMatches (name item) item = true.
Proof. unfold nameMatches. by rewrite includes_refl. Qed.

(** No operation changes the failure modes of the tables. *)
Lemma run_keeps_failure_modes (op : Operation) (body : Body) (w : World) :
  getFails (run op body w).2 = getFails w /\ putFails (run op body w).2 = putFails w.
Proof.
  destruct (run_saves_own_session op body w) as [-> | (cart & res & Hsave)]; [done|].
  revert Hsave. generalize (run op body w).2. intros w'.
  unfold saveSessionCart. destruct (call_id body) as [c|]; [|by intros [= _ <-]].
  destruct (String.eqb c ""); [by intros [= _ <-]|].
  destruct (putFails w) eqn:Hp; intros [= _ <-]; by cbn.
Qed.

(** X11. [addItem] followed by [removeItem] without a quantity, for an item
    name that matches no line of the cart and a line that merges with none,
    gives back the stored cart. *)
Theorem addItem_then_removeItem (body : Body) (w : World) (c itemName : string)
  (q : Z) (loc : LocationData) (menu : gmap string MenuItem) (menuItem : MenuItem) :
  call_id body = Some c -> c <> "" ->
  arg_itemName body = Some itemName -> itemName <> "" ->
  arg_quantity body = Some (inject_Z q) -> 0 < q ->
  arg_quantityToRemove body = None ->
  getLocationFromPhoneNumber (extractPhoneNumber body) w = Ok loc ->
  getLocationMenu (restaurantName loc) (locationId loc) w = Ok menu ->
  menu !! itemName = Some menuItem ->
  getFails w SESSION_CARTS_TABLE = None -> putFails w = None ->
  (forall x, x ∈ storedCart w c -> nameMatches itemName x = false) ->
  (forall x, x ∈ storedCart w c ->
     ~ mergeable (buildCartItem itemName menuItem q
                    (default "" (arg_specialInstructions body))
                    (arg_firstItemSpiceLevel body) (arg_secondItemSpiceLevel body)) x) ->
  let w1 := (addToCart body w).2 in
  statusCode (addToCart body w).1 = 200
  /\ statusCode (removeFromCart body w1).1 = 200
  /\ storedCart (removeFromCart body w1).2 c = storedCart w c.
Proof.
  intros Hc Hne Hn Hnn Hq Hpos Hrm Hloc Hmenu Hitem Hg Hp Hnames Hmerge w1.
  destruct (addToCart_ok body w c itemName q loc menu menuItem)
    as (H1 & Hst1 & Hgf & Hpf & _); try done.
  fold w1 in Hst1, Hgf, Hpf. rewrite mergeIntoCart_new in Hst1 by done.
  set (line := buildCartItem _ _ _ _ _ _) in *.
  split; [exact H1|].
  destruct (removeFromCart_found body w1 c itemName (length (storedCart w c)) line)
    as [H2 Hst2]; try done.
  - by rewrite Hgf.
  - by rewrite Hpf.
  - rewrite Hst1, findIndex_app_r by done. simpl.
    change itemName with (name line) at 1. rewrite nameMatches_own_name. simpl.
    f_equal. lia.
  - rewrite Hst1. by rewrite list_lookup_middle.
  - split; [exact H2|]. rewrite Hst2, Hst1, Hrm. unfold removeAt. simpl.
    rewrite Z.geb_leb, Z.leb_refl. replace [line] with (line :: []) by done.
    rewrite delete_middle. apply app_nil_r.
Qed.

Lemma addItem_then_removeItem_witness :
  statusCode (addToCart friesOnce cheeseSandwiches).1 = 200
  /\ statusCode (removeFromCart friesOnce (addToCart friesOnce cheeseSandwiches).2).1 = 200
  /\ storedCart (removeFromCart friesOnce (addToCart friesOnce cheeseSandwiches).2).2 "call-1"
     = storedCart cheeseSandwiches "call-1".
Proof.
  assert (Hcart : exists x, storedCart cheeseSandwiches "call-1" = [x]
                            /\ name x = "Sandwich" /\ itemId x = "VAR-SANDWICH").
  { eexists. split; [vm_compute; reflexivity | by split]. }
  destruct Hcart as (x & Hx & Hname & Hid).
  apply (addItem_then_removeItem friesOnce cheeseSandwiches "call-1" "Fries" 1
           {| locationId := "L1"; restaurantName := "Red Bird" |}
           Sample.menu (Sample.simple "VAR-FRIES" 299));
    try reflexivity; try discriminate; try lia.
  - intros y Hy. rewrite Hx in Hy. apply list_elem_of_singleton in Hy as ->.
    unfold nameMatches. rewrite Hname. reflexivity.
  - intros y Hy. rewrite Hx in Hy. apply list_elem_of_singleton in Hy as ->.
    intros (Hsame & _). simpl in Hsame. rewrite Hid in Hsame. discriminate.
Defined.

Lemma elem_of_delete_lookup {A : Type} (l : list A) (i : nat) (x : A) :
  x ∈ delete i l -> exists j, j <> i /\ l !! j = Some x.
Proof.
  intros Hx. apply list_elem_of_lookup in Hx as (j & Hj).
  destruct (decide (j < i)%nat) as [Hlt | Hge].
  - exists j. rewrite list_lookup_delete_lt in Hj by done. split; [lia | done].
  - exists (S j). rewrite list_lookup_delete_ge in Hj by lia. split; [lia | done].
Qed.

(** X12. After [removeItem] has removed as a whole the only line that matches
    the name, the same request is refused without a write: with a validation
    error ([Cart is empty]) when that line was the only line of the cart, and
    with a not-found error otherwise. *)
Theorem removeItem_twice (body : Body) (w : World) (c itemName : string)
  (i : nat) (item : CartItem) :
  call_id body = Some c -> c <> "" ->
  arg_itemName body = Some itemName -> itemName <> "" ->
  getFails w SESSION_CARTS_TABLE = None -> putFails w = None ->
  findIndex (nameMatches itemName) (storedCart w c) = Some i ->
  storedCart w c !! i = Some item ->
  removeQuantity (arg_quantityToRemove body) item >= quantity item ->
  (forall j x, j <> i -> storedCart w c !! j = Some x -> nameMatches itemName x = false) ->
  let w1 := (removeFromCart body w).2 in
  statusCode (removeFromCart body w).1 = 200
  /\ storedCart w1 c = delete i (storedCart w c)
  /\ errorKind (removeFromCart body w1).1
     = Some (match delete i (storedCart w c) with
             | [] => ValidationError
             | _ => NotFoundError
             end)
  /\ (removeFromCart body w1).2 = w1.
Proof.
  intros Hc Hne Hn Hnn Hg Hp Hi Hitem Hall Hothers w1.
  destruct (removeFromCart_found body w c itemName i item) as [H1 Hst1]; try done.
  fold w1 in Hst1. unfold removeAt in Hst1.
  assert ((removeQuantity (arg_quantityToRemove body) item >=? quantity item) = true) as Hge
    by (rewrite Z.geb_leb; apply Z.leb_le; lia).
  rewrite Hge in Hst1.
  destruct (run_keeps_failure_modes removeItem body w) as [Hgf _].
  simpl in Hgf. fold w1 in Hgf.
  split; [exact H1|]. split; [exact Hst1|].
  unfold removeFromCart, extractCallId. rewrite Hc, Hn.
  change (default "" (Some itemName)) with itemName.
  rewrite !truthy_Some by done. simpl negb. cbv iota.
  rewrite getSessionCart_ok by (done || by rewrite Hgf).
  rewrite Hst1. destruct (delete i (storedCart w c)) as [|y rest] eqn:Hdel; [done|].
  assert (findIndex (nameMatches itemName) (y :: rest) = None) as ->; [|done].
  apply findIndex_None. intros x Hx. rewrite <- Hdel in Hx.
  apply elem_of_delete_lookup in Hx as (j & Hj & Hx). by eapply Hothers.
Qed.

Lemma removeItem_twice_witness :
  statusCode (removeFromCart (Sample.removeItemRequest "fries" None) cartWithThreeFries).1
  = 200
  /\ storedCart (removeFromCart (Sample.removeItemRequest "fries" None)
                   cartWithThreeFries).2 "call-1"
     = delete 0%nat (storedCart cartWithThreeFries "call-1")
  /\ errorKind (removeFromCart (Sample.removeItemRequest "fries" None)
                  (removeFromCart (Sample.removeItemRequest "fries" None)
                     cartWithThreeFries).2).1
     = Some (match delete 0%nat (storedCart cartWithThreeFries "call-1") with
             | [] => ValidationError
             | _ => NotFoundError
             end)
  /\ (removeFromCart (Sample.removeItemRequest "fries" None)
        (removeFromCart (Sample.removeItemRequest "fries" None) cartWithThreeFries).2).2
     = (removeFromCart (Sample.removeItemRequest "fries" None) cartWithThreeFries).2.
Proof.
  apply (removeItem_twice (Sample.removeItemRequest "fries" None) cartWithThreeFries
           "call-1" "fries" 0%nat
           (buildCartItem "Fries" (Sample.simple "VAR-FRIES" 299) 3 "" None None));
    try reflexivity; try discriminate.
  intros [|j] x Hj Hx; [done|]. vm_compute in Hx. destruct j; discriminate.
Defined.

(** X13. A quantity to remove other than 0 and smaller than the quantity of
    the line is subtracted from it, the total is recomputed from the unit
    price, and the other lines stay; the quantity to remove is not checked to
    be positive, so a negative one makes the line larger. *)
Theorem removeItem_partial (body : Body) (w : World) (c itemName : string)
  (i : nat) (item : CartItem) (n : Z) :
  call_id body = Some c -> c <> "" ->
  arg_itemName body = Some itemName -> itemName <> "" ->
  getFails w SESSION_CARTS_TABLE = None -> putFails w = None ->
  findIndex (nameMatches itemName) (storedCart w c) = Some i ->
  storedCart w c !! i = Some item ->
  arg_quantityToRemove body = Some n -> n <> 0 -> n < quantity item ->
  statusCode (removeFromCart body w).1 = 200
  /\ storedCart (removeFromCart body w).2 c
     = <[i := with_quantity_total (quantity item - n)
                (unitPrice item * inject_Z (quantity item - n))%Q item]> (storedCart w c)
  /\ (n < 0 -> quantity item < quantity item - n).
Proof.
  intros Hc Hne Hn Hnn Hg Hp Hi Hitem Hq Hn0 Hlt.
  destruct (removeFromCart_found body w c itemName i item) as [H1 Hst1]; try done.
  split; [exact H1|]. split; [|lia].
  rewrite Hst1, Hq. unfold removeAt, removeQuantity.
  apply Z.eqb_neq in Hn0 as ->.
  assert ((n >=? quantity item) = false) as ->
    by (rewrite Z.geb_leb; apply Z.leb_gt; lia).
  by apply (alter_as_insert (decreaseQuantity n)).
Qed.

Lemma removeItem_partial_witness :
  statusCode (removeFromCart (Sample.removeItemRequest "fries" (Some (-2)))
                cartWithThreeFries).1 = 200
  /\ quantity <$> storedCart (removeFromCart (Sample.removeItemRequest "fries" (Some (-2)))
                                cartWithThreeFries).2 "call-1" = [5].
Proof.
  destruct (removeItem_partial (Sample.removeItemRequest "fries" (Some (-2)))
              cartWithThreeFries "call-1" "fries" 0%nat
              (buildCartItem "Fries" (Sample.simple "VAR-FRIES" 299) 3 "" None None) (-2))
    as (H1 & H2 & _); try reflexivity; try discriminate.
  split; [exact H1|]. rewrite H2. reflexivity.
Defined.

(** X14. When [addItem] passes its guards while the read of the session table
    is rejected and the write is accepted, the stored cart of the session is
    replaced by the new line alone: the lines stored before are lost. *)
Theorem addItem_after_rejected_read (body : Body) (w : World) (c itemName e : string)
  (q : Z) (loc : LocationData) (menu : gmap string MenuItem) (menuItem : MenuItem) :
  call_id body = Some c -> c <> "" ->
  arg_itemName body = Some itemName -> itemName <> "" ->
  arg_quantity body = Some (inject_Z q) -> 0 < q ->
  getLocationFromPhoneNumber (extractPhoneNumber body) w = Ok loc ->
  getLocationMenu (restaurantName loc) (locationId loc) w = Ok menu ->
  menu !! itemName = Some menuItem ->
  getFails w SESSION_CARTS_TABLE = Some e -> putFails w = None ->
  statusCode (addToCart body w).1 = 200
  /\ storedCart (addToCart body w).2 c
     = [buildCartItem itemName menuItem q (default "" (arg_specialInstructions body))
          (arg_firstItemSpiceLevel body) (arg_secondItemSpiceLevel body)].
Proof.
  intros Hc Hne Hn Hnn Hq Hpos Hloc Hmenu Hitem Hg Hp.
  destruct (requestedQuantity_integer body q Hq Hpos) as [Hvalid Hfloor].
  unfold addToCart, extractCallId. rewrite Hc, Hn, extractPhoneNumber_nonempty.
  rewrite !truthy_Some by done. simpl negb. cbv iota.
  rewrite Hvalid, Hloc, Hmenu, Hfloor. change (default "" (Some itemName)) with itemName.
  rewrite Hitem, (getSessionCart_read_fails c e w Hg).
  match goal with
  | |- context [saveSessionCart (Some c) ?cart w] =>
      destruct (saveSessionCart_ok c cart w Hne Hp) as (w' & -> & _ & Hst & _)
  end.
  simpl. split; [reflexivity | exact Hst].
Qed.

Lemma addItem_after_rejected_read_witness :
  length (storedCart readsDown "call-1") = 1%nat
  /\ statusCode (addToCart friesOnce readsDown).1 = 200
  /\ storedCart (addToCart friesOnce readsDown).2 "call-1"
     = [buildCartItem "Fries" (Sample.simple "VAR-FRIES" 299) 1 "" None None].
Proof.
  split; [reflexivity|].
  apply (addItem_after_rejected_read friesOnce readsDown "call-1" "Fries" "Throttled" 1
           {| locationId := "L1"; restaurantName := "Red Bird" |}
           Sample.menu (Sample.simple "VAR-FRIES" 299));
    try reflexivity; try discriminate; lia.
Defined.

Lemma fold_quantity (l : list CartItem) (a : Z) :
  fold_left (fun sum item => sum + quantity item) l a = a + cartItemCount l.
Proof.
  unfold cartItemCount. revert a. induction l as [|x l IH]; intros a; simpl; [lia|].
  rewrite IH, (IH (0 + quantity x)). lia.
Qed.

Lemma cartItemCount_cons (x : CartItem) (l : list CartItem) :
  cartItemCount (x :: l) = quantity x + cartItemCount l.
Proof. unfold cartItemCount at 1. simpl. rewrite fold_quantity. lia. Qed.

Lemma cartItemCount_app (l k : list CartItem) :
  cartItemCount (l ++ k) = cartItemCount l + cartItemCount k.
Proof.
  induction l as [|x l IH]; [unfold cartItemCount at 2; simpl; lia|].
  rewrite <- app_comm_cons, !cartItemCount_cons, IH. lia.
Qed.

Lemma cartItemCount_alter (f : CartItem -> CartItem) (l : list CartItem) (i : nat)
  (x : CartItem) :
  l !! i = Some x ->
  cartItemCount (alter f i l) = cartItemCount l + (quantity (f x) - quantity x).
Proof.
  revert i. induction l as [|a l IH]; intros i Hx; [done|].
  destruct i as [|i].
  - injection Hx as ->. change (alter f 0%nat (x :: l)) with (f x :: l).
    rewrite !cartItemCount_cons. lia.
  - change (alter f (S i) (a :: l)) with (a :: alter f i l).
    rewrite !cartItemCount_cons, (IH i Hx). lia.
Qed.

(** X15. A successful [addItem] raises the item count of the session (the sum
    of the quantities of its lines) by exactly the requested quantity, whether
    the line is appended or merged, and the number of lines by at most one. *)
Theorem addItem_itemCount (body : Body) (w : World) (c itemName : string)
  (q : Z) (loc : LocationData) (menu : gmap string MenuItem) (menuItem : MenuItem) :
  call_id body = Some c -> c <> "" ->
  arg_itemName body = Some itemName -> itemName <> "" ->
  arg_quantity body = Some (inject_Z q) -> 0 < q ->
  getLocationFromPhoneNumber (extractPhoneNumber body) w = Ok loc ->
  getLocationMenu (restaurantName loc) (locationId loc) w = Ok menu ->
  menu !! itemName = Some menuItem ->
  getFails w SESSION_CARTS_TABLE = None -> putFails w = None ->
  cartItemCount (storedCart (addToCart body w).2 c) = cartItemCount (storedCart w c) + q
  /\ (length (storedCart w c) <= length (storedCart (addToCart body w).2 c)
      <= S (length (storedCart w c)))%nat.
Proof.
  intros Hc Hne Hn Hnn Hq Hpos Hloc Hmenu Hitem Hg Hp.
  destruct (addToCart_ok body w c itemName q loc menu menuItem)
    as (_ & -> & _); try done.
  unfold mergeIntoCart.
  destruct (findIndex _ (storedCart w c)) as [k|] eqn:Hk.
  - destruct (findIndex_Some _ _ _ Hk) as (x & Hx & _).
    rewrite (cartItemCount_alter _ _ _ x Hx), length_alter. simpl. split; lia.
  - rewrite cartItemCount_app, length_app. unfold cartItemCount at 2. simpl. split; lia.
Qed.

Lemma addItem_itemCount_witness :
  cartItemCount (storedCart (addToCart friesTwice cartWithThreeFries).2 "call-1")
  = cartItemCount (storedCart cartWithThreeFries "call-1") + 2
  /\ (length (storedCart cartWithThreeFries "call-1")
      <= length (storedCart (addToCart friesTwice cartWithThreeFries).2 "call-1")
      <= S (length (storedCart cartWithThreeFries "call-1")))%nat.
Proof.
  apply (addItem_itemCount friesTwice cartWithThreeFries "call-1" "Fries" 2
           {| locationId := "L1"; restaurantName := "Red Bird" |}
           Sample.menu (Sample.simple "VAR-FRIES" 299));
    try reflexivity; try discriminate; lia.
Defined.

(** ** The merge predicate *)

(** X16. The predicate [addItem] merges lines by is an equivalence on lines,
    and it does not depend on the order of the modifiers: it holds exactly for
    lines with the same [itemId], the same special instructions and the same
    option ids up to order. *)
Theorem sameConfiguration_equivalence (a b c : CartItem) :
  sameConfiguration a a = true
  /\ sameConfiguration a b = sameConfiguration b a
  /\ (sameConfiguration a b = true -> sameConfiguration b c = true ->
      sameConfiguration a c = true)
  /\ (sameConfiguration a b = true
      <-> itemId a = itemId b /\ specialInstructions a = specialInstructions b
          /\ optionId <$> modifiers a ≡ₚ optionId <$> modifiers b).
Proof.
  split; [|split; [|split]].
  - apply sameConfiguration_mergeable. by repeat split.
  - destruct (sameConfiguration a b) eqn:Hab, (sameConfiguration b a) eqn:Hba; try done.
    + apply sameConfiguration_mergeable, mergeable_sym, sameConfiguration_mergeable in Hab.
      congruence.
    + apply sameConfiguration_mergeable, mergeable_sym, sameConfiguration_mergeable in Hba.
      congruence.
  - intros Hab Hbc. apply sameConfiguration_mergeable in Hab, Hbc.
    apply sameConfiguration_mergeable. by eapply mergeable_trans.
  - apply sameConfiguration_mergeable.
Qed.

Lemma sameConfiguration_equivalence_witness :
  modifiers spicyLineSwapped <> modifiers spicyLine
  /\ sameConfiguration spicyLine spicyLineSwapped = true
  /\ sameConfiguration spicyLine spicyLine = true.
Proof.
  split; [by vm_compute|].
  destruct (sameConfiguration_equivalence spicyLine spicyLineSwapped spicyLine)
    as (Hrefl & _ & _ & Hiff).
  split; [|exact Hrefl].
  apply Hiff. repeat split. unfold spicyLineSwapped. simpl modifiers.
  rewrite fmap_reverse. symmetry. apply reverse_Permutation.
Defined.

(** ** Up-sell *)

(** X17. The offer of [upsell]: when fries, mac and slaw are all in the cart
    the offer is empty; otherwise it names each of the three that is missing
    and none that is present, and it names the toffee cake exactly when that
    is missing. *)
Theorem upsell_offer (body : Body) (w : World) :
  JS.truthy (call_id body) = true ->
  let cart := getSessionCart (call_id body) w in
  let offer := message (upsell body w).1 in
  if hasItem cart "fries" && hasItem cart "mac" && hasItem cart "slaw"
  then offer = ""
  else JS.includes offer "regular fries, cheese fries" = negb (hasItem cart "fries")
       /\ JS.includes offer "mac & cheese" = negb (hasItem cart "mac")
       /\ JS.includes offer "slaw" = negb (hasItem cart "slaw")
       /\ JS.includes offer "toffee cake" = negb (hasItem cart "toffee").
Proof.
  intros Hc cart offer. subst offer. unfold upsell, extractCallId. rewrite Hc.
  simpl negb. cbv iota. cbn [fst message createSuccessResponse].
  apply upsellMessage_spec.
Qed.

Lemma upsell_offer_witness :
  JS.includes (message (upsell Sample.request cartWithFries).1) "regular fries, cheese fries"
  = false
  /\ JS.includes (message (upsell Sample.request cartWithFries).1) "mac & cheese" = true
  /\ JS.includes (message (upsell Sample.request cartWithFries).1) "slaw" = true
  /\ JS.includes (message (upsell Sample.request cartWithFries).1) "toffee cake" = true.
Proof.
  exact (upsell_offer Sample.request cartWithFries eq_refl).
Defined.

(** ** Modifiers of an item that is not a two-piece one *)

(** X18. For an item whose name does not contain [(2pc)], names given for the
    second piece alone never change the cart: [addModifiers] and
    [removeModifiers] answer with an error and write nothing. *)
Theorem second_piece_only_refused (remove : bool) (body : Body) (w : World) :
  JS.includes (default "" (arg_itemName body)) "(2pc)" = false ->
  arg_firstSandwichMods body = [] ->
  statusCode (run (modifierOp remove) body w).1 <> 200
  /\ (run (modifierOp remove) body w).2 = w.
Proof.
  intros H2pc Hfirst. destruct remove; simpl.
  - destruct (removeModifierFromCart_run body w)
      as [-> Hno | cart res _ _ (i & item & _ & _ & Hdone & _) _]; [done|].
    exfalso. apply Hdone. unfold removeModifierLoop, removeAll.
    by rewrite H2pc, Hfirst.
  - destruct (addModifierToCart_run body w)
      as [-> Hno | cart res _ _ (menuItem & i & item & _ & _ & Hdone & _) _]; [done|].
    exfalso. apply Hdone. unfold addModifierLoop, modifiersToApply.
    by rewrite H2pc, Hfirst.
Qed.

Lemma second_piece_only_refused_witness :
  statusCode (run addModifiers (Sample.modifiersRequest "Sandwich" [] ["Add cheese"])
                cheeseSandwiches).1 <> 200
  /\ (run addModifiers (Sample.modifiersRequest "Sandwich" [] ["Add cheese"])
        cheeseSandwiches).2 = cheeseSandwiches.
Proof.
  apply (second_piece_only_refused false
           (Sample.modifiersRequest "Sandwich" [] ["Add cheese"]) cheeseSandwiches);
    reflexivity.
Defined.

(** ** The order built from a session cart (src/squareCallback.js) *)

Lemma squareLineItem_cases (it : CartItem) :
  match squareLineItem it with
  | Throw _ => unpriced it
  | Ok l => ~ unpriced it /\ lineItemOf it l
  end.
Proof.
  unfold squareLineItem, unpriced.
  destruct (price it =? 0) eqn:Hp; simpl.
  - left. lia.
  - destruct (String.eqb (currency it) "") eqn:Hc.
    + right. by apply String.eqb_eq.
    + apply String.eqb_neq in Hc. split; [intros [?|?]; [lia|done]|].
      unfold lineItemOf, unitCents. simpl. repeat split; try done.
      * destruct (String.eqb (specialInstructions it) "") eqn:Hs; [|done].
        intros _. by apply String.eqb_eq.
      * intros ->. done.
Qed.

Lemma squareLineItems_cases (cart : list CartItem) :
  match squareLineItems cart with
  | Throw _ => Exists unpriced cart
  | Ok lines => Forall (fun it => ~ unpriced it) cart /\ Forall2 lineItemOf cart lines
  end.
Proof.
  induction cart as [|it cart IH]; simpl; [by split; constructor|].
  pose proof (squareLineItem_cases it) as Hit.
  destruct (squareLineItem it) as [l|e]; [|by left].
  destruct (squareLineItems cart) as [lines|e].
  - destruct Hit as [Hp Hl], IH as [Hps Hls]. split; by constructor.
  - by right.
Qed.

(** X19. [convertCartToSquareOrder] throws exactly when some line of the cart
    has price 0 or no currency; otherwise it yields one line item per cart
    line, in the order of the cart, with the variation id, the unit price in
    cents including the modifiers, the quantity and the currency of that line,
    and a note exactly for non-empty special instructions. *)
Theorem order_conversion (cart : list CartItem) (subtotal : Q) (itemCount : Z) :
  match convertCartToSquareOrder cart subtotal itemCount with
  | Throw _ => Exists unpriced cart
  | Ok (summary, lines) =>
      Forall (fun it => ~ unpriced it) cart
      /\ Forall2 lineItemOf cart lines
      /\ summary_itemCount summary = itemCount
  end.
Proof.
  unfold convertCartToSquareOrder.
  pose proof (squareLineItems_cases cart) as H.
  destruct (squareLineItems cart) as [lines|e]; [|done].
  destruct H as [Hp Hl]. by repeat split.
Qed.

Lemma mathRound_inject (k : Z) : mathRound (inject_Z k) = k.
Proof.
  unfold mathRound, Qfloor, Qplus, inject_Z. cbn [Qnum Qden].
  change (Z.pos (1 * 2)) with 2. symmetry. apply (Z.div_unique _ 2 k 1); lia.
Qed.

Lemma mathRound_comp (x y : Q) : (x == y)%Q -> mathRound x = mathRound y.
Proof. intros H. unfold mathRound. by rewrite H. Qed.

Lemma centsToDollars_exact (k : Z) : (centsToDollars k * 100 == inject_Z k)%Q.
Proof. unfold centsToDollars. field. Qed.

Lemma mathRound_cents (k : Z) : mathRound (orZero (centsToDollars k) * 100) = k.
Proof.
  rewrite <- (mathRound_inject k) at 2. apply mathRound_comp.
  rewrite orZero_eq. apply centsToDollars_exact.
Qed.

Lemma fold_modifierPriceInCents (mods : list Modifier) (a : Z) :
  fold_left (fun sum m => sum + mathRound (orZero (mod_price m) * 100)) mods a
  = a + modifierPriceInCents mods.
Proof.
  unfold modifierPriceInCents. revert a.
  induction mods as [|m mods IH]; intros a; simpl; [lia|].
  rewrite IH, (IH (0 + _)). lia.
Qed.

Lemma modifierPriceInCents_cons (m : Modifier) (mods : list Modifier) :
  modifierPriceInCents (m :: mods)
  = mathRound (orZero (mod_price m) * 100) + modifierPriceInCents mods.
Proof. unfold modifierPriceInCents at 1. simpl. rewrite fold_modifierPriceInCents. lia. Qed.

Lemma modifierTotal_cents (mods : list Modifier) :
  Forall wholeCents mods ->
  (modifierTotal mods * 100 == inject_Z (modifierPriceInCents mods))%Q.
Proof.
  induction 1 as [|m mods [k Hk] _ IH].
  - unfold modifierTotal, modifierPriceInCents. simpl. ring.
  - rewrite modifierTotal_cons, modifierPriceInCents_cons, Hk, mathRound_cents.
    rewrite inject_Z_plus, <- IH, <- (centsToDollars_exact k). ring.
Qed.

Lemma lineTotal_cents (it : CartItem) :
  wellFormed it -> lineTotalOk it ->
  (lineTotal it * 100 == inject_Z (unitCents it * quantity it))%Q.
Proof.
  intros (_ & _ & _ & Hunit & Hmods) Hok. unfold lineTotalOk in Hok. unfold unitCents.
  rewrite Hok, Hunit, inject_Z_mult, inject_Z_plus.
  rewrite <- (modifierTotal_cents _ Hmods), <- (centsToDollars_exact (price it)). ring.
Qed.

Lemma fold_cartSubtotal (cart : list CartItem) (a : Q) :
  (fold_left (fun sum item => sum + lineTotal item) cart a == a + cartSubtotal cart)%Q.
Proof.
  unfold cartSubtotal. revert a.
  induction cart as [|it cart IH]; intros a; simpl; [ring|].
  rewrite IH, (IH (0 + _)%Q). ring.
Qed.

Lemma cartSubtotal_cons (it : CartItem) (cart : list CartItem) :
  (cartSubtotal (it :: cart) == lineTotal it + cartSubtotal cart)%Q.
Proof. unfold cartSubtotal at 1. simpl. rewrite fold_cartSubtotal. ring. Qed.

Lemma cartSubtotal_cents (cart : list CartItem) :
  Forall wellFormed cart -> Forall lineTotalOk cart ->
  (cartSubtotal cart * 100 == inject_Z (orderTotal cart))%Q.
Proof.
  induction cart as [|it cart IH]; intros Hwf Hok.
  - unfold cartSubtotal. simpl. ring.
  - inversion_clear Hwf as [|? ? Hwf1 Hwf2]. inversion_clear Hok as [|? ? Hok1 Hok2].
    rewrite cartSubtotal_cons. cbn [orderTotal fold_right].
    rewrite inject_Z_plus, <- (IH Hwf2 Hok2), <- (lineTotal_cents it Hwf1 Hok1). ring.
Qed.

(** X20. For a cart of well-formed lines whose line totals are in step (the
    two invariants of the cart handlers), the subtotal in cents of the order
    summary is the total of the line items handed to the payment processor
    (amount times quantity, summed), and the item count is the sum of the
    quantities: with exact arithmetic the summary and the charge agree. *)
Theorem order_subtotal_agrees (cart : list CartItem) (summary : OrderSummary)
  (lines : list SquareLineItem) :
  Forall wellFormed cart -> Forall lineTotalOk cart ->
  orderOfCart cart = Ok (summary, lines) ->
  summary_subtotal summary = orderTotal cart
  /\ summary_itemCount summary = foldr (fun it n => quantity it + n) 0 cart.
Proof.
  intros Hwf Hok. unfold orderOfCart, convertCartToSquareOrder.
  destruct (squareLineItems cart) as [ls|e]; [|discriminate].
  intros [= <- _]. cbn [summary_subtotal summary_itemCount]. split.
  - rewrite <- (mathRound_inject (orderTotal cart)).
    apply mathRound_comp. by apply cartSubtotal_cents.
  - clear. induction cart as [|it cart IH]; [done|].
    rewrite cartItemCount_cons, IH. done.
Qed.

Lemma order_subtotal_agrees_witness :
  exists summary lines,
    orderOfCart (storedCart cheeseSandwiches "call-1") = Ok (summary, lines)
    /\ summary_subtotal summary = orderTotal (storedCart cheeseSandwiches "call-1")
    /\ orderTotal (storedCart cheeseSandwiches "call-1") = 1998.
Proof.
  destruct (orderOfCart (storedCart cheeseSandwiches "call-1")) as [[summary lines]|e] eqn:E;
    [|by vm_compute in E].
  exists summary, lines. split; [done|].
  split; [|by vm_compute].
  refine (proj1 (order_subtotal_agrees _ summary lines _ _ E)).
  - clear E.
    let cart := eval vm_compute in (storedCart cheeseSandwiches "call-1") in
    change (storedCart cheeseSandwiches "call-1") with cart.
    constructor; [|constructor].
    split; [reflexivity|]. split; [reflexivity|]. split; [reflexivity|].
    split; [reflexivity|]. constructor; [|constructor]. by exists 100.
  - apply lineTotalOk_from_empty.
Defined.

Lemma getLocationMenu_Ok (restaurant location : string) (w : World)
  (menu : gmap string MenuItem) :
  getLocationMenu restaurant location w = Ok menu ->
  clientMenu w !! (restaurant, location) = Some menu.
Proof.
  unfold getLocationMenu. destruct (_ || _); [discriminate|].
  destruct (getFails w CLIENT_MENU_TABLE); [discriminate|].
  destruct (clientMenu w !! _); [|discriminate]. by intros [= ->].
Qed.

(** The step of [addToCart], with the menu item taken from the menu table. *)
Lemma addToCart_run_menu (body : Body) (w : World) :
  Run (fun old new =>
         exists menuItem,
           onMenu w menuItem
           /\ new = mergeIntoCart
                      (buildCartItem (default "" (arg_itemName body)) menuItem
                         (Qfloor (requestedQuantity body))
                         (default "" (arg_specialInstructions body))
                         (arg_firstItemSpiceLevel body) (arg_secondItemSpiceLevel body))
                      (Qfloor (requestedQuantity body)) old)
    (call_id body) w (addToCart body w).1 (addToCart body w).2.
Proof.
  unfold addToCart, extractCallId. repeat handler_step; close_run.
  all: match goal with
       | H : @lookup _ MenuItem _ _ _ _ = Some ?m |- _ => exists m
       end.
  all: split; [|reflexivity].
  all: match goal with
       | H : getLocationMenu _ _ _ = Ok _ |- _ => apply getLocationMenu_Ok in H
       end.
  all: by eexists _, _, _.
Qed.

Lemma squareLineItems_Ok (cart : list CartItem) :
  Forall (fun it => ~ unpriced it) cart -> exists lines, squareLineItems cart = Ok lines.
Proof.
  intros Hall. pose proof (squareLineItems_cases cart) as H.
  destruct (squareLineItems cart) as [lines|e]; [by exists lines|].
  exfalso. apply Exists_exists in H as (it & Hin & Hit).
  rewrite Forall_forall in Hall. by apply (Hall it).
Qed.

Lemma squareLineItems_Throw (cart : list CartItem) :
  Exists unpriced cart -> exists e, squareLineItems cart = Throw e.
Proof.
  intros Hex. pose proof (squareLineItems_cases cart) as H.
  destruct (squareLineItems cart) as [lines|e]; [|by exists e].
  exfalso. destruct H as [Hall _]. apply Exists_exists in Hex as (it & Hin & Hit).
  rewrite Forall_forall in Hall. by apply (Hall it).
Qed.

(** One operation stores no line that [convertCartToSquareOrder] refuses. *)
Lemma run_priced (op : Operation) (body : Body) (w : World) :
  (forall menuItem, onMenu w menuItem -> pricedItem menuItem) ->
  (forall c, Forall (fun it => ~ unpriced it) (storedCart w c)) ->
  forall c, Forall (fun it => ~ unpriced it) (storedCart (run op body w).2 c).
Proof.
  intros Hmenu Hinv. destruct op; simpl.
  - eapply Run_preserves; [apply addToCart_run_menu | | exact Hinv].
    intros old new (menuItem & Hon & ->) Hold. unfold mergeIntoCart.
    destruct (findIndex _ old) as [k|].
    + apply Forall_alter; [done|]. intros x _ Hx. exact Hx.
    + apply Forall_app. split; [done|]. constructor; [|constructor].
      destruct (Hmenu menuItem Hon) as [Hp Hc]. unfold unpriced. simpl. tauto.
  - eapply Run_preserves; [apply removeFromCart_run | | exact Hinv].
    intros old new (i & item & _ & Hitem & ->) Hold. unfold removeAt.
    destruct (_ >=? _).
    + eapply sublist_Forall_keep; [apply sublist_delete | done].
    + apply Forall_alter; [done|]. intros x _ Hx. exact Hx.
  - by rewrite getCartSummary_world.
  - by rewrite upsell_world.
  - eapply Run_preserves; [apply addModifierToCart_run | | exact Hinv].
    intros old new (menuItem & i & item & _ & Hitem & _ & ->) Hold.
    apply Forall_insert; [done|].
    rewrite Forall_forall in Hold. apply (Hold item). by eapply list_elem_of_lookup_2.
  - eapply Run_preserves; [apply removeModifierFromCart_run | | exact Hinv].
    intros old new (i & item & _ & Hitem & _ & ->) Hold.
    apply Forall_insert; [done|].
    rewrite Forall_forall in Hold. apply (Hold item). by eapply list_elem_of_lookup_2.
Qed.

(** No operation changes the table of the menus. *)
Lemma run_keeps_menus (op : Operation) (body : Body) (w : World) :
  clientMenu (run op body w).2 = clientMenu w.
Proof.
  destruct (run_saves_own_session op body w) as [-> | (cart & res & Hsave)]; [done|].
  revert Hsave. generalize (run op body w).2. intros w'.
  unfold saveSessionCart. destruct (call_id body) as [c|]; [|by intros [= _ <-]].
  destruct (String.eqb c ""); [by intros [= _ <-]|].
  destruct (putFails w); by intros [= _ <-].
Qed.

(** X21. While every item on the menus has a price and a currency, a cart the
    order could be built from stays one under every sequence of operations
    whose [addItem] requests name items of the menu: no handler then stores a
    line that [convertCartToSquareOrder] refuses.  (For an item name that is a
    property of the menu row without being an item, the code builds a line
    without price; such requests are not among those of the statement.) *)
Theorem order_stays_possible (requests : list (Operation * Body)) (w : World) :
  (forall menuItem, onMenu w menuItem -> pricedItem menuItem) ->
  (forall c, Forall (fun it => ~ unpriced it) (storedCart w c)) ->
  Forall (namesMenuItem w) requests ->
  forall c,
    Forall (fun it => ~ unpriced it) (storedCart (runAll requests w) c)
    /\ exists order, orderOfCart (storedCart (runAll requests w) c) = Ok order.
Proof.
  intros Hmenu Hinv _.
  assert (Hkept : forall c,
             Forall (fun it => ~ unpriced it) (storedCart (runAll requests w) c)).
  { apply (runAll_preserves
             (fun w => (forall menuItem, onMenu w menuItem -> pricedItem menuItem)
                       /\ forall c, Forall (fun it => ~ unpriced it) (storedCart w c)));
      [|done].
    intros op body w' [Hm Hi]. split; [|by apply run_priced].
    intros menuItem (key & menu & itemName & Hk & Hn). apply Hm.
    rewrite run_keeps_menus in Hk. by exists key, menu, itemName. }
  intros c. split; [apply Hkept|].
  destruct (squareLineItems_Ok _ (Hkept c)) as [lines Hlines].
  unfold orderOfCart, convertCartToSquareOrder. rewrite Hlines. by eexists.
Qed.

Lemma sampleMenu_priced (menuItem : MenuItem) :
  onMenu (Sample.world ∅) menuItem -> pricedItem menuItem.
Proof.
  intros (key & menu & itemName & Hmenu & Hitem). simpl in Hmenu.
  apply lookup_singleton_Some in Hmenu as [_ <-]. unfold Sample.menu in Hitem.
  repeat (apply lookup_insert_Some in Hitem as [[_ <-] | [_ Hitem]]; [by split|]).
  by rewrite lookup_empty in Hitem.
Qed.

Lemma order_stays_possible_witness :
  exists order,
    orderOfCart
      (storedCart (runAll [(addItem, Sample.addItemRequest "Sandwich" (Some 2%Q) None None);
                           (addModifiers, Sample.modifiersRequest "Sandwich" ["Add cheese"] [])]
                     (Sample.world ∅)) "call-1") = Ok order.
Proof.
  refine (proj2 (order_stays_possible
                   [(addItem, Sample.addItemRequest "Sandwich" (Some 2%Q) None None);
                    (addModifiers, Sample.modifiersRequest "Sandwich" ["Add cheese"] [])]
                   (Sample.world ∅) sampleMenu_priced _ _ "call-1")).
  - intros c. unfold storedCart. simpl. rewrite lookup_empty. constructor.
  - constructor; [|constructor; [|constructor]].
    + intros _ loc menu Hloc Hmenu.
      assert (Hl : getLocationFromPhoneNumber
                     (extractPhoneNumber (Sample.addItemRequest "Sandwich" (Some 2%Q) None None))
                     (Sample.world ∅)
                   = Ok {| locationId := "L1"; restaurantName := "Red Bird" |})
        by reflexivity.
      cbn [snd] in Hloc. rewrite Hl in Hloc. injection Hloc as <-.
      assert (Hm : getLocationMenu "Red Bird" "L1" (Sample.world ∅) = Ok Sample.menu)
        by reflexivity.
      cbn [restaurantName locationId] in Hmenu. rewrite Hm in Hmenu. injection Hmenu as <-.
      by eexists.
    + intros Hop. discriminate Hop.
Defined.

(** X22. An item the menu lists with price 0 or without a currency is added to
    the cart like any other; when no line of that variation is in the cart
    yet, the order can no longer be built from the stored cart. *)
Theorem unpriced_item_blocks_order (body : Body) (w : World) (c itemName : string)
  (q : Z) (loc : LocationData) (menu : gmap string MenuItem) (menuItem : MenuItem) :
  call_id body = Some c -> c <> "" ->
  arg_itemName body = Some itemName -> itemName <> "" ->
  arg_quantity body = Some (inject_Z q) -> 0 < q ->
  getLocationFromPhoneNumber (extractPhoneNumber body) w = Ok loc ->
  getLocationMenu (restaurantName loc) (locationId loc) w = Ok menu ->
  menu !! itemName = Some menuItem ->
  getFails w SESSION_CARTS_TABLE = None -> putFails w = None ->
  ~ pricedItem menuItem ->
  (forall x, x ∈ storedCart w c -> itemId x <> menu_variation_id menuItem) ->
  statusCode (addToCart body w).1 = 200
  /\ length (storedCart (addToCart body w).2 c) = S (length (storedCart w c))
  /\ exists e, orderOfCart (storedCart (addToCart body w).2 c) = Throw e.
Proof.
  intros Hc Hne Hn Hnn Hq Hpos Hloc Hmenu Hitem Hg Hp Hfree Hnew.
  destruct (addToCart_ok body w c itemName q loc menu menuItem)
    as (Hst & -> & _); try done.
  split; [done|].
  rewrite mergeIntoCart_new.
  2:{ intros x Hx (Hid & _). by apply (Hnew x Hx). }
  split; [rewrite length_app; simpl; lia|].
  destruct (squareLineItems_Throw
              (storedCart w c ++
               [buildCartItem itemName menuItem q (default "" (arg_specialInstructions body))
                  (arg_firstItemSpiceLevel body) (arg_secondItemSpiceLevel body)]))
    as [e He].
  { apply Exists_app. right. constructor. unfold unpriced, pricedItem in *. simpl.
    destruct (Z.eq_dec (menu_price menuItem) 0) as [?|?]; [by left|].
    destruct (decide (menu_currency menuItem = "")) as [?|?]; [by right|]. tauto. }
  exists e. unfold orderOfCart, convertCartToSquareOrder. by rewrite He.
Qed.

Lemma unpriced_item_blocks_order_witness :
  statusCode (addToCart (Sample.addItemRequest "Water" (Some 1%Q) None None)
                withFreeWater).1 = 200
  /\ exists e, orderOfCart
                 (storedCart (addToCart (Sample.addItemRequest "Water" (Some 1%Q) None None)
                                withFreeWater).2 "call-1") = Throw e.
Proof.
  destruct (unpriced_item_blocks_order
              (Sample.addItemRequest "Water" (Some 1%Q) None None) withFreeWater
              "call-1" "Water" 1 {| locationId := "L1"; restaurantName := "Red Bird" |}
              (<["Water" := Sample.simple "VAR-WATER" 0]> Sample.menu)
              (Sample.simple "VAR-WATER" 0)) as (H1 & _ & H2);
    try reflexivity; try discriminate; try lia.
  - intros [Hp _]. by apply Hp.
  - intros x Hx. vm_compute in Hx. apply list_elem_of_singleton in Hx as ->. discriminate.
  - by split.
Defined.

(** ** The spice-level resolver *)

Lemma mapChars_empty (f : ascii -> ascii) (s : string) :
  String.eqb (JS.mapChars f s) "" = String.eqb s "".
Proof. by destruct s. Qed.

(** X23. [findSpiceLevelModifier] does not look at the case of the spice level
    asked for.  The modifier it finds has an option name that, trimmed and in
    lower case, is the spice level in lower case; for a two-piece item it is
    of the category of the piece, and otherwise of a category whose name
    contains [spice level] whatever the case. *)
Theorem findSpiceLevelModifier_spec (menuItem : MenuItem) (spiceLevel spiceLevel' : string)
  (isFirstItem is2PcItem : bool) :
  JS.toLowerCase spiceLevel = JS.toLowerCase spiceLevel' ->
  findSpiceLevelModifier menuItem spiceLevel isFirstItem is2PcItem
  = findSpiceLevelModifier menuItem spiceLevel' isFirstItem is2PcItem
  /\ forall a,
       findSpiceLevelModifier menuItem spiceLevel isFirstItem is2PcItem = Some a ->
       spiceLevel' <> ""
       /\ JS.toLowerCase (JS.trim (optionName a)) = JS.toLowerCase spiceLevel'
       /\ if is2PcItem
          then category a = (if isFirstItem then FIRST_MODS else SECOND_MODS)
          else JS.includes (JS.toLowerCase (category a)) "spice level" = true.
Proof.
  intros Hcase.
  assert (Hempty : String.eqb spiceLevel "" = String.eqb spiceLevel' "").
  { rewrite <- (mapChars_empty JS.lowerChar spiceLevel),
            <- (mapChars_empty JS.lowerChar spiceLevel').
    unfold JS.toLowerCase in Hcase. by rewrite Hcase. }
  unfold findSpiceLevelModifier. rewrite Hempty, Hcase. split; [done|].
  intros a. destruct (String.eqb spiceLevel' "") eqn:He; [discriminate|].
  apply String.eqb_neq in He.
  destruct (menu_modifiers menuItem) as [cats|]; [|discriminate].
  destruct is2PcItem.
  - destruct (List.find _ cats) as [cat|] eqn:Hcat; [|discriminate].
    destruct (cat_options cat) as [opts|]; [|discriminate].
    destruct (List.find _ opts) as [o|] eqn:Ho; [|discriminate].
    intros [= <-]. simpl. apply find_some_iff in Hcat, Ho.
    by apply String.eqb_eq in Hcat, Ho.
  - destruct (List.find _ cats) as [cat|] eqn:Hcat; [|discriminate].
    destruct (cat_options cat) as [opts|]; [|discriminate].
    destruct (List.find _ opts) as [o|] eqn:Ho; [|discriminate].
    intros [= <-]. simpl. apply find_some_iff in Hcat, Ho.
    by apply String.eqb_eq in Ho.
Qed.

Lemma findSpiceLevelModifier_spec_witness :
  findSpiceLevelModifier Sample.sandwich "MILD" true false
  = findSpiceLevelModifier Sample.sandwich "mild" true false
  /\ exists a, findSpiceLevelModifier Sample.sandwich "MILD" true false = Some a
               /\ optionId a = "SP-MILD".
Proof.
  split.
  - apply (findSpiceLevelModifier_spec Sample.sandwich "MILD" "mild" true false eq_refl).
  - eexists. split; reflexivity.
Defined.

(** ** The restaurant of a request *)

(** X24. A request without the number that was called is served as a request
    to the default number +17039120079, and no operation ever answers that
    the phone number is missing: the guard for it cannot fire. *)
Theorem default_restaurant (op : Operation) (body : Body) (w : World) :
  (JS.truthy (to_number body) = false ->
   run op body w = run op (withToNumber "+17039120079" body) w)
  /\ (run op body w).1
     <> createErrorResponse 400
          "Missing phone number in request - cannot determine location".
Proof.
  split.
  - intros Hno.
    assert (Hphone : extractPhoneNumber body
                     = extractPhoneNumber (withToNumber "+17039120079" body)).
    { unfold extractPhoneNumber. by rewrite Hno. }
    destruct op; simpl;
      unfold addToCart, removeFromCart, getCartSummary, upsell, addModifierToCart,
        removeModifierFromCart, extractCallId, requestedQuantity;
      rewrite ?Hphone; reflexivity.
  - unfold createErrorResponse, createSuccessResponse. destruct op; simpl.
    + unfold addToCart. rewrite extractPhoneNumber_nonempty.
      repeat handler_step; unfold internalError, createErrorResponse, createSuccessResponse;
        simpl; discriminate.
    + unfold removeFromCart.
      repeat handler_step; unfold internalError, createErrorResponse, createSuccessResponse;
        simpl; discriminate.
    + unfold getCartSummary.
      repeat handler_step; unfold internalError, createErrorResponse, createSuccessResponse;
        simpl; discriminate.
    + unfold upsell.
      repeat handler_step; unfold internalError, createErrorResponse, createSuccessResponse;
        simpl; discriminate.
    + unfold addModifierToCart. rewrite extractPhoneNumber_nonempty.
      repeat handler_step; unfold internalError, createErrorResponse, createSuccessResponse;
        simpl; discriminate.
    + unfold removeModifierFromCart.
      repeat handler_step; unfold internalError, createErrorResponse, createSuccessResponse;
        simpl; discriminate.
Qed.

Lemma default_restaurant_witness :
  run addItem friesOnce cartWithFries
  = run addItem (withToNumber "+17039120079" friesOnce) cartWithFries
  /\ statusCode (run addItem friesOnce cartWithFries).1 = 200.
Proof.
  split; [|reflexivity].
  apply (proj1 (default_restaurant addItem friesOnce cartWithFries)). reflexivity.
Defined.

(** ** The total the customer hears *)

Lemma toFixed2_cents (x : Q) (cents : Z) :
  (x * 100 == inject_Z cents)%Q -> 0 <= cents -> JS.toFixed2 x = dollarsAndCents cents.
Proof.
  intros Hx Hpos.
  assert (Hnonneg : (0 <= x)%Q).
  { assert (Hx' : (x == inject_Z cents / 100)%Q) by (rewrite <- Hx; field).
    rewrite Hx'. apply Qle_shift_div_l; [reflexivity|].
    rewrite Qmult_0_l. change 0%Q with (inject_Z 0). by rewrite <- Zle_Qle. }
  unfold JS.toFixed2, dollarsAndCents.
  assert (Hn : Qfloor (Qabs x * 100 + (1 # 2)) = cents).
  { transitivity (mathRound (inject_Z cents)); [|apply mathRound_inject].
    unfold mathRound. apply Qfloor_comp. by rewrite Qabs_pos, Hx. }
  rewrite Hn. destruct (Qlt_le_dec x 0) as [Hlt|_]; [|done].
  exfalso. by apply (Qlt_not_le _ _ Hlt).
Qed.

(** X25. For a non-empty cart of well-formed lines whose line totals are in
    step and whose amounts are not negative, the total [getCartSummary] speaks
    is the total of the order handed to the payment processor, in dollars with
    two decimals. *)
Theorem spoken_total_is_order_total (body : Body) (w : World) (c : string) :
  call_id body = Some c -> c <> "" ->
  getFails w SESSION_CARTS_TABLE = None ->
  storedCart w c <> [] ->
  Forall wellFormed (storedCart w c) ->
  Forall lineTotalOk (storedCart w c) ->
  0 <= orderTotal (storedCart w c) ->
  (getCartSummary body w).1
  = createSuccessResponse
      (JS.join ", " (speechItem <$> storedCart w c)
       +:+ ". Your total is $" +:+ dollarsAndCents (orderTotal (storedCart w c))
       +:+ " plus tax").
Proof.
  intros Hc Hne Hg Hcart Hwf Hok Hpos.
  unfold getCartSummary, extractCallId. rewrite Hc, truthy_Some by done.
  simpl negb. cbv iota. rewrite (getSessionCart_ok c w Hne Hg).
  destruct (storedCart w c) as [|it cart] eqn:E; [done|].
  cbn [fst]. f_equal. unfold createSpeechFriendlySummary.
  rewrite (toFixed2_cents _ (orderTotal (it :: cart))); [done| |done].
  by apply (cartSubtotal_cents (it :: cart)).
Qed.

Lemma spoken_total_is_order_total_witness :
  message (getCartSummary Sample.request cheeseSandwiches).1
  = "2 Sandwich - with cheese. Your total is $19.98 plus tax".
Proof.
  rewrite (spoken_total_is_order_total Sample.request cheeseSandwiches "call-1");
    try reflexivity; try discriminate.
  - let cart := eval vm_compute in (storedCart cheeseSandwiches "call-1") in
    change (storedCart cheeseSandwiches "call-1") with cart.
    constructor; [|constructor].
    split; [reflexivity|]. split; [reflexivity|]. split; [reflexivity|].
    split; [reflexivity|]. constructor; [|constructor]. by exists 100.
  - apply lineTotalOk_from_empty.
Defined.
